(** * HostFlow STR logic: analytics and calendar reconciliation engine

    A shallow embedding of [src/str_logic.py].  Python [float] is IEEE-754
    binary64 and is modelled by Rocq's primitive floats; Python [int] is [Z];
    [str] is [string], one [ascii] per code point below 256 (the pictographs
    of the briefing texts stand as their UTF-8 bytes); a [dict] with a fixed
    set of keys is a record, a [dict] keyed by data is a [gmap], a [set] is a
    [gset].  [date.today()] and [generate_id()] read the clock, which is
    passed explicitly.  A number that the source holds as the [int] 0 until a
    [float] is added to it is the [float] 0 here. *)

From Stdlib Require Import ZArith List String Ascii Bool Lia Sorted.
From Stdlib Require Import Floats.
From stdpp Require Import base option list strings gmap.

Set Warnings "-inexact-float".
Local Open Scope Z_scope.

(* ================================================================= *)
(** ** Numbers *)

Module Num.

(** Conversion of a Python [int] to [float] (round to nearest, ties to
    even; exact below 2^53). *)
Definition of_Z (z : Z) : float :=
  match z with
  | Z0 => 0%float
  | Zpos p => SF2Prim (binary_normalize prec emax (Zpos p) 0 false)
  | Zneg p => SF2Prim (binary_normalize prec emax (Zneg p) 0 false)
  end.

(** [a / b] of two Python [int]s, [b] not zero: the quotient correctly
    rounded (to nearest, ties to even). *)
Definition div_Z (a b : Z) : float :=
  let sf (z : Z) :=
    match z with
    | Z0 => S754_zero false
    | Zpos p => S754_finite false p 0
    | Zneg p => S754_finite true p 0
    end in
  SF2Prim (SFdiv prec emax (sf a) (sf b)).

(** Round half to even of the rational [num / den], [den > 0]. *)
Definition round_half_even (num den : Z) : Z :=
  let q := num / den in
  let r := num mod den in
  match 2 * r ?= den with
  | Lt => q
  | Gt => q + 1
  | Eq => if Z.even q then q else q + 1
  end.

(** The nearest integer (ties to even) to [m * 2^e * 10^nd]. *)
Definition scaled_nearest (m : positive) (e : Z) (nd : nat) : Z :=
  let p10 := 10 ^ Z.of_nat nd in
  if 0 <=? e then Zpos m * 2 ^ e * p10
  else round_half_even (Zpos m * p10) (2 ^ (- e)).

(** [round(x, ndigits)] of CPython for a float [x] and [ndigits >= 0]:
    the exact binary value of [x] is rounded half-even to [ndigits]
    decimals, and that decimal is converted back to the nearest double.
    Infinities and NaN round to themselves. *)
Definition py_round (x : float) (nd : nat) : float :=
  match Prim2SF x with
  | S754_finite s m e =>
      match scaled_nearest m e nd with
      | Zpos n =>
          SF2Prim (SFdiv prec emax (S754_finite s n 0)
                     (S754_finite false (Z.to_pos (10 ^ Z.of_nat nd)) 0))
      | _ => if s then (-0)%float else 0%float
      end
  | _ => x
  end.

End Num.

(* ================================================================= *)
(** ** Section 17 of the source: helpers *)

(** [calculate_payout(rate, nights, clean, pct=0.03)]. *)
Definition payout_gross (rate : float) (nights : Z) (clean : float) : float :=
  (rate * Num.of_Z nights + clean)%float.

Definition calculate_payout (rate : float) (nights : Z) (clean : float)
    (pct : float) : float * float :=
  let g := payout_gross rate nights clean in
  let f := (g * pct)%float in
  (Num.py_round (g - f)%float 2, Num.py_round f 2).

Definition default_pct : float := 0.03%float.



(* ================================================================= *)
(** ** Python [str] operations used by the engine *)

Module Str.

Definition code (c : ascii) : Z := Z.of_N (N_of_ascii c).

Definition is_digit (c : ascii) : bool := (48 <=? code c) && (code c <=? 57).

Definition digit_val (c : ascii) : Z := code c - 48.

(** [str.isspace] on code points below 256. *)
Definition is_space (c : ascii) : bool :=
  let n := code c in
  ((9 <=? n) && (n <=? 13)) || ((28 <=? n) && (n <=? 32))
  || (n =? 133) || (n =? 160).

(** Line boundaries of [str.splitlines] below 256. *)
Definition is_linebreak (c : ascii) : bool :=
  let n := code c in
  ((10 <=? n) && (n <=? 13)) || ((28 <=? n) && (n <=? 30)) || (n =? 133).

Definition lower_char (c : ascii) : ascii :=
  let n := code c in
  if ((65 <=? n) && (n <=? 90))
     || ((192 <=? n) && (n <=? 222) && negb (n =? 215))
  then ascii_of_N (Z.to_N (n + 32)) else c.

Fixpoint lower (s : string) : string :=
  match s with
  | EmptyString => EmptyString
  | String c s' => String (lower_char c) (lower s')
  end.

Fixpoint rev_app (acc s : string) : string :=
  match acc with
  | EmptyString => s
  | String c acc' => rev_app acc' (String c s)
  end.

Definition rev (s : string) : string := rev_app s EmptyString.

Fixpoint lstrip_by (p : ascii -> bool) (s : string) : string :=
  match s with
  | EmptyString => EmptyString
  | String c s' => if p c then lstrip_by p s' else s
  end.

Definition rstrip_by (p : ascii -> bool) (s : string) : string :=
  rev (lstrip_by p (rev s)).

(** [s.strip()] *)
Definition strip (s : string) : string := rstrip_by is_space (lstrip_by is_space s).

(** [s.rstrip(cs)] for a one-character set *)
Definition rstrip_char (c : ascii) (s : string) : string :=
  rstrip_by (Ascii.eqb c) s.

Fixpoint drop (n : nat) (s : string) : string :=
  match n, s with
  | O, _ => s
  | S n', String _ s' => drop n' s'
  | S _, EmptyString => EmptyString
  end.

Fixpoint take (n : nat) (s : string) : string :=
  match n, s with
  | S n', String c s' => String c (take n' s')
  | _, _ => EmptyString
  end.

Definition startswith (s p : string) : bool := String.prefix p s.

(** [p in s] *)
Fixpoint contains (p s : string) : bool :=
  String.prefix p s ||
  match s with
  | EmptyString => false
  | String _ s' => contains p s'
  end.

(** First occurrence of a non-empty [sep]: the text before it and the
    text after it. *)
Fixpoint split_once (sep s : string) : option (string * string) :=
  if String.prefix sep s then Some (EmptyString, drop (String.length sep) s)
  else match s with
       | EmptyString => None
       | String c s' =>
           match split_once sep s' with
           | Some (a, b) => Some (String c a, b)
           | None => None
           end
       end.

(** [s.split(sep)[0]] *)
Definition before (sep s : string) : string :=
  match split_once sep s with Some (a, _) => a | None => s end.

(** [s.split(sep, 1)[-1]] *)
Definition after (sep s : string) : string :=
  match split_once sep s with Some (_, b) => b | None => s end.

(** [s.split(c)] for a single character [c] *)
Fixpoint split_char (c : ascii) (s : string) : list string :=
  match s with
  | EmptyString => [EmptyString]
  | String d s' =>
      if Ascii.eqb c d then EmptyString :: split_char c s'
      else match split_char c s' with
           | w :: ws => String d w :: ws
           | [] => [String d EmptyString]
           end
  end.

(** [s.replace(old, new)] for a non-empty [old]; [skip] counts the
    characters of a match still to be passed over. *)
Fixpoint replace_from (old new : string) (skip : nat) (s : string) : string :=
  match s with
  | EmptyString => EmptyString
  | String c s' =>
      match skip with
      | S k => replace_from old new k s'
      | O =>
          if String.prefix old s
          then new ++ replace_from old new (Nat.pred (String.length old)) s'
          else String c (replace_from old new O s')
      end
  end.

Definition replace (old new s : string) : string := replace_from old new O s.

(** [s.splitlines()]; [cur] is the current line, reversed. *)
Fixpoint splitlines_from (cur : string) (s : string) : list string :=
  match s with
  | EmptyString =>
      match cur with EmptyString => [] | _ => [rev cur] end
  | String c s' =>
      if is_linebreak c then
        rev cur ::
          match s' with
          | String d s'' =>
              if (code c =? 13) && (code d =? 10)
              then splitlines_from EmptyString s''
              else splitlines_from EmptyString s'
          | EmptyString => []
          end
      else splitlines_from (String c cur) s'
  end.

Definition splitlines (s : string) : list string := splitlines_from EmptyString s.

(** [int(re.findall(r"\d+", s)[0])], when there is a digit (and no more
    digits in the run than [int] converts, 4300 by default). *)
Fixpoint digits_value (acc : Z) (s : string) : Z :=
  match s with
  | String c s' => if is_digit c then digits_value (10 * acc + digit_val c) s' else acc
  | EmptyString => acc
  end.

Fixpoint first_number (s : string) : option Z :=
  match s with
  | EmptyString => None
  | String c s' => if is_digit c then Some (digits_value 0 s) else first_number s'
  end.

(** Decimal text of a non-negative integer, padded with zeros to [width]. *)
Fixpoint digits_of (fuel : nat) (n : Z) (acc : string) : string :=
  match fuel with
  | O => acc
  | S f =>
      let acc' := String (ascii_of_N (Z.to_N (48 + n mod 10))) acc in
      if n / 10 =? 0 then acc' else digits_of f (n / 10) acc'
  end.

Definition of_Z (n : Z) : string :=
  if n <? 0 then String "-" (digits_of (Z.to_nat (- n) + 1) (- n) EmptyString)
  else digits_of (Z.to_nat n + 1) n EmptyString.

Fixpoint zeros (n : nat) : string :=
  match n with O => EmptyString | S k => String "0" (zeros k) end.

Definition pad (width : nat) (n : Z) : string :=
  let d := of_Z n in
  zeros (width - String.length d) ++ d.

End Str.


(* ================================================================= *)
(** ** [datetime.date] *)

(** A date is its proleptic Gregorian ordinal ([date.toordinal()], day 1 is
    0001-01-01), so that [d1 < d2] and [(d1 - d2).days] are the order and
    the difference of [Z], and [d + timedelta(days=n)] is [d + n].  Parsing
    gives the dates of the years 1 to 9999 only; arithmetic is not bounded
    here, where Python raises [OverflowError] beyond the year 9999. *)
Definition date : Type := Z.

Module Date.

Definition is_leap (y : Z) : bool :=
  (y mod 4 =? 0) && (negb (y mod 100 =? 0) || (y mod 400 =? 0)).

Definition days_in_month (y m : Z) : Z :=
  if m =? 2 then (if is_leap y then 29 else 28)
  else if (m =? 4) || (m =? 6) || (m =? 9) || (m =? 11) then 30 else 31.

Definition days_before_year (y : Z) : Z :=
  let p := y - 1 in p * 365 + p / 4 - p / 100 + p / 400.

(** Days of a non-leap year before the first of month [m]. *)
Definition days_before_month_tbl (m : Z) : Z :=
  match m with
  | 1 => 0 | 2 => 31 | 3 => 59 | 4 => 90 | 5 => 120 | 6 => 151
  | 7 => 181 | 8 => 212 | 9 => 243 | 10 => 273 | 11 => 304 | _ => 334
  end.

Definition days_before_month (y m : Z) : Z :=
  days_before_month_tbl m + (if (2 <? m) && is_leap y then 1 else 0).

Definition ymd2ord (y m d : Z) : date :=
  days_before_year y + days_before_month y m + d.

(** [date(y, m, d)]: [None] stands for the [ValueError]. *)
Definition make (y m d : Z) : option date :=
  if (1 <=? y) && (y <=? 9999) && (1 <=? m) && (m <=? 12)
     && (1 <=? d) && (d <=? days_in_month y m)
  then Some (ymd2ord y m d) else None.

(** The year, month and day of an ordinal. *)
Definition ord2ymd (o : date) : Z * Z * Z :=
  let n := o - 1 in
  let n400 := n / 146097 in
  let n := n mod 146097 in
  let n100 := n / 36524 in
  let n := n mod 36524 in
  let n4 := n / 1461 in
  let n := n mod 1461 in
  let n1 := n / 365 in
  let n := n mod 365 in
  let y := n400 * 400 + 1 + n100 * 100 + n4 * 4 + n1 in
  if (n1 =? 4) || (n100 =? 4) then (y - 1, 12, 31)
  else
    let leap := (n1 =? 3) && (negb (n4 =? 24) || (n100 =? 3)) in
    let m := Z.shiftr (n + 50) 5 in
    let preceding :=
      days_before_month_tbl m + (if (2 <? m) && leap then 1 else 0) in
    if n <? preceding then
      let m' := m - 1 in
      let preceding' :=
        preceding
        - ((if m' =? 2 then 28
            else if (m' =? 4) || (m' =? 6) || (m' =? 9) || (m' =? 11)
                 then 30 else 31)
           + (if (m' =? 2) && leap then 1 else 0)) in
      (y, m', n - preceding' + 1)
    else (y, m, n - preceding + 1).

Definition year (d : date) : Z := fst (fst (ord2ymd d)).
Definition month (d : date) : Z := snd (fst (ord2ymd d)).
Definition day (d : date) : Z := snd (ord2ymd d).

(** [d.isoformat()] *)
Definition isoformat (d : date) : string :=
  let '(y, m, dd) := ord2ymd d in
  Str.pad 4 y ++ "-" ++ Str.pad 2 m ++ "-" ++ Str.pad 2 dd.

(** [d.replace(day=1)] *)
Definition first_of_month (d : date) : date := d - day d + 1.

End Date.

(** *** [datetime.strptime] for the formats the engine uses

    The format is compiled to a regular expression whose alternatives are
    tried in order with backtracking; the first match must consume the whole
    text, and the fields must form a valid date and time. *)
Module Strptime.

Inductive item :=
| FY | Fm | Fd | FH | FM | FS      (* %Y %m %d %H %M %S *)
| Lit (c : ascii).                 (* a literal character *)

Definition in_range (lo hi : Z) (c : ascii) : bool :=
  (lo <=? Str.code c) && (Str.code c <=? hi).

(** One alternative of two characters, or of one character. *)
Definition two (p1 p2 : ascii -> bool) (s : string) : list (Z * string) :=
  match s with
  | String a (String b r) =>
      if p1 a && p2 b then [(10 * Str.digit_val a + Str.digit_val b, r)] else []
  | _ => []
  end.

Definition one (p : ascii -> bool) (s : string) : list (Z * string) :=
  match s with
  | String a r => if p a then [(Str.digit_val a, r)] else []
  | _ => []
  end.

Definition chr (c : ascii) : ascii -> bool := Ascii.eqb c.
Definition d09 := Str.is_digit.
Definition d19 := in_range 49 57.

(** The matches of one field at the head of [s], in the order the regular
    expression tries them: the value read and the rest of the text. *)
Definition field (f : item) (s : string) : list (Z * string) :=
  match f with
  | FY =>
      match s with
      | String a (String b (String c (String d r))) =>
          if d09 a && d09 b && d09 c && d09 d
          then [(1000 * Str.digit_val a + 100 * Str.digit_val b
                 + 10 * Str.digit_val c + Str.digit_val d, r)]
          else []
      | _ => []
      end
  | Fm => two (chr "1") (in_range 48 50) s ++ two (chr "0") d19 s ++ one d19 s
  | Fd => two (chr "3") (in_range 48 49) s ++ two (in_range 49 50) d09 s
          ++ two (chr "0") d19 s ++ one d19 s
          ++ match s with
             | String a (String b r) =>
                 if chr " " a && d19 b then [(Str.digit_val b, r)] else []
             | _ => []
             end
  | FH => two (chr "2") (in_range 48 51) s ++ two (in_range 48 49) d09 s ++ one d09 s
  | FM => two (in_range 48 53) d09 s ++ one d09 s
  | FS => two (chr "6") (in_range 48 49) s ++ two (in_range 48 53) d09 s ++ one d09 s
  | Lit c =>
      match s with
      | String a r =>
          if Ascii.eqb (Str.lower_char a) (Str.lower_char c) then [(0, r)] else []
      | _ => []
      end
  end.

(** All matches of a format, first match first: the field values in
    order, and the unconverted rest. *)
Fixpoint matches (fmt : list item) (s : string) : list (list Z * string) :=
  match fmt with
  | [] => [([], s)]
  | f :: fmt' =>
      flat_map (fun '(v, r) =>
                  List.map (fun '(vs, r') => (v :: vs, r')) (matches fmt' r))
               (field f s)
  end.

Definition value_of (fmt : list item) (vs : list Z) (f : item) (dflt : Z) : Z :=
  let fix go (fmt : list item) (vs : list Z) : Z :=
    match fmt, vs with
    | g :: fmt', v :: vs' =>
        match f, g with
        | FY, FY | Fm, Fm | Fd, Fd | FH, FH | FM, FM | FS, FS => v
        | _, _ => go fmt' vs'
        end
    | _, _ => dflt
    end in
  go fmt vs.

(** [datetime.strptime(s, fmt).date()]; [None] stands for [ValueError]. *)
Definition strptime_date (fmt : list item) (s : string) : option date :=
  match matches fmt s with
  | (vs, EmptyString) :: _ =>
      if value_of fmt vs FS 0 <=? 59
      then Date.make (value_of fmt vs FY 1900) (value_of fmt vs Fm 1)
                     (value_of fmt vs Fd 1)
      else None
  | _ => None
  end.

Definition fmt_iso : list item := [FY; Lit "-"; Fm; Lit "-"; Fd].      (* %Y-%m-%d *)
Definition fmt_us_slash : list item := [Fm; Lit "/"; Fd; Lit "/"; FY]. (* %m/%d/%Y *)
Definition fmt_us_dash : list item := [Fm; Lit "-"; Fd; Lit "-"; FY].  (* %m-%d-%Y *)
Definition fmt_ical_date : list item := [FY; Fm; Fd].                  (* %Y%m%d *)
Definition fmt_ical_datetime : list item :=
  [FY; Fm; Fd; Lit "T"; FH; FM; FS].                                   (* %Y%m%dT%H%M%S *)

End Strptime.

(** [_parse_date(ds)] for a string [ds]. *)
Definition _parse_date (ds : string) : option date :=
  match ds with
  | EmptyString => None
  | _ =>
      match Strptime.strptime_date Strptime.fmt_iso ds with
      | Some d => Some d
      | None =>
          match Strptime.strptime_date Strptime.fmt_us_slash ds with
          | Some d => Some d
          | None => Strptime.strptime_date Strptime.fmt_us_dash ds
          end
      end
  end.

(** [_parse_ical_date(dt_str)] *)
Definition _parse_ical_date (dt_str : string) : option date :=
  match dt_str with
  | EmptyString => None
  | _ =>
      let s := Str.rstrip_char "Z" (Str.strip dt_str) in
      match Strptime.strptime_date Strptime.fmt_ical_date s with
      | Some d => Some d
      | None => Strptime.strptime_date Strptime.fmt_ical_datetime s
      end
  end.

(** [nights_between(ci, co)] *)
Definition nights_between (ci co : string) : Z :=
  match _parse_date ci, _parse_date co with
  | Some a, Some b => Z.max (b - a) 0
  | _, _ => 0
  end.

(* ================================================================= *)
(** ** Section 1 of the source: data models

    The engine receives the entities as dicts made from the dataclasses
    ([to_dict]) and reads them with [d.get(key, default)]; a record field
    holds the value such a read returns. *)

Record Property := {
  p_property_id : string;
  p_name : option string;          (* [prop.get("name")] *)
  p_nickname : option string;      (* [prop.get("nickname")] *)
  p_address : string;
  p_status : string;
  p_check_in_time : option string;
  p_check_out_time : option string;
  p_base_nightly_rate : float;
  p_property_tax_annual : float;
  p_insurance_annual : float;
}.

Record Booking := {
  booking_id : string;
  property_id : string;
  guest_name : string;
  guest_phone : string;
  guest_email : string;
  num_guests : Z;
  check_in : string;
  check_out : string;
  num_nights : Z;
  nightly_rate : float;
  cleaning_fee : float;
  total_payout : float;
  platform : string;
  platform_fee : float;
  status : string;
  special_requests : string;
  guest_notes : string;
  turnover_status : string;
  cleaner_confirmed : bool;
  rating_given : Z;
  review_text : string;
  created_date : string;
  ical_uid : string;
}.

Record Expense := {
  e_property_id : string;
  e_category : string;
  e_amount : float;
  e_date : string;
}.

Record MaintenanceItem := {
  m_property_id : string;
  m_title : string;
  m_priority : string;
  m_status : string;
}.

(** A blocked interval of a calendar feed (the dict with ["_blocked": True]). *)
Record Blocked := {
  k_start : string;
  k_end : string;
  k_reason : string;
  k_property_id : string;
}.

(* ================================================================= *)
(** ** The system clock *)

(** What one reading of the clock gives: [date.today()] and the text of
    [datetime.now().strftime("%Y%m%d%H%M%S%f")[:18]]. *)
Record instant := { i_today : date; i_stamp : string }.

(** Computations that read the clock: the state is the number of readings
    made so far, the [n]-th reading is [clk n]. *)
Definition Clocked (A : Type) : Type := (nat -> instant) -> nat -> A * nat.

Definition ret {A} (a : A) : Clocked A := fun _ t => (a, t).

Definition bind {A B} (m : Clocked A) (k : A -> Clocked B) : Clocked B :=
  fun clk t => let '(a, t') := m clk t in k a clk t'.

Notation "'let*' x ':=' m 'in' k" := (bind m (fun x => k))
  (at level 10, x name, m at level 100, k at level 200).

Definition date_today : Clocked date := fun clk t => (i_today (clk t), S t).

(** [generate_id()] *)
Definition generate_id : Clocked string := fun clk t => (i_stamp (clk t), S t).

(* ================================================================= *)
(** ** Section 15 of the source: iCal import *)

Definition blocked_keywords : list string :=
  ["not available"; "blocked"; "closed"; "airbnb (not available)";
   "owner block"; "maintenance"; "unavailable"]%string.

(** [any(kw in summary.lower() for kw in [...])] *)
Definition is_blocked (summary : string) : bool :=
  existsb (fun kw => Str.contains kw (Str.lower summary)) blocked_keywords.

Definition str_in_list (s : string) (l : list string) : bool :=
  existsb (String.eqb s) l.

Definition nonempty (s : string) : bool :=
  match s with EmptyString => false | _ => true end.

(** [_extract_guest_name(summary, platform)] *)
Definition _extract_guest_name (summary platform : string) : string :=
  if negb (nonempty summary) then "Guest (iCal)"
  else
    let s := Str.strip summary in
    let sl := Str.lower s in
    if String.eqb sl "reserved" || String.eqb sl "airbnb (reserved)"
    then "Airbnb Guest"
    else
      match Str.split_once " - " s with
      | Some (p0, p1) =>
          if str_in_list (Str.lower p0) ["reserved"; "booked"; "vrbo"; "booking.com"]
          then
            let name := Str.strip p1 in
            if nonempty name && negb (str_in_list (Str.lower name) ["reserved"; "booked"])
            then name else platform ++ " Guest"
          else
            if nonempty (Str.strip p1) then Str.strip p1 else platform ++ " Guest"
      | None =>
          let name := Str.strip (Str.before "(" s) in
          if Str.contains "(" s && nonempty name then name
          else
            let s := fold_left
                       (fun s prefix =>
                          if Str.startswith s prefix
                          then Str.drop (String.length prefix) s else s)
                       ["Airbnb "; "VRBO "; "Booking.com "]%string s in
            if nonempty s then s else platform ++ " Guest"
      end.

Definition newline : ascii := ascii_of_N 10.

(** The phone number read from the description: the last line mentioning
    "phone" decides. *)
Definition description_phone (description : string) : string :=
  if nonempty description && Str.contains "phone" (Str.lower description) then
    fold_left
      (fun phone part =>
         if Str.contains "phone" (Str.lower part)
         then (if Str.contains ":" part then Str.strip (Str.after ":" part) else "")
         else phone)
      (Str.split_char newline description) ""%string
  else ""%string.

(** The guest count read from the description: the first number of the
    last line that mentions "guest" and has a number (default 2). *)
Definition description_guests (description : string) : Z :=
  if nonempty description then
    fold_left
      (fun n part =>
         if Str.contains "guest" (Str.lower part)
         then match Str.first_number part with Some k => k | None => n end
         else n)
      (Str.split_char newline description) 2
  else 2.

(** What [_process_ical_event] returns when it does not return [None]. *)
Inductive parsed :=
| ParsedBlocked (k : Blocked)
| ParsedBooking (b : Booking).

Definition event_get (event : gmap string string) (key : string) : string :=
  default ""%string (event !! key).

(** [_process_ical_event(event, property_id, platform, default_rate, cleaning_fee)] *)
Definition _process_ical_event (event : gmap string string)
    (pid platform : string) (default_rate cleaning : float)
  : Clocked (option parsed) :=
  let summary := event_get event "SUMMARY" in
  let dtstart := event_get event "DTSTART" in
  let dtend := event_get event "DTEND" in
  let uid := event_get event "UID" in
  let description := event_get event "DESCRIPTION" in
  match _parse_ical_date dtstart, _parse_ical_date dtend with
  | Some ci, Some co =>
      if is_blocked summary then
        ret (Some (ParsedBlocked
               {| k_start := Date.isoformat ci; k_end := Date.isoformat co;
                  k_reason := summary; k_property_id := pid |}))
      else
        let guest := _extract_guest_name summary platform in
        let phone := description_phone description in
        let guests := description_guests description in
        let nights := Z.max (co - ci) 1 in
        let '(payout, plat_fee) :=
          calculate_payout default_rate nights cleaning default_pct in
        let* bid := generate_id in
        let* t1 := date_today in
        let* st := (if t1 <? ci then ret "confirmed"%string
                    else let* t2 := date_today in
                         ret (if t2 <? co then "checked_in"%string
                              else "checked_out"%string)) in
        let* t3 := date_today in
        ret (Some (ParsedBooking
               {| booking_id := bid; property_id := pid; guest_name := guest;
                  guest_phone := phone; guest_email := ""; num_guests := guests;
                  check_in := Date.isoformat ci; check_out := Date.isoformat co;
                  num_nights := nights; nightly_rate := default_rate;
                  cleaning_fee := cleaning; total_payout := payout;
                  platform := platform; platform_fee := plat_fee; status := st;
                  special_requests := "";
                  guest_notes :=
                    (if nonempty uid
                     then "Imported from iCal. UID: " ++ Str.take 40 uid
                     else "Imported from iCal");
                  turnover_status := "pending"; cleaner_confirmed := false;
                  rating_given := 0; review_text := "";
                  created_date := Date.isoformat t3; ical_uid := uid |}))
  | _, _ => ret None
  end.

(** The state of the loop of [parse_ical]. *)
Record ical_state := {
  in_event : bool;
  event : gmap string string;
  bookings : list Booking;
  blocked : list Blocked;
}.

Definition ical_init : ical_state :=
  {| in_event := false; event := ∅; bookings := []; blocked := [] |}.

(** One iteration of the loop over the lines. *)
Definition ical_line (pid platform : string) (default_rate cleaning : float)
    (st : ical_state) (raw : string) : Clocked ical_state :=
  let line := Str.strip raw in
  if String.eqb line "BEGIN:VEVENT" then
    ret {| in_event := true; event := ∅;
           bookings := bookings st; blocked := blocked st |}
  else if String.eqb line "END:VEVENT" then
    if bool_decide (event st = ∅) then
      ret {| in_event := false; event := ∅;
             bookings := bookings st; blocked := blocked st |}
    else
      let* r := _process_ical_event (event st) pid platform default_rate cleaning in
      ret match r with
          | Some (ParsedBlocked k) =>
              {| in_event := false; event := ∅;
                 bookings := bookings st; blocked := blocked st ++ [k] |}
          | Some (ParsedBooking b) =>
              {| in_event := false; event := ∅;
                 bookings := bookings st ++ [b]; blocked := blocked st |}
          | None =>
              {| in_event := false; event := ∅;
                 bookings := bookings st; blocked := blocked st |}
          end
  else if in_event st then
    match Str.split_once ":" line with
    | Some (key, val) =>
        ret {| in_event := true;
               event := <[Str.before ";" key := val]> (event st);
               bookings := bookings st; blocked := blocked st |}
    | None => ret st
    end
  else ret st.

Fixpoint ical_lines (pid platform : string) (default_rate cleaning : float)
    (st : ical_state) (lines : list string) : Clocked ical_state :=
  match lines with
  | [] => ret st
  | l :: ls =>
      let* st' := ical_line pid platform default_rate cleaning st l in
      ical_lines pid platform default_rate cleaning st' ls
  end.

Definition CR : ascii := ascii_of_N 13.
Definition TAB : ascii := ascii_of_N 9.

(** The unfolded lines of a feed. *)
Definition ical_unfold (ical_text : string) : list string :=
  Str.splitlines
    (Str.replace (String CR (String newline (String TAB EmptyString))) ""
       (Str.replace (String CR (String newline " ")) "" ical_text)).

(** [parse_ical(ical_text, property_id, platform, default_rate, cleaning_fee)] *)
Definition parse_ical (ical_text pid platform : string)
    (default_rate cleaning : float) : Clocked (list Booking * list Blocked) :=
  if negb (nonempty ical_text) || negb (nonempty (Str.strip ical_text))
  then ret ([], [])
  else
    let* st := ical_lines pid platform default_rate cleaning ical_init
                 (ical_unfold ical_text) in
    ret (bookings st, blocked st).

(** The identity key of a booking for deduplication. *)
Definition dedup_key (b : Booking) : string * string * string :=
  (property_id b, check_in b, check_out b).

(** The state of the second loop of [deduplicate_ical_bookings]. *)
Record dedup_state := {
  existing_keys : gset (string * string * string);
  unique : list Booking;
  dupes : nat;
}.

Definition dedup_step (st : dedup_state) (b : Booking) : dedup_state :=
  if bool_decide (dedup_key b ∈ existing_keys st) then
    {| existing_keys := existing_keys st; unique := unique st;
       dupes := S (dupes st) |}
  else
    {| existing_keys := {[ dedup_key b ]} ∪ existing_keys st;
       unique := unique st ++ [b]; dupes := dupes st |}.

Definition keys_of (existing_bookings : list Booking)
  : gset (string * string * string) :=
  fold_left (fun ks b => {[ dedup_key b ]} ∪ ks) existing_bookings ∅.

(** [deduplicate_ical_bookings(existing_bookings, new_bookings)] *)
Definition deduplicate_ical_bookings (existing_bookings new_bookings : list Booking)
  : list Booking * nat :=
  let st := fold_left dedup_step new_bookings
              {| existing_keys := keys_of existing_bookings;
                 unique := []; dupes := O |} in
  (unique st, dupes st).

(* ================================================================= *)
(** ** Python built-ins on lists *)

(** [sorted(l, key=key)]: the sort is stable, so the result is the one of
    insertion from the right, an element going before its equals. *)
Fixpoint insert_by {A K : Type} (le : K -> K -> bool) (key : A -> K)
    (x : A) (l : list A) : list A :=
  match l with
  | [] => [x]
  | y :: l' =>
      if le (key x) (key y) then x :: y :: l'
      else y :: insert_by le key x l'
  end.

Definition sorted_by {A K : Type} (le : K -> K -> bool) (key : A -> K)
    (l : list A) : list A :=
  foldr (insert_by le key) [] l.

(** [sum(l)] of floats as CPython up to 3.11 computes it: from the left. *)
Definition sum_left (l : list float) : float :=
  fold_left PrimFloat.add l 0%float.

(** [sum(l)] of floats as CPython from 3.12 computes it: Neumaier's
    compensated summation; the compensation is added at the end when it is
    non-zero and finite. *)
Definition neumaier_step (st : float * float) (x : float) : float * float :=
  let '(f, c) := st in
  let t := (f + x)%float in
  if (abs x <=? abs f)%float then (t, (c + ((f - t) + x))%float)
  else (t, (c + ((x - t) + f))%float).

Definition sum_neumaier (l : list float) : float :=
  let '(f, c) := fold_left neumaier_step l (0%float, 0%float) in
  if negb (c =? 0)%float && negb (is_nan c) && negb (is_infinity c)
  then (f + c)%float else f.

(* ================================================================= *)
(** ** Section 4 of the source: daily briefing *)

Record Action := {
  a_priority : string;
  a_type : string;
  a_text : string;
  a_property_id : string;
  a_template : option string;
}.

Record Briefing := {
  br_date : string;
  br_actions : list Action;
  br_check_ins_today : list (Booking * string);
  br_check_outs_today : list (Booking * string);
  br_check_ins_tomorrow : list (Booking * string);
  br_active_stays : list (Booking * string * Z);
  br_turnovers_needed : list (Booking * string);
  br_maintenance_urgent : list MaintenanceItem;
  br_vacant_tonight : list Property;
  br_occupancy_rate : float;
  br_revenue_this_month : float;
  br_summary : string;
}.

(** [{p.get("property_id", ""): p for p in properties}]: a later property
    replaces an earlier one with the same id. *)
Definition property_map (properties : list Property) : gmap string Property :=
  fold_left (fun m p => <[p_property_id p := p]> m) properties ∅.

(** [prop.get("nickname") or prop.get("name", "Unknown")] for
    [prop = property_map.get(pid, {})] *)
Definition display_name (prop : option Property) : string :=
  match prop with
  | None => "Unknown"
  | Some p =>
      match p_nickname p with
      | Some (String c n) => String c n
      | _ => default "Unknown"%string (p_name p)
      end
  end.

(** [prop.get("nickname", prop.get("name", ""))] *)
Definition maintenance_name (prop : option Property) : string :=
  match prop with
  | None => ""
  | Some p =>
      match p_nickname p with
      | Some n => n
      | None => default ""%string (p_name p)
      end
  end.

Definition prop_time (f : Property -> option string) (dflt : string)
    (prop : option Property) : string :=
  match prop with
  | Some p => default dflt (f p)
  | None => dflt
  end.

Definition mk_action (priority type text pid : string)
    (template : option string) : Action :=
  {| a_priority := priority; a_type := type; a_text := text;
     a_property_id := pid; a_template := template |}.

(** What the loop over the bookings accumulates. *)
Record briefing_acc := {
  acc_actions : list Action;
  acc_check_ins_today : list (Booking * string);
  acc_check_outs_today : list (Booking * string);
  acc_check_ins_tomorrow : list (Booking * string);
  acc_active_stays : list (Booking * string * Z);
  acc_turnovers_needed : list (Booking * string);
  acc_occupied_tonight : gset string;
  acc_revenue_this_month : float;
}.

Definition briefing_acc0 : briefing_acc :=
  {| acc_actions := []; acc_check_ins_today := []; acc_check_outs_today := [];
     acc_check_ins_tomorrow := []; acc_active_stays := [];
     acc_turnovers_needed := []; acc_occupied_tonight := ∅;
     acc_revenue_this_month := 0%float |}.

Definition date_is (d : option date) (x : date) : bool :=
  match d with Some v => v =? x | None => false end.

(** The body of the loop over the bookings, for a booking that is not
    cancelled. *)
Definition briefing_booking (pmap : gmap string Property) (today : date)
    (acc : briefing_acc) (booking : Booking) : briefing_acc :=
  let tomorrow := today + 1 in
  let yesterday := today - 1 in
  let b_in := _parse_date (check_in booking) in
  let b_out := _parse_date (check_out booking) in
  let pid := property_id booking in
  let prop := pmap !! pid in
  let pname := display_name prop in
  let guest := guest_name booking in
  (* check-in today *)
  let acc :=
    if date_is b_in today then
      {| acc_actions := acc_actions acc ++
           [mk_action "high" "check_in"
              ("🔑 " ++ guest ++ " checks into " ++ pname ++ " at "
               ++ prop_time p_check_in_time "3 PM" prop) pid None;
            mk_action "medium" "message"
              ("📱 Send check-in instructions to " ++ guest ++ " (" ++ pname ++ ")")
              pid (Some "check_in_day"%string)];
         acc_check_ins_today := acc_check_ins_today acc ++ [(booking, pname)];
         acc_check_outs_today := acc_check_outs_today acc;
         acc_check_ins_tomorrow := acc_check_ins_tomorrow acc;
         acc_active_stays := acc_active_stays acc;
         acc_turnovers_needed := acc_turnovers_needed acc;
         acc_occupied_tonight := acc_occupied_tonight acc;
         acc_revenue_this_month := acc_revenue_this_month acc |}
    else acc in
  (* check-in tomorrow *)
  let acc :=
    if date_is b_in tomorrow then
      {| acc_actions := acc_actions acc ++
           [mk_action "medium" "message"
              ("📱 Send day-before instructions to " ++ guest ++ " (" ++ pname ++ ")")
              pid (Some "check_in_instructions"%string)];
         acc_check_ins_today := acc_check_ins_today acc;
         acc_check_outs_today := acc_check_outs_today acc;
         acc_check_ins_tomorrow := acc_check_ins_tomorrow acc ++ [(booking, pname)];
         acc_active_stays := acc_active_stays acc;
         acc_turnovers_needed := acc_turnovers_needed acc;
         acc_occupied_tonight := acc_occupied_tonight acc;
         acc_revenue_this_month := acc_revenue_this_month acc |}
    else acc in
  (* check-out today, and the turnover when no cleaner is confirmed *)
  let acc :=
    if date_is b_out today then
      let turnover := negb (cleaner_confirmed booking) in
      {| acc_actions := acc_actions acc ++
           [mk_action "high" "checkout"
              ("👋 " ++ guest ++ " checks out of " ++ pname ++ " at "
               ++ prop_time p_check_out_time "11 AM" prop) pid None]
           ++ (if turnover
               then [mk_action "high" "turnover"
                       ("🧹 Confirm turnover for " ++ pname) pid None]
               else []);
         acc_check_ins_today := acc_check_ins_today acc;
         acc_check_outs_today := acc_check_outs_today acc ++ [(booking, pname)];
         acc_check_ins_tomorrow := acc_check_ins_tomorrow acc;
         acc_active_stays := acc_active_stays acc;
         acc_turnovers_needed :=
           acc_turnovers_needed acc
           ++ (if turnover then [(booking, pname)] else []);
         acc_occupied_tonight := acc_occupied_tonight acc;
         acc_revenue_this_month := acc_revenue_this_month acc |}
    else acc in
  (* check-out yesterday: review request *)
  let acc :=
    if date_is b_out yesterday then
      {| acc_actions := acc_actions acc ++
           [mk_action "low" "message"
              ("⭐ Review request to " ++ guest ++ " (" ++ pname ++ ")")
              pid (Some "review_request"%string)];
         acc_check_ins_today := acc_check_ins_today acc;
         acc_check_outs_today := acc_check_outs_today acc;
         acc_check_ins_tomorrow := acc_check_ins_tomorrow acc;
         acc_active_stays := acc_active_stays acc;
         acc_turnovers_needed := acc_turnovers_needed acc;
         acc_occupied_tonight := acc_occupied_tonight acc;
         acc_revenue_this_month := acc_revenue_this_month acc |}
    else acc in
  (* active stay, and the mid-stay check of a long stay *)
  let acc :=
    match b_in, b_out with
    | Some i, Some o =>
        if (i <=? today) && (today <? o) then
          {| acc_actions := acc_actions acc ++
               (if (4 <=? num_nights booking)
                   && (i + num_nights booking / 2 =? today)
                then [mk_action "low" "message"
                        ("💬 Mid-stay check with " ++ guest ++ " (" ++ pname ++ ")")
                        pid (Some "mid_stay_check"%string)]
                else []);
             acc_check_ins_today := acc_check_ins_today acc;
             acc_check_outs_today := acc_check_outs_today acc;
             acc_check_ins_tomorrow := acc_check_ins_tomorrow acc;
             acc_active_stays := acc_active_stays acc ++ [(booking, pname, o - today)];
             acc_turnovers_needed := acc_turnovers_needed acc;
             acc_occupied_tonight := {[ pid ]} ∪ acc_occupied_tonight acc;
             acc_revenue_this_month := acc_revenue_this_month acc |}
        else acc
    | _, _ => acc
    end in
  (* revenue of the bookings that check in this month *)
  match b_in with
  | Some i =>
      if (Date.month i =? Date.month today) && (Date.year i =? Date.year today) then
        {| acc_actions := acc_actions acc;
           acc_check_ins_today := acc_check_ins_today acc;
           acc_check_outs_today := acc_check_outs_today acc;
           acc_check_ins_tomorrow := acc_check_ins_tomorrow acc;
           acc_active_stays := acc_active_stays acc;
           acc_turnovers_needed := acc_turnovers_needed acc;
           acc_occupied_tonight := acc_occupied_tonight acc;
           acc_revenue_this_month :=
             (acc_revenue_this_month acc + total_payout booking)%float |}
      else acc
  | None => acc
  end.

(** One iteration of the loop over the bookings. *)
Definition briefing_step (pmap : gmap string Property) (today : date)
    (acc : briefing_acc) (booking : Booking) : briefing_acc :=
  if String.eqb (status booking) "cancelled" then acc
  else briefing_booking pmap today acc booking.

(** The action of a maintenance item, if it is urgent and not resolved. *)
Definition maintenance_action (pmap : gmap string Property)
    (item : MaintenanceItem) : option Action :=
  if str_in_list (m_status item) ["open"; "in_progress"]
     && str_in_list (m_priority item) ["high"; "urgent"]
  then Some (mk_action
               (if String.eqb (m_priority item) "urgent" then "high" else "medium")
               "maintenance"
               ("🔧 " ++ m_title item ++ " at "
                ++ maintenance_name (pmap !! m_property_id item))
               (m_property_id item) None)
  else None.

Definition priority_rank (a : Action) : Z :=
  if String.eqb (a_priority a) "high" then 0
  else if String.eqb (a_priority a) "medium" then 1
  else if String.eqb (a_priority a) "low" then 2
  else 3.

Definition plural (n : nat) : string :=
  if (1 <? n)%nat then "s" else "".

Definition count_part {A} (l : list A) (what : string) : list string :=
  match l with
  | [] => []
  | _ => [(Str.of_Z (Z.of_nat (length l)) ++ " " ++ what ++ plural (length l))%string]
  end.

(** [", ".join(parts)] *)
Fixpoint join_comma (parts : list string) : string :=
  match parts with
  | [] => ""
  | [p] => p
  | p :: ps => (p ++ ", " ++ join_comma ps)%string
  end.

(** [generate_daily_briefing(properties, bookings, maintenance_items, today)] *)
Definition generate_daily_briefing (properties : list Property)
    (bookings : list Booking) (maintenance_items : list MaintenanceItem)
    (today : option date) : Clocked Briefing :=
  let* today := (match today with Some d => ret d | None => date_today end) in
  let pmap := property_map properties in
  let active_properties :=
    List.filter (fun p => String.eqb (p_status p) "active") properties in
  let acc := fold_left (briefing_step pmap today) bookings briefing_acc0 in
  let vacant :=
    List.filter
      (fun p => negb (bool_decide (p_property_id p ∈ acc_occupied_tonight acc)))
      active_properties in
  let occupancy :=
    match active_properties with
    | [] => 0%float
    | _ => (Num.div_Z (Z.of_nat (size (acc_occupied_tonight acc)))
                      (Z.of_nat (length active_properties)) * 100)%float
    end in
  let urgent :=
    List.filter (fun it => bool_decide (is_Some (maintenance_action pmap it)))
      maintenance_items in
  let actions :=
    sorted_by Z.leb priority_rank
      (acc_actions acc ++ omap (maintenance_action pmap) maintenance_items) in
  let parts :=
    count_part (acc_check_ins_today acc) "check-in"
    ++ count_part (acc_check_outs_today acc) "checkout"
    ++ count_part (acc_turnovers_needed acc) "turnover" in
  let summary :=
    match parts with
    | _ :: _ =>
        ("Today: " ++ join_comma parts ++ ". "
         ++ Str.of_Z (Z.of_nat (length actions)) ++ " action items.")%string
    | [] =>
        match acc_active_stays acc with
        | _ :: _ =>
            ("Quiet day. " ++ Str.of_Z (Z.of_nat (length (acc_active_stays acc)))
             ++ " active stays.")%string
        | [] => "All clear today."%string
        end
    end in
  ret {| br_date := Date.isoformat today;
         br_actions := actions;
         br_check_ins_today := acc_check_ins_today acc;
         br_check_outs_today := acc_check_outs_today acc;
         br_check_ins_tomorrow := acc_check_ins_tomorrow acc;
         br_active_stays := acc_active_stays acc;
         br_turnovers_needed := acc_turnovers_needed acc;
         br_maintenance_urgent := urgent;
         br_vacant_tonight := vacant;
         br_occupancy_rate := occupancy;
         br_revenue_this_month := acc_revenue_this_month acc;
         br_summary := summary |}.

(* ================================================================= *)
(** ** Section 5 of the source: revenue and occupancy analytics *)

Record Metrics := {
  total_revenue : float;
  total_nights_booked : Z;
  total_days : Z;
  occupancy_rate : float;
  avg_nightly_rate : float;
  total_bookings : nat;
  avg_rating : float;
}.

(** What the loop over the property's bookings accumulates. *)
Record metrics_acc := {
  mx_revenue : float;
  mx_nights : Z;
  mx_ratings : list Z;
}.

(** [max((min(b_out, end_date) - max(b_in, start_date)).days, 0)] *)
Definition overlap_nights (b_in b_out start_date end_date : date) : Z :=
  Z.max (Z.min b_out end_date - Z.max b_in start_date) 0.

(** [nights / max((b_out - b_in).days, 1)] *)
Definition prorate (nights : Z) (b_in b_out : date) : float :=
  Num.div_Z nights (Z.max (b_out - b_in) 1).

Definition metrics_step (start_date end_date : date) (acc : metrics_acc)
    (b : Booking) : metrics_acc :=
  match _parse_date (check_in b), _parse_date (check_out b) with
  | Some b_in, Some b_out =>
      let nights := overlap_nights b_in b_out start_date end_date in
      let acc :=
        if 0 <? nights then
          {| mx_revenue :=
               (mx_revenue acc + total_payout b * prorate nights b_in b_out)%float;
             mx_nights := mx_nights acc + nights;
             mx_ratings := mx_ratings acc |}
        else acc in
      if 0 <? rating_given b then
        {| mx_revenue := mx_revenue acc; mx_nights := mx_nights acc;
           mx_ratings := mx_ratings acc ++ [rating_given b] |}
      else acc
  | _, _ => acc
  end.

Definition metrics_acc0 : metrics_acc :=
  {| mx_revenue := 0%float; mx_nights := 0; mx_ratings := [] |}.

(** The bookings of a property that are not cancelled. *)
Definition prop_bookings_of (bookings : list Booking) (pid : string) : list Booking :=
  List.filter
    (fun b => String.eqb (property_id b) pid
              && negb (String.eqb (status b) "cancelled"))
    bookings.

Definition metrics_of (bookings : list Booking) (pid : string)
    (start_date end_date : date) : Metrics :=
  let days := Z.max (end_date - start_date) 1 in
  let prop_bookings := prop_bookings_of bookings pid in
  let acc := fold_left (metrics_step start_date end_date) prop_bookings metrics_acc0 in
  {| total_revenue := Num.py_round (mx_revenue acc) 2;
     total_nights_booked := mx_nights acc;
     total_days := days;
     occupancy_rate :=
       Num.py_round (if days =? 0 then 0%float
                     else (Num.div_Z (mx_nights acc) days * 100)%float) 1;
     avg_nightly_rate :=
       Num.py_round (if mx_nights acc =? 0 then 0%float
                     else (mx_revenue acc / Num.of_Z (mx_nights acc))%float) 2;
     total_bookings := length prop_bookings;
     avg_rating :=
       match mx_ratings acc with
       | [] => 0%float
       | rs => Num.py_round
                 (Num.div_Z (fold_left Z.add rs 0) (Z.of_nat (length rs))) 1
       end |}.

(** [calculate_property_metrics(bookings, property_id, start_date, end_date)] *)
Definition calculate_property_metrics (bookings : list Booking) (pid : string)
    (start_date end_date : option date) : Clocked Metrics :=
  let* start_date :=
    (match start_date with
     | Some d => ret d
     | None => let* t := date_today in ret (Date.first_of_month t)
     end) in
  let* end_date :=
    (match end_date with Some d => ret d | None => date_today end) in
  ret (metrics_of bookings pid start_date end_date).

(* ================================================================= *)
(** ** Sections 6 and 7 of the source: gap analysis *)

Record Gap := {
  g_start : string;
  g_end : string;
  g_nights : Z;
}.

(** The bookings the gap analysis looks at: of the property, not
    cancelled, checking out after today. *)
Definition gap_relevant (pid : string) (today_date : date) (b : Booking) : bool :=
  String.eqb (property_id b) pid
  && negb (String.eqb (status b) "cancelled")
  && match _parse_date (check_out b) with
     | Some o => today_date <? o
     | None => false
     end.

(** One iteration of the walk: the gaps so far and the cursor. *)
Definition gap_step (st : list Gap * date) (b : Booking) : list Gap * date :=
  let '(gaps, current) := st in
  match _parse_date (check_in b), _parse_date (check_out b) with
  | Some b_in, Some b_out =>
      let gaps :=
        if (current <? b_in) && (1 <=? b_in - current) then
          gaps ++ [{| g_start := Date.isoformat current;
                      g_end := Date.isoformat b_in;
                      g_nights := b_in - current |}]
        else gaps in
      (gaps, Z.max current b_out)
  | _, _ => st
  end.

Definition gaps_from (bookings : list Booking) (pid : string)
    (today_date : date) (lookahead_days : Z) : list Gap :=
  let end_date := today_date + lookahead_days in
  let prop_bookings :=
    sorted_by String.leb check_in
      (List.filter (gap_relevant pid today_date) bookings) in
  let '(gaps, current) := fold_left gap_step prop_bookings ([], today_date) in
  if current <? end_date then
    gaps ++ [{| g_start := Date.isoformat current;
                g_end := Date.isoformat end_date;
                g_nights := end_date - current |}]
  else gaps.

(** [get_gap_nights(bookings, property_id, lookahead_days)] *)
Definition get_gap_nights (bookings : list Booking) (pid : string)
    (lookahead_days : Z) : Clocked (list Gap) :=
  let* today_date := date_today in
  ret (gaps_from bookings pid today_date lookahead_days).

(* ================================================================= *)
(** ** Section 9 of the source: Schedule E *)

Record ScheduleE := {
  se_property_address : string;
  se_fair_rental_days : Z;
  (** ["line_3_rents"] and the expense lines, in the order of the dict *)
  se_lines : list (string * float);
  se_total_expenses : float;
  se_net_income : float;
}.

Definition cat_map : list (string * string) :=
  [("Advertising/Marketing", "line_5_advertising");
   ("Travel (Property Visits)", "line_6_auto");
   ("Vehicle/Mileage", "line_6_auto");
   ("Cleaning", "line_7_cleaning");
   ("Maintenance/Repairs", "line_14_repairs");
   ("Platform Fees", "line_8_commissions");
   ("Professional Services (Accounting)", "line_10_legal");
   ("Professional Services (Legal)", "line_10_legal");
   ("Mortgage Interest", "line_12_mortgage_int");
   ("Supplies (Guest)", "line_15_supplies");
   ("Supplies (Cleaning)", "line_15_supplies");
   ("Utilities (Electric)", "line_17_utilities");
   ("Utilities (Gas)", "line_17_utilities");
   ("Utilities (Water/Sewer)", "line_17_utilities");
   ("Utilities (Internet/Cable)", "line_17_utilities");
   ("Utilities (Trash)", "line_17_utilities");
   ("Depreciation", "line_18_depreciation")]%string.

(** [cat_map.get(category, "line_19_other")] *)
Fixpoint line_of (table : list (string * string)) (category : string) : string :=
  match table with
  | [] => "line_19_other"
  | (c, l) :: table' => if String.eqb c category then l else line_of table' category
  end.

(** [sched[line] += amount] *)
Fixpoint sched_add (line : string) (amount : float)
    (items : list (string * float)) : list (string * float) :=
  match items with
  | [] => []
  | (k, v) :: items' =>
      if String.eqb k line then (k, (v + amount)%float) :: items'
      else (k, v) :: sched_add line amount items'
  end.

(** [sched[key]] *)
Fixpoint sched_get (key : string) (items : list (string * float)) : float :=
  match items with
  | [] => 0%float
  | (k, v) :: items' => if String.eqb k key then v else sched_get key items'
  end.

Definition year_is (ds : string) (tax_year : Z) : bool :=
  match _parse_date ds with
  | Some d => Date.year d =? tax_year
  | None => false
  end.

(** The nights of a booking inside the tax year. *)
Definition fair_rental_nights (tax_year : Z) (b : Booking) : Z :=
  match _parse_date (check_in b), _parse_date (check_out b) with
  | Some b_in, Some b_out =>
      if (Date.year b_in =? tax_year) || (Date.year b_out =? tax_year) then
        let s := Z.max b_in (Date.ymd2ord tax_year 1 1) in
        let e := Z.min b_out (Date.ymd2ord tax_year 12 31 + 1) in
        Z.max (e - s) 0
      else 0
  | _, _ => 0
  end.

Definition sched_step (pid : string) (tax_year : Z)
    (items : list (string * float)) (exp : Expense) : list (string * float) :=
  if String.eqb (e_property_id exp) pid && year_is (e_date exp) tax_year
  then sched_add (line_of cat_map (e_category exp)) (e_amount exp) items
  else items.

(** The unrounded sum of the expense lines. *)
Definition total_exp (sum : list float -> float) (items : list (string * float))
  : float :=
  sum (List.map snd
         (List.filter
            (fun kv => Str.startswith (fst kv) "line_"
                       && negb (String.eqb (fst kv) "line_3_rents"))
            items)).

(** The dict [sched] before the expenses are folded in ("line_3_rents" and
    the expense lines). *)
Definition sched_init (property_data : Property) (gross : float)
  : list (string * float) :=
  [("line_3_rents", Num.py_round gross 2);
   ("line_5_advertising", 0); ("line_6_auto", 0); ("line_7_cleaning", 0);
   ("line_8_commissions", 0);
   ("line_9_insurance", Num.py_round (p_insurance_annual property_data) 2);
   ("line_10_legal", 0); ("line_12_mortgage_int", 0); ("line_14_repairs", 0);
   ("line_15_supplies", 0);
   ("line_16_taxes", Num.py_round (p_property_tax_annual property_data) 2);
   ("line_17_utilities", 0); ("line_18_depreciation", 0);
   ("line_19_other", 0)]%string%float.

(** The keys of the expense lines, in the order of the dict. *)
Definition expense_lines : list string :=
  ["line_5_advertising"; "line_6_auto"; "line_7_cleaning"; "line_8_commissions";
   "line_9_insurance"; "line_10_legal"; "line_12_mortgage_int"; "line_14_repairs";
   "line_15_supplies"; "line_16_taxes"; "line_17_utilities";
   "line_18_depreciation"; "line_19_other"]%string.

(** The amounts of the expenses of the property and year that go to [line],
    in the order of the expenses. *)
Definition line_amounts (pid : string) (tax_year : Z) (line : string)
    (expenses : list Expense) : list float :=
  List.map e_amount
    (List.filter
       (fun exp => String.eqb (e_property_id exp) pid
                   && year_is (e_date exp) tax_year
                   && String.eqb (line_of cat_map (e_category exp)) line)
       expenses).

(** The payouts that make the rents of the year. *)
Definition year_payouts (pid : string) (tax_year : Z) (bookings : list Booking)
  : list float :=
  List.map total_payout
    (List.filter (fun b => year_is (check_in b) tax_year)
       (prop_bookings_of bookings pid)).

(** [generate_schedule_e_summary(property_data, bookings, expenses, tax_year)]
    for a given [tax_year]; [sum] is the built-in [sum] of the interpreter
    ([sum_left] or [sum_neumaier]). *)
Definition schedule_e_for (sum : list float -> float) (property_data : Property)
    (bookings : list Booking) (expenses : list Expense) (tax_year : Z)
  : ScheduleE :=
  let pid := p_property_id property_data in
  let year_bookings := prop_bookings_of bookings pid in
  let nights :=
    fold_left (fun n b => n + fair_rental_nights tax_year b) year_bookings 0 in
  let gross :=
    sum (List.map total_payout
           (List.filter (fun b => year_is (check_in b) tax_year) year_bookings)) in
  let sched := sched_init property_data gross in
  let sched := fold_left (sched_step pid tax_year) expenses sched in
  let total := total_exp sum sched in
  {| se_property_address := p_address property_data;
     se_fair_rental_days := nights;
     se_lines := sched;
     se_total_expenses := Num.py_round total 2;
     se_net_income := Num.py_round (sched_get "line_3_rents" sched - total)%float 2 |}.

Definition generate_schedule_e_summary (sum : list float -> float)
    (property_data : Property) (bookings : list Booking)
    (expenses : list Expense) (tax_year : option Z) : Clocked ScheduleE :=
  let* tax_year :=
    (match tax_year with
     | Some y => ret y
     | None => let* t := date_today in ret (Date.year t)
     end) in
  ret (schedule_e_for sum property_data bookings expenses tax_year).

(* ================================================================= *)
(** ** Fetching a feed *)

Module Fetch.

(** An exception that is an instance of [Exception] (what [urllib] and the
    socket layer raise); [exn_text] is [str(e)]. *)
Record exn := { exn_text : string }.

Inductive outcome (A : Type) :=
| Returned (a : A)
| Raised (e : exn).

Arguments Returned {A} a.
Arguments Raised {A} e.

Record request := {
  req_url : string;
  req_headers : list (string * string);
}.

(** The world outside the program: what [urllib.request] does.  [urlopen]
    may answer differently each time it is called. *)
Record urllib (response : Type) := {
  Request : string -> list (string * string) -> outcome request;
  urlopen : nat -> request -> Z -> outcome response;
  read : response -> outcome (list Byte.byte);
  decode_utf8_replace : list Byte.byte -> string;
}.

Arguments Request {response} u.
Arguments urlopen {response} u.
Arguments read {response} u.
Arguments decode_utf8_replace {response} u.

(** Computations that may raise and that count the calls of [urlopen]. *)
Definition Net (A : Type) : Type := nat -> outcome A * nat.

Definition pure {A} (a : A) : Net A := fun n => (Returned a, n).

Definition lift {A} (o : outcome A) : Net A := fun n => (o, n).

Definition and_then {A B} (m : Net A) (k : A -> Net B) : Net B :=
  fun n =>
    match m n with
    | (Returned a, n') => k a n'
    | (Raised e, n') => (Raised e, n')
    end.

(** [try: m  except Exception as e: h(e)] *)
Definition try_except {A} (m : Net A) (h : exn -> Net A) : Net A :=
  fun n =>
    match m n with
    | (Returned a, n') => (Returned a, n')
    | (Raised e, n') => h e n'
    end.

Definition call_urlopen {response} (lib : urllib response) (req : request)
    (timeout : Z) : Net response :=
  fun n => (urlopen lib n req timeout, S n).

(** The body of the [try] of [fetch_ical_from_url]. *)
Definition fetch_body {response} (lib : urllib response) (url : string)
  : Net string :=
  and_then (lift (Request lib url [("User-Agent", "HostFlow/2.0")]%string))
    (fun req =>
       and_then (call_urlopen lib req 15)
         (fun resp =>
            and_then (lift (read lib resp))
              (fun bytes => pure (decode_utf8_replace lib bytes)))).

(** [fetch_ical_from_url(url)] *)
Definition fetch_ical_from_url {response} (lib : urllib response) (url : string)
  : Net string :=
  try_except (fetch_body lib url)
    (fun e => pure ("ERROR: " ++ exn_text e)%string).

End Fetch.

(** *** The events of a feed

    The loop of [parse_ical] without the processing of the events: the
    non-empty event dicts that reach [_process_ical_event], in order. *)
Fixpoint ical_events_from (in_ev : bool) (ev : gmap string string)
    (lines : list string) : list (gmap string string) :=
  match lines with
  | [] => []
  | raw :: ls =>
      let line := Str.strip raw in
      if String.eqb line "BEGIN:VEVENT" then ical_events_from true ∅ ls
      else if String.eqb line "END:VEVENT" then
        if bool_decide (ev = ∅) then ical_events_from false ∅ ls
        else ev :: ical_events_from false ∅ ls
      else if in_ev then
        match Str.split_once ":" line with
        | Some (key, val) =>
            ical_events_from true (<[Str.before ";" key := val]> ev) ls
        | None => ical_events_from in_ev ev ls
        end
      else ical_events_from in_ev ev ls
  end.

Definition feed_events (ical_text : string) : list (gmap string string) :=
  if negb (nonempty ical_text) || negb (nonempty (Str.strip ical_text))
  then []
  else ical_events_from false ∅ (ical_unfold ical_text).

(** The dates of an event, when both parse. *)
Definition event_dates (ev : gmap string string) : option (date * date) :=
  match _parse_ical_date (event_get ev "DTSTART"),
        _parse_ical_date (event_get ev "DTEND") with
  | Some ci, Some co => Some (ci, co)
  | _, _ => None
  end.

(** The blocked interval an event stands for, if any. *)
Definition blocked_of (pid : string) (ev : gmap string string) : option Blocked :=
  match event_dates ev with
  | Some (ci, co) =>
      if is_blocked (event_get ev "SUMMARY")
      then Some {| k_start := Date.isoformat ci; k_end := Date.isoformat co;
                   k_reason := event_get ev "SUMMARY"; k_property_id := pid |}
      else None
  | None => None
  end.

(** The events that become candidate bookings. *)
Definition is_candidate (ev : gmap string string) : bool :=
  match event_dates ev with
  | Some _ => negb (is_blocked (event_get ev "SUMMARY"))
  | None => false
  end.

(** [b] is a booking materialized from the event [ev]. *)
Definition booking_of (pid platform : string) (default_rate cleaning : float)
    (ev : gmap string string) (b : Booking) : Prop :=
  exists ci co,
    event_dates ev = Some (ci, co)
    /\ is_blocked (event_get ev "SUMMARY") = false
    /\ property_id b = pid
    /\ check_in b = Date.isoformat ci
    /\ check_out b = Date.isoformat co
    /\ num_nights b = Z.max (co - ci) 1
    /\ nightly_rate b = default_rate
    /\ cleaning_fee b = cleaning
    /\ (total_payout b, platform_fee b)
       = calculate_payout default_rate (num_nights b) cleaning default_pct
    /\ guest_name b = _extract_guest_name (event_get ev "SUMMARY") platform
    /\ ical_uid b = event_get ev "UID".

Definition nl := String CR (String newline EmptyString).

Definition sample_feed : string :=
  "BEGIN:VCALENDAR" ++ nl ++
  "BEGIN:VEVENT" ++ nl ++
  "DTSTART;VALUE=DATE:20260315" ++ nl ++
  "DTEND;VALUE=DATE:20260318" ++ nl ++
  "UID:abc-1" ++ nl ++
  "SUMMARY:Reserved" ++ nl ++
  "END:VEVENT" ++ nl ++
  "BEGIN:VEVENT" ++ nl ++
  "DTSTART;VALUE=DATE:20260401" ++ nl ++
  "DTEND;VALUE=DATE:20260403" ++ nl ++
  "SUMMARY:Not available - Owner block" ++ nl ++
  "END:VEVENT" ++ nl ++
  "BEGIN:VEVENT" ++ nl ++
  "DTSTART:20260410T150000Z" ++ nl ++
  "DTEND:20260410T110000Z" ++ nl ++
  "SUMMARY:John Smith (HM123)" ++ nl ++
  "DESCRIPTION:Guests: 4 Phone: +1 555" ++ nl ++
  "END:VEVENT" ++ nl ++
  "END:VCALENDAR" ++ nl.

Definition sample_clock (n : nat) : instant :=
  {| i_today := 739676; i_stamp := "20260301120000" ++ Str.pad 4 (Z.of_nat n) |}.

(** A feed with one owner block. *)
Definition owner_block_feed : string :=
  "BEGIN:VCALENDAR" ++ nl ++
  "BEGIN:VEVENT" ++ nl ++
  "DTSTART;VALUE=DATE:20260401" ++ nl ++
  "DTEND;VALUE=DATE:20260403" ++ nl ++
  "SUMMARY:Not available - Owner block" ++ nl ++
  "END:VEVENT" ++ nl ++
  "END:VCALENDAR" ++ nl.

(** A feed with one event that ends before it starts. *)
Definition inverted_feed : string :=
  "BEGIN:VCALENDAR" ++ nl ++
  "BEGIN:VEVENT" ++ nl ++
  "DTSTART;VALUE=DATE:20260412" ++ nl ++
  "DTEND;VALUE=DATE:20260410" ++ nl ++
  "SUMMARY:Reserved" ++ nl ++
  "END:VEVENT" ++ nl ++
  "END:VCALENDAR" ++ nl.

(** *** The gap walk as the specification words it *)

(** The stay of a booking, when both of its dates parse. *)
Definition stay_of (b : Booking) : option (date * date) :=
  match _parse_date (check_in b), _parse_date (check_out b) with
  | Some b_in, Some b_out => Some (b_in, b_out)
  | _, _ => None
  end.

(** Walk the stays with a cursor: a stay that checks in after the cursor
    leaves a gap from the cursor to its check-in; the cursor moves to the
    later of itself and the check-out; what is left before the end of the
    window is the trailing gap. *)
Fixpoint vacancy_walk (cursor : date) (stays : list (date * date))
    (window_end : date) : list (date * date) :=
  match stays with
  | [] => if cursor <? window_end then [(cursor, window_end)] else []
  | (b_in, b_out) :: rest =>
      (if cursor <? b_in then [(cursor, b_in)] else [])
      ++ vacancy_walk (Z.max cursor b_out) rest window_end
  end.

Definition gap_of (iv : date * date) : Gap :=
  {| g_start := Date.isoformat iv.1; g_end := Date.isoformat iv.2;
     g_nights := iv.2 - iv.1 |}.

(** *** Auxiliary definitions of the statements *)

(** The loop of [parse_ical] processes the events of the lines in order:
    the blocked list grows by the blocked intervals of the events, the
    booking list by one booking for each candidate event. *)
Definition events_processed (pid plat : string) (default_rate cleaning : float)
    (evs : list (gmap string string)) (st st' : ical_state) : Prop :=
  blocked st' = blocked st ++ omap (blocked_of pid) evs
  /\ exists bs, bookings st' = bookings st ++ bs
       /\ Forall2 (booking_of pid plat default_rate cleaning)
                  (List.filter is_candidate evs) bs.

(** The bookings that survive against the key set [K]: a booking is kept
    when its key is new, and its key then blocks the bookings after it. *)
Fixpoint survivors (K : gset (string * string * string)) (new : list Booking)
  : list Booking :=
  match new with
  | [] => []
  | b :: bs =>
      if bool_decide (dedup_key b ∈ K) then survivors K bs
      else b :: survivors ({[ dedup_key b ]} ∪ K) bs
  end.

(** The deduplication key of the booking an event becomes. *)
Definition event_key (pid : string) (ev : gmap string string)
  : string * string * string :=
  match event_dates ev with
  | Some (ci, co) => (pid, Date.isoformat ci, Date.isoformat co)
  | None => (pid, ""%string, ""%string)
  end.

(** The test of the engine for a booking that counts. *)
Definition not_cancelled (b : Booking) : bool :=
  negb (String.eqb (status b) "cancelled").

(** [a] may stand before [b] in a list sorted by [key]. *)
Definition key_le {A K : Type} (le : K -> K -> bool) (key : A -> K) (a b : A)
  : Prop :=
  le (key a) (key b) = true.


(** *** Sample records *)

Definition sample_booking (pid ci co st : string) (nights : Z) (payout : float)
  : Booking :=
  {| booking_id := "20260301120000000001"; property_id := pid;
     guest_name := "Guest"; guest_phone := ""; guest_email := "";
     num_guests := 2; check_in := ci; check_out := co; num_nights := nights;
     nightly_rate := 100; cleaning_fee := 50; total_payout := payout;
     platform := "Airbnb"; platform_fee := 0; status := st;
     special_requests := ""; guest_notes := ""; turnover_status := "pending";
     cleaner_confirmed := false; rating_given := 0; review_text := "";
     created_date := "2026-03-01"; ical_uid := "" |}.

Definition sample_property : Property :=
  {| p_property_id := "P1"; p_name := Some "Lake House"%string;
     p_nickname := Some ""%string; p_address := "1 Lake Road";
     p_status := "active"; p_check_in_time := None; p_check_out_time := None;
     p_base_nightly_rate := 150; p_property_tax_annual := 0;
     p_insurance_annual := 0 |}.

(** The stay of the interval example: 2026-03-01 to 2026-03-04. *)
Definition march_stay (payout : float) : Booking :=
  sample_booking "P1" "2026-03-01" "2026-03-04" "confirmed" 3 payout.

(** The bookings of the gap example, the later one first. *)
Definition gap_bookings : list Booking :=
  [sample_booking "P1" "2026-03-06" "2026-03-09" "confirmed" 3 350;
   sample_booking "P1" "2026-03-01" "2026-03-03" "confirmed" 2 250].

(** The same two stays, the later one with its dates written month first,
    as [_parse_date] also reads them. *)
Definition mixed_format_bookings : list Booking :=
  [sample_booking "P1" "2026-03-01" "2026-03-03" "confirmed" 2 250;
   sample_booking "P1" "03/06/2026" "03/09/2026" "confirmed" 3 350].

(** A clock that stands at 2026-03-01. *)
Definition march_first : date := 739676.

(** Two overlapping stays of one property, as two platforms can sell them. *)
Definition double_booked : list Booking :=
  [march_stay 339.5;
   sample_booking "P1" "2026-03-02" "2026-03-05" "confirmed" 3 400].

(** A cancelled stay over the same days as [march_stay]. *)
Definition cancelled_stay : Booking :=
  sample_booking "P1" "2026-03-01" "2026-03-04" "cancelled" 3 339.5.

(** Schedule E of the sample property for 2026: one stay paid [rents], one
    cleaning expense of [amount]. *)
Definition sample_schedule (sum : list float -> float) (rents amount : float)
  : ScheduleE :=
  (generate_schedule_e_summary sum sample_property
     [sample_booking "P1" "2026-03-01" "2026-03-04" "confirmed" 3 rents]
     [{| e_property_id := "P1"; e_category := "Cleaning"; e_amount := amount;
         e_date := "2026-05-01" |}]
     (Some 2026) sample_clock 0%nat).1.

(* ================================================================= *)
(** ** Definitions of the further properties *)

(** *** Checking a property over a range of integers *)

(** [p] holds from [lo] up to [lo + 2^depth - 1]. *)
Fixpoint forall_range (depth : nat) (lo : Z) (p : Z -> bool) : bool :=
  match depth with
  | O => p lo
  | S k => forall_range k lo p && forall_range k (lo + 2 ^ Z.of_nat k) p
  end.

(** *** Calendar dates *)

(** The years, months and days [date(y, m, d)] accepts. *)
Definition valid_ymd (y m d : Z) : Prop :=
  1 <= y <= 9999 /\ 1 <= m <= 12 /\ 1 <= d <= Date.days_in_month y m.

(** The dates of [datetime.date]: 0001-01-01 to 9999-12-31. *)
Definition valid_date (d : date) : Prop := 1 <= d <= 3652059.

(** The days of a month of a leap or common year. *)
Definition days_in_month_of (leap : bool) (m : Z) : Z :=
  if m =? 2 then (if leap then 29 else 28)
  else if (m =? 4) || (m =? 6) || (m =? 9) || (m =? 11) then 30 else 31.

(** The month and day that [Date.ord2ymd] gives the day [n] (from 0) of a
    year. *)
Definition month_day_of (leap : bool) (n : Z) : Z * Z :=
  let m := Z.shiftr (n + 50) 5 in
  let preceding :=
    Date.days_before_month_tbl m + (if (2 <? m) && leap then 1 else 0) in
  if n <? preceding then
    let m' := m - 1 in
    let preceding' :=
      preceding
      - ((if m' =? 2 then 28
          else if (m' =? 4) || (m' =? 6) || (m' =? 9) || (m' =? 11)
               then 30 else 31)
         + (if (m' =? 2) && leap then 1 else 0)) in
    (m', n - preceding' + 1)
  else (m, n - preceding + 1).

(** The day [z mod 512] of a year, leap when [512 <= z], falls on a day of
    a month that has it, and as many days of the year come before it. *)
Definition month_day_ok (z : Z) : bool :=
  let leap := 512 <=? z in
  let n := z mod 512 in
  (364 <? n)
  || let '(m, d) := month_day_of leap n in
     (1 <=? m) && (m <=? 12) && (1 <=? d) && (d <=? days_in_month_of leap m)
     && (Date.days_before_month_tbl m + (if (2 <? m) && leap then 1 else 0) + d
         =? n + 1).

(** The text of a year is four digits that read as the year. *)
Definition year_text_ok (y : Z) : bool :=
  (y <? 1) || (9999 <? y)
  || match Str.pad 4 y with
     | String a (String b (String c (String d EmptyString))) =>
         Str.is_digit a && Str.is_digit b && Str.is_digit c && Str.is_digit d
         && (1000 * Str.digit_val a + 100 * Str.digit_val b
             + 10 * Str.digit_val c + Str.digit_val d =? y)
     | _ => false
     end.

(** The text of the month [z / 32] and the day [z mod 32], after the year,
    is first read as that month and day, with nothing left. *)
Definition month_day_text_ok (z : Z) : bool :=
  let m := z / 32 in
  let d := z mod 32 in
  negb ((1 <=? m) && (m <=? 12) && (1 <=? d) && (d <=? 31))
  || match Strptime.matches
             [Strptime.Lit "-"; Strptime.Fm; Strptime.Lit "-"; Strptime.Fd]
             ("-" ++ Str.pad 2 m ++ "-" ++ Str.pad 2 d) with
     | ([a; b; c; e], EmptyString) :: _ =>
         (a =? 0) && (b =? m) && (c =? 0) && (e =? d)
     | _ => false
     end.

(** *** The calendar import *)

(** The status the importer gives a stay when the day is [today]. *)
Definition status_on (today ci co : date) : string :=
  if today <? ci then "confirmed"
  else if today <? co then "checked_in" else "checked_out".

(** What a booking made by the importer carries besides its dates. *)
Definition imported_fields (plat : string) (b : Booking) : Prop :=
  platform b = plat
  /\ status b ∈ ["confirmed"; "checked_in"; "checked_out"]%string
  /\ guest_name b <> ""%string
  /\ guest_email b = ""%string
  /\ turnover_status b = "pending"%string
  /\ cleaner_confirmed b = false
  /\ rating_given b = 0.

(** A clock that stands at 2026-03-01 and stamps each reading with its
    number. *)
Definition steady_clock : nat -> instant :=
  fun n => {| i_today := 739676; i_stamp := Str.of_Z (Z.of_nat n) |}.

(** A clock that gives the same stamp at every reading, as [generate_id]
    does for calls within the same tenth of a millisecond. *)
Definition stuck_clock : nat -> instant :=
  fun _ => {| i_today := 739676; i_stamp := "202603011200000000" |}.

(** A feed that opens an event and never closes it. *)
Definition unclosed_feed : string :=
  "BEGIN:VCALENDAR" ++ nl ++
  "BEGIN:VEVENT" ++ nl ++
  "DTSTART;VALUE=DATE:20260315" ++ nl ++
  "DTEND;VALUE=DATE:20260318" ++ nl ++
  "SUMMARY:Reserved" ++ nl ++
  "END:VCALENDAR" ++ nl.

(** *** The daily briefing, booking by booking *)

(** The day of the briefing: the one given, or the one the clock shows. *)
Definition briefing_day (today : option date) (clk : nat -> instant) (t : nat)
  : date :=
  match today with Some d => d | None => i_today (clk t) end.

(** A booking that counts and checks in, or out, on the day [d]. *)
Definition checks_in_on (d : date) (b : Booking) : bool :=
  not_cancelled b && date_is (_parse_date (check_in b)) d.

Definition checks_out_on (d : date) (b : Booking) : bool :=
  not_cancelled b && date_is (_parse_date (check_out b)) d.

(** A booking that counts and whose guests stay the night of the day [d]. *)
Definition stays_on (d : date) (b : Booking) : bool :=
  not_cancelled b
  && match stay_of b with
     | Some (i, o) => (i <=? d) && (d <? o)
     | None => false
     end.

(** A stay that is [num_nights // 2] days old on the day [d] and has four
    nights or more. *)
Definition mid_stay_on (d : date) (b : Booking) : bool :=
  (4 <=? num_nights b)
  && match _parse_date (check_in b) with
     | Some i => i + num_nights b / 2 =? d
     | None => false
     end.

(** A booking with the name of its property, as the briefing lists it. *)
Definition named (pmap : gmap string Property) (b : Booking) : Booking * string :=
  (b, display_name (pmap !! property_id b)).

(** The actions one booking gives rise to on the day [today], in the order
    the briefing makes them. *)
Definition booking_actions (pmap : gmap string Property) (today : date)
    (b : Booking) : list Action :=
  let pid := property_id b in
  let prop := pmap !! pid in
  let pname := display_name prop in
  let guest := guest_name b in
  (if checks_in_on today b then
     [mk_action "high" "check_in"
        ("🔑 " ++ guest ++ " checks into " ++ pname ++ " at "
         ++ prop_time p_check_in_time "3 PM" prop) pid None;
      mk_action "medium" "message"
        ("📱 Send check-in instructions to " ++ guest ++ " (" ++ pname ++ ")")
        pid (Some "check_in_day"%string)]
   else [])
  ++ (if checks_in_on (today + 1) b then
        [mk_action "medium" "message"
           ("📱 Send day-before instructions to " ++ guest ++ " (" ++ pname ++ ")")
           pid (Some "check_in_instructions"%string)]
      else [])
  ++ (if checks_out_on today b then
        mk_action "high" "checkout"
          ("👋 " ++ guest ++ " checks out of " ++ pname ++ " at "
           ++ prop_time p_check_out_time "11 AM" prop) pid None
        :: (if negb (cleaner_confirmed b)
            then [mk_action "high" "turnover"
                    ("🧹 Confirm turnover for " ++ pname) pid None]
            else [])
      else [])
  ++ (if checks_out_on (today - 1) b then
        [mk_action "low" "message"
           ("⭐ Review request to " ++ guest ++ " (" ++ pname ++ ")")
           pid (Some "review_request"%string)]
      else [])
  ++ (if stays_on today b then
        if mid_stay_on today b
        then [mk_action "low" "message"
                ("💬 Mid-stay check with " ++ guest ++ " (" ++ pname ++ ")")
                pid (Some "mid_stay_check"%string)]
        else []
      else []).

(** The entry of a booking in the list of the active stays. *)
Definition stay_entry (pmap : gmap string Property) (today : date) (b : Booking)
  : list (Booking * string * Z) :=
  match _parse_date (check_out b) with
  | Some o => [(b, display_name (pmap !! property_id b), o - today)]
  | None => []
  end.

(** [acc'] is [acc] with the actions [A], the check-ins of today [I], the
    check-ins of tomorrow [T], the check-outs of today [O], the turnovers
    [N] and the active stays [S] appended, and the properties [K] occupied
    as well. *)
Definition adds (acc acc' : briefing_acc) (A : list Action)
    (I T O N : list (Booking * string)) (S : list (Booking * string * Z))
    (K : gset string) : Prop :=
  acc_actions acc' = acc_actions acc ++ A
  /\ acc_check_ins_today acc' = acc_check_ins_today acc ++ I
  /\ acc_check_ins_tomorrow acc' = acc_check_ins_tomorrow acc ++ T
  /\ acc_check_outs_today acc' = acc_check_outs_today acc ++ O
  /\ acc_turnovers_needed acc' = acc_turnovers_needed acc ++ N
  /\ acc_active_stays acc' = acc_active_stays acc ++ S
  /\ acc_occupied_tonight acc' = K ∪ acc_occupied_tonight acc.

(** What one iteration of the loop of the briefing adds for a booking. *)
Definition step_adds (pmap : gmap string Property) (today : date)
    (acc : briefing_acc) (b : Booking) (acc' : briefing_acc) : Prop :=
  adds acc acc'
    (booking_actions pmap today b)
    (if checks_in_on today b then [named pmap b] else [])
    (if checks_in_on (today + 1) b then [named pmap b] else [])
    (if checks_out_on today b then [named pmap b] else [])
    (if checks_out_on today b
     then if negb (cleaner_confirmed b) then [named pmap b] else []
     else [])
    (if stays_on today b then stay_entry pmap today b else [])
    (if stays_on today b then {[ property_id b ]} else ∅).

(** The actions of a briefing before they are sorted. *)
Definition generated_actions (properties : list Property)
    (bookings : list Booking) (maintenance_items : list MaintenanceItem)
    (today : date) : list Action :=
  flat_map (booking_actions (property_map properties) today) bookings
  ++ omap (maintenance_action (property_map properties)) maintenance_items.

(** The actions of a list with the rank [k], in the order of the list. *)
Definition of_rank (k : Z) (actions : list Action) : list Action :=
  List.filter (fun a => priority_rank a =? k) actions.

(** The properties of a list with the id [k]. *)
Definition with_id (k : string) (properties : list Property) : list Property :=
  List.filter (fun p => String.eqb (p_property_id p) k) properties.

(** An action with one of the three priorities and one of the five types. *)
Definition known_action (a : Action) : Prop :=
  a_priority a ∈ ["high"; "medium"; "low"]%string
  /\ a_type a ∈ ["check_in"; "message"; "checkout"; "turnover"; "maintenance"]%string
  /\ 0 <= priority_rank a <= 2.

(** *** Windows, free nights and expense lines *)

(** The nights of a booking inside a window, zero when a date is missing. *)
Definition nights_in (start_date end_date : date) (b : Booking) : Z :=
  match stay_of b with
  | Some (b_in, b_out) => overlap_nights b_in b_out start_date end_date
  | None => 0
  end.

(** The metrics of a property over a given window. *)
Definition metrics_over (bookings : list Booking) (pid : string)
    (start_date end_date : date) (clk : nat -> instant) (t : nat) : Metrics :=
  (calculate_property_metrics bookings pid (Some start_date) (Some end_date)
     clk t).1.

(** The stays the gap analysis walks, in the order it walks them. *)
Definition walked_stays (bookings : list Booking) (pid : string)
    (today_date : date) : list (date * date) :=
  omap stay_of
    (sorted_by String.leb check_in
       (List.filter (gap_relevant pid today_date) bookings)).

(** The night of the day [d] lies in the interval. *)
Definition night_in (d : date) (iv : date * date) : Prop :=
  iv.1 <= d < iv.2.

(** Stays in the order of their check-ins, none ending before it starts. *)
Definition stays_in_order (stays : list (date * date)) : Prop :=
  Sorted (fun a b : date * date => a.1 <= b.1) stays
  /\ Forall (fun s : date * date => s.1 <= s.2) stays.


(** *** Section 7 of the source: pricing suggestions *)







(** *** Section 5 of the source: the portfolio *)

Record Portfolio := {
  pf_total_revenue : float;
  pf_total_nights_booked : Z;
  pf_avg_occupancy : float;
  pf_avg_nightly_rate : float;
  pf_total_bookings : nat;
  pf_per_property : gmap string Metrics;
}.

(** What the loop over the properties accumulates: the dict [combined] and
    the lists [occs] and [rates]. *)
Record portfolio_acc := {
  pa_revenue : float;
  pa_nights : Z;
  pa_bookings : nat;
  pa_per_property : gmap string Metrics;
  pa_occs : list float;
  pa_rates : list float;
}.

Definition portfolio_acc0 : portfolio_acc :=
  {| pa_revenue := 0; pa_nights := 0; pa_bookings := 0%nat;
     pa_per_property := ∅; pa_occs := []; pa_rates := [] |}.

Definition portfolio_step (bookings : list Booking)
    (start_date end_date : option date) (acc : portfolio_acc) (prop : Property)
  : Clocked portfolio_acc :=
  let pid := p_property_id prop in
  let* m := calculate_property_metrics bookings pid start_date end_date in
  ret {| pa_revenue := (pa_revenue acc + total_revenue m)%float;
         pa_nights := pa_nights acc + total_nights_booked m;
         pa_bookings := (pa_bookings acc + total_bookings m)%nat;
         pa_per_property := <[pid := m]> (pa_per_property acc);
         pa_occs :=
           if (0 <? occupancy_rate m)%float
           then pa_occs acc ++ [occupancy_rate m] else pa_occs acc;
         pa_rates :=
           if (0 <? avg_nightly_rate m)%float
           then pa_rates acc ++ [avg_nightly_rate m] else pa_rates acc |}.

(** The step of the loop when the window is given: the clock is not read. *)
Definition portfolio_given (bookings : list Booking) (s e : date)
    (acc : portfolio_acc) (prop : Property) : portfolio_acc :=
  let pid := p_property_id prop in
  let m := metrics_of bookings pid s e in
  {| pa_revenue := (pa_revenue acc + total_revenue m)%float;
     pa_nights := pa_nights acc + total_nights_booked m;
     pa_bookings := (pa_bookings acc + total_bookings m)%nat;
     pa_per_property := <[pid := m]> (pa_per_property acc);
     pa_occs :=
       if (0 <? occupancy_rate m)%float
       then pa_occs acc ++ [occupancy_rate m] else pa_occs acc;
     pa_rates :=
       if (0 <? avg_nightly_rate m)%float
       then pa_rates acc ++ [avg_nightly_rate m] else pa_rates acc |}.

(** A [for] loop whose body reads the clock. *)
Fixpoint for_each {A S : Type} (body : S -> A -> Clocked S) (l : list A)
    (s : S) : Clocked S :=
  match l with
  | [] => ret s
  | x :: l' => let* s' := body s x in for_each body l' s'
  end.

(** [round(sum(l)/len(l), nd) if l else 0] *)
Definition average (sum : list float -> float) (nd : nat) (l : list float)
  : float :=
  match l with
  | [] => 0%float
  | _ => Num.py_round (sum l / Num.of_Z (Z.of_nat (length l)))%float nd
  end.

(** [calculate_portfolio_metrics(bookings, properties, start_date, end_date)];
    [sum] is the built-in [sum] of the interpreter. *)
Definition calculate_portfolio_metrics (sum : list float -> float)
    (bookings : list Booking) (properties : list Property)
    (start_date end_date : option date) : Clocked Portfolio :=
  let* acc :=
    for_each (portfolio_step bookings start_date end_date) properties
      portfolio_acc0 in
  ret {| pf_total_revenue := pa_revenue acc;
         pf_total_nights_booked := pa_nights acc;
         pf_avg_occupancy := average sum 1 (pa_occs acc);
         pf_avg_nightly_rate := average sum 2 (pa_rates acc);
         pf_total_bookings := pa_bookings acc;
         pf_per_property := pa_per_property acc |}.

(** The portfolio over a given window. *)
Definition portfolio_over (sum : list float -> float) (bookings : list Booking)
    (properties : list Property) (s e : date) (clk : nat -> instant) (t : nat)
  : Portfolio :=
  (calculate_portfolio_metrics sum bookings properties (Some s) (Some e) clk t).1.

(** A booking that is not cancelled and is of one of the properties. *)
Definition in_portfolio (properties : list Property) (b : Booking) : bool :=
  not_cancelled b
  && existsb (fun p => String.eqb (property_id b) (p_property_id p)) properties.

(* ================================================================= *)
(** * Properties *)

(** ** Library models: sanity checks *)

Example py_round_values :
  Num.py_round 2.675 2 = 2.67%float
  /\ Num.py_round 0.125 2 = 0.12%float
  /\ Num.py_round 0.005 2 = 0.01%float
  /\ Num.py_round (-0.001) 2 = (-0)%float
  /\ Num.py_round 1234567.891 1 = 1234567.9%float
  /\ Num.py_round 1e22 2 = 1e22%float
  /\ Num.py_round infinity 2 = infinity.
Proof. vm_compute. repeat split; reflexivity. Qed.

Example strptime_values :
  option_map Date.isoformat (_parse_date "2026-3- 1") = Some "2026-03-01"%string
  /\ option_map Date.isoformat (_parse_date "12/31/1999") = Some "1999-12-31"%string
  /\ option_map Date.isoformat (_parse_date "2-29-2000") = Some "2000-02-29"%string
  /\ _parse_date "2-29-1900" = None
  /\ _parse_date "0000-01-01" = None
  /\ _parse_date "2026-03-01 " = None
  /\ option_map Date.isoformat (_parse_ical_date "202612") = Some "2026-01-02"%string
  /\ option_map Date.isoformat (_parse_ical_date "20260301t1200Z") = Some "2026-03-01"%string
  /\ _parse_ical_date "20260301T120060" = None
  /\ _parse_ical_date "2026 5 1" = None
  /\ Date.ymd2ord 9999 12 31 = 3652059.
Proof. vm_compute. repeat split; reflexivity. Qed.

Example payout_350 :
  calculate_payout 100 3 50 0.03 = (339.5%float, 10.5%float).
Proof. vm_compute. reflexivity. Qed.

Example splitlines_ex :
  Str.splitlines ("a" ++ String (ascii_of_N 13) (String (ascii_of_N 10) "b")
                  ++ String (ascii_of_N 10) (String (ascii_of_N 10) "c"
                  ++ String (ascii_of_N 10) ""))
  = ["a"; "b"; ""; "c"]%string.
Proof. reflexivity. Qed.

(** ** Calendar import *)

Section IcalImport.

Variables (pid plat : string) (default_rate cleaning : float).

Lemma process_event_cases (ev : gmap string string) clk t :
  match _process_ical_event ev pid plat default_rate cleaning clk t with
  | (None, t') =>
      t' = t /\ blocked_of pid ev = None /\ is_candidate ev = false
  | (Some (ParsedBlocked k), t') =>
      t' = t /\ blocked_of pid ev = Some k /\ is_candidate ev = false
  | (Some (ParsedBooking b), t') =>
      blocked_of pid ev = None /\ is_candidate ev = true
      /\ booking_of pid plat default_rate cleaning ev b
  end.
Proof.
  unfold _process_ical_event, blocked_of, is_candidate, event_dates.
  destruct (_parse_ical_date (event_get ev "DTSTART")) as [ci|] eqn:Hci; [|done].
  destruct (_parse_ical_date (event_get ev "DTEND")) as [co|] eqn:Hco; [|done].
  destruct (is_blocked (event_get ev "SUMMARY")) eqn:Hb; [done|].
  destruct (calculate_payout default_rate (Z.max (co - ci) 1) cleaning default_pct)
    as [payout fee] eqn:Hp.
  unfold bind, generate_id, date_today, ret. simpl.
  assert (Hbk : forall bid st cd,
    booking_of pid plat default_rate cleaning ev
      {| booking_id := bid; property_id := pid;
         guest_name := _extract_guest_name (event_get ev "SUMMARY") plat;
         guest_phone := description_phone (event_get ev "DESCRIPTION");
         guest_email := "";
         num_guests := description_guests (event_get ev "DESCRIPTION");
         check_in := Date.isoformat ci; check_out := Date.isoformat co;
         num_nights := Z.max (co - ci) 1; nightly_rate := default_rate;
         cleaning_fee := cleaning; total_payout := payout;
         platform := plat; platform_fee := fee; status := st;
         special_requests := "";
         guest_notes :=
           (if nonempty (event_get ev "UID")
            then "Imported from iCal. UID: " ++ Str.take 40 (event_get ev "UID")
            else "Imported from iCal");
         turnover_status := "pending"; cleaner_confirmed := false;
         rating_given := 0; review_text := "";
         created_date := cd; ical_uid := event_get ev "UID" |}).
  { intros. exists ci, co. unfold event_dates. simpl.
    rewrite Hci, Hco, Hb, Hp. repeat split; reflexivity. }
  destruct (i_today (clk (S t)) <? ci); simpl; repeat split; try apply Hbk.
Qed.

Lemma events_processed_nil st st' :
  blocked st' = blocked st -> bookings st' = bookings st ->
  events_processed pid plat default_rate cleaning [] st st'.
Proof.
  intros Hk Hb. split; [by rewrite Hk, app_nil_r|].
  exists []. split; [by rewrite Hb, app_nil_r|constructor].
Qed.

Lemma events_processed_cons ev evs st st1 st2 :
  blocked st1 = blocked st ++ from_option (fun k => [k]) [] (blocked_of pid ev) ->
  (exists bs1, bookings st1 = bookings st ++ bs1
     /\ Forall2 (booking_of pid plat default_rate cleaning)
                (List.filter is_candidate [ev]) bs1) ->
  events_processed pid plat default_rate cleaning evs st1 st2 ->
  events_processed pid plat default_rate cleaning (ev :: evs) st st2.
Proof.
  intros Hk (bs1 & Hb & Hf) (Hk2 & bs2 & Hb2 & Hf2). split.
  - rewrite Hk2, Hk, <- app_assoc. f_equal. simpl.
    by destruct (blocked_of pid ev).
  - exists (bs1 ++ bs2). split; [by rewrite Hb2, Hb, <- app_assoc|].
    change (ev :: evs) with ([ev] ++ evs). rewrite List.filter_app.
    by apply Forall2_app.
Qed.

Ltac step_event IH :=
  match goal with
  | |- events_processed _ _ _ _ _ _ (ical_lines _ _ _ _ ?s _ _ _).1 =>
      eapply (events_processed_cons _ _ _ s); [| |apply (IH s)]; simpl
  end.

Lemma ical_lines_events lines : forall st clk t,
  events_processed pid plat default_rate cleaning
    (ical_events_from (in_event st) (event st) lines) st
    (ical_lines pid plat default_rate cleaning st lines clk t).1.
Proof.
  induction lines as [|raw ls IH]; intros st clk t; simpl.
  - by apply events_processed_nil.
  - unfold bind, ical_line.
    destruct (String.eqb (Str.strip raw) "BEGIN:VEVENT").
    { simpl. specialize (IH {| in_event := true; event := ∅;
                              bookings := bookings st; blocked := blocked st |} clk t).
      exact IH. }
    destruct (String.eqb (Str.strip raw) "END:VEVENT").
    { destruct (bool_decide (event st = ∅)).
      - simpl. exact (IH {| in_event := false; event := ∅;
                            bookings := bookings st; blocked := blocked st |} clk t).
      - unfold bind, ret.
        pose proof (process_event_cases (event st) clk t) as Hc.
        destruct (_process_ical_event (event st) pid plat default_rate cleaning clk t)
          as [[[k|b]|] t'].
        + destruct Hc as (_ & Hk & Hn).
          step_event IH.
          * by rewrite Hk.
          * exists []. rewrite Hn, app_nil_r. by split; [|constructor].
        + destruct Hc as (Hk & Hn & Hbk).
          step_event IH.
          * by rewrite Hk, app_nil_r.
          * exists [b]. rewrite Hn. split; [done|]. by repeat constructor.
        + destruct Hc as (_ & Hk & Hn).
          step_event IH.
          * by rewrite Hk, app_nil_r.
          * exists []. rewrite Hn, app_nil_r. by split; [|constructor]. }
    destruct (in_event st) eqn:Hin.
    + destruct (Str.split_once ":" (Str.strip raw)) as [[key val]|].
      * exact (IH {| in_event := true;
                     event := <[Str.before ";" key := val]> (event st);
                     bookings := bookings st; blocked := blocked st |} clk t).
      * specialize (IH st clk t). by rewrite Hin in IH.
    + specialize (IH st clk t). by rewrite Hin in IH.
Qed.

(** [parse_ical] returns the blocked intervals of the feed's events, and
    one booking for each candidate event, in order. *)
Lemma parse_ical_events (ical_text : string) clk t :
  let r := (parse_ical ical_text pid plat default_rate cleaning clk t).1 in
  r.2 = omap (blocked_of pid) (feed_events ical_text)
  /\ Forall2 (booking_of pid plat default_rate cleaning)
             (List.filter is_candidate (feed_events ical_text)) r.1.
Proof.
  unfold parse_ical, feed_events.
  destruct (negb (nonempty ical_text) || negb (nonempty (Str.strip ical_text))).
  - simpl. split; [done|constructor].
  - unfold bind, ret.
    pose proof (ical_lines_events (ical_unfold ical_text) ical_init clk t) as H.
    destruct (ical_lines pid plat default_rate cleaning ical_init
                (ical_unfold ical_text) clk t) as [st t'].
    destruct H as (Hk & bs & Hb & Hf). simpl in *.
    rewrite Hk, Hb. done.
Qed.

End IcalImport.

(** ** Deduplication *)

Section Dedup.

Implicit Types (K : gset (string * string * string)) (b : Booking).

Lemma keys_of_fold (l : list Booking) : forall K k,
  k ∈ fold_left (fun ks b => {[ dedup_key b ]} ∪ ks) l K
  <-> k ∈ K \/ k ∈ (dedup_key <$> l).
Proof.
  induction l as [|b l IH]; intros K k; simpl.
  - rewrite elem_of_nil. tauto.
  - rewrite IH, elem_of_union, elem_of_singleton, elem_of_cons. tauto.
Qed.

Lemma elem_of_keys_of (l : list Booking) k :
  k ∈ keys_of l <-> k ∈ (dedup_key <$> l).
Proof.
  unfold keys_of. rewrite keys_of_fold, elem_of_empty. tauto.
Qed.

Lemma dedup_fold (new : list Booking) : forall st,
  let st' := fold_left dedup_step new st in
  unique st' = unique st ++ survivors (existing_keys st) new
  /\ (dupes st' + length (survivors (existing_keys st) new)
      = dupes st + length new)%nat.
Proof.
  induction new as [|b bs IH]; intros st; simpl.
  - split; [by rewrite app_nil_r|lia].
  - unfold dedup_step at 2 4.
    destruct (bool_decide (dedup_key b ∈ existing_keys st)).
    + destruct (IH {| existing_keys := existing_keys st; unique := unique st;
                      dupes := S (dupes st) |}) as [Hu Hd].
      simpl in *. split; [done|lia].
    + destruct (IH {| existing_keys := {[ dedup_key b ]} ∪ existing_keys st;
                      unique := unique st ++ [b]; dupes := dupes st |})
        as [Hu Hd].
      simpl in *. split; [by rewrite Hu, <- app_assoc|lia].
Qed.

Lemma dedup_survivors (existing new : list Booking) :
  deduplicate_ical_bookings existing new
  = (survivors (keys_of existing) new,
     (length new - length (survivors (keys_of existing) new))%nat).
Proof.
  unfold deduplicate_ical_bookings.
  destruct (dedup_fold new {| existing_keys := keys_of existing;
                              unique := []; dupes := O |}) as [Hu Hd].
  simpl in *. rewrite Hu. f_equal. lia.
Qed.

Lemma survivors_sublist (new : list Booking) : forall K,
  sublist (survivors K new) new.
Proof.
  induction new as [|b bs IH]; intros K; simpl; [constructor|].
  destruct (bool_decide (dedup_key b ∈ K)).
  - by apply sublist_cons.
  - by apply sublist_skip.
Qed.

Lemma survivors_fresh (new : list Booking) : forall K b,
  b ∈ survivors K new -> dedup_key b ∉ K.
Proof.
  induction new as [|a bs IH]; intros K b; simpl; [by rewrite elem_of_nil|].
  destruct (bool_decide (dedup_key a ∈ K)) eqn:Ha.
  - apply IH.
  - apply bool_decide_eq_false in Ha.
    rewrite elem_of_cons. intros [->|Hin]; [done|].
    apply IH in Hin. intros HK. apply Hin. by apply elem_of_union_r.
Qed.

Lemma survivors_NoDup (new : list Booking) : forall K,
  NoDup ((dedup_key <$> survivors K new)).
Proof.
  induction new as [|a bs IH]; intros K; simpl; [constructor|].
  destruct (bool_decide (dedup_key a ∈ K)); [apply IH|].
  simpl. constructor; [|apply IH].
  rewrite list_elem_of_fmap. intros (b & Hk & Hb).
  apply survivors_fresh in Hb. apply Hb. rewrite <- Hk.
  by apply elem_of_union_l, elem_of_singleton.
Qed.

Lemma survivors_cover (new : list Booking) : forall K b,
  b ∈ new -> dedup_key b ∈ K \/ dedup_key b ∈ (dedup_key <$> survivors K new).
Proof.
  induction new as [|a bs IH]; intros K b; simpl; [by rewrite elem_of_nil|].
  rewrite elem_of_cons. intros [->|Hin].
  - destruct (bool_decide (dedup_key a ∈ K)) eqn:Ha.
    + apply bool_decide_eq_true in Ha. by left.
    + right. simpl. apply elem_of_cons. by left.
  - destruct (bool_decide (dedup_key a ∈ K)) eqn:Ha; [by apply IH|].
    destruct (IH ({[ dedup_key a ]} ∪ K) b Hin) as [Hk|Hk].
    + apply elem_of_union in Hk as [Hk|Hk]; [|by left].
      apply elem_of_singleton in Hk. right. simpl. rewrite Hk.
      apply elem_of_cons. by left.
    + right. simpl. apply elem_of_cons. by right.
Qed.

(** The first booking of a batch with a key not seen before survives. *)
Lemma survivors_first (new1 : list Booking) : forall K b new2,
  dedup_key b ∉ K -> dedup_key b ∉ (dedup_key <$> new1) ->
  b ∈ survivors K (new1 ++ b :: new2).
Proof.
  induction new1 as [|a bs IH]; intros K b new2 HK Hnew; simpl.
  - rewrite bool_decide_eq_false_2 by done. apply elem_of_cons. by left.
  - simpl in Hnew. apply not_elem_of_cons in Hnew as [Hne Hnew].
    destruct (bool_decide (dedup_key a ∈ K)); [by apply IH|].
    apply elem_of_cons. right. apply IH; [|done].
    rewrite elem_of_union, elem_of_singleton. intros [Heq|Hin]; [|done].
    by apply Hne.
Qed.

Lemma survivors_all_seen (new : list Booking) : forall K,
  (forall b, b ∈ new -> dedup_key b ∈ K) -> survivors K new = [].
Proof.
  induction new as [|a bs IH]; intros K HK; simpl; [done|].
  rewrite bool_decide_eq_true_2 by (apply HK, elem_of_cons; by left).
  apply IH. intros b Hb. apply HK, elem_of_cons. by right.
Qed.

End Dedup.

(** ** The claims about the calendar import *)

Lemma booking_of_key pid plat rate fee ev b :
  booking_of pid plat rate fee ev b -> dedup_key b = event_key pid ev.
Proof.
  intros (ci & co & Hd & _ & Hp & Hi & Ho & _).
  unfold dedup_key, event_key. by rewrite Hd, Hp, Hi, Ho.
Qed.

Lemma bookings_keys pid plat rate fee evs bs :
  Forall2 (booking_of pid plat rate fee) evs bs ->
  dedup_key <$> bs = event_key pid <$> evs.
Proof.
  induction 1 as [|ev b evs bs Hb _ IH]; simpl; [done|].
  f_equal; [by eapply booking_of_key|done].
Qed.

(** The keys of the candidate bookings of a feed depend on the text and
    the property only, not on the clock, the platform or the rates. *)
Lemma parse_ical_keys ical_text pid plat rate fee clk t :
  dedup_key <$> (parse_ical ical_text pid plat rate fee clk t).1.1
  = event_key pid <$> List.filter is_candidate (feed_events ical_text).
Proof.
  destruct (parse_ical_events pid plat rate fee ical_text clk t) as [_ Hf].
  by eapply bookings_keys.
Qed.

(** C1. Reconciliation is idempotent: parsing the same feed for the same
    property again and deduplicating against the ledger extended with the
    first run's unique bookings adds no booking, and the second run reports
    as many duplicates as candidate bookings were parsed.  Duplicates are
    the bookings with the same [(property_id, check_in, check_out)]: the
    survivors are a sublist of the batch with pairwise distinct keys, none
    of them with a key of the ledger; every booking of the batch has the key
    of a ledger booking or of a survivor; the first booking with a new key
    survives; the count is that of the bookings dropped. *)
Theorem reconciliation_idempotent :
  (forall (ical_text pid plat1 plat2 : string) (rate1 fee1 rate2 fee2 : float)
          (clk1 clk2 : nat -> instant) (t1 t2 : nat) (ledger : list Booking),
      let parsed1 := (parse_ical ical_text pid plat1 rate1 fee1 clk1 t1).1.1 in
      let parsed2 := (parse_ical ical_text pid plat2 rate2 fee2 clk2 t2).1.1 in
      let first_run := deduplicate_ical_bookings ledger parsed1 in
      deduplicate_ical_bookings (ledger ++ first_run.1) parsed2
      = ([], length parsed2)
      /\ length parsed2 = length parsed1)
  /\ (forall (existing new : list Booking),
        let r := deduplicate_ical_bookings existing new in
        sublist r.1 new
        /\ NoDup (dedup_key <$> r.1)
        /\ (forall b, b ∈ r.1 -> dedup_key b ∉ (dedup_key <$> existing))
        /\ (forall b, b ∈ new ->
              dedup_key b ∈ (dedup_key <$> existing)
              \/ dedup_key b ∈ (dedup_key <$> r.1))
        /\ (forall new1 b new2, new = new1 ++ b :: new2 ->
              dedup_key b ∉ (dedup_key <$> existing) ->
              dedup_key b ∉ (dedup_key <$> new1) -> b ∈ r.1)
        /\ (r.2 + length r.1 = length new)%nat).
Proof.
  split.
  - intros. subst first_run. rewrite !dedup_survivors. simpl.
    assert (Hk : dedup_key <$> parsed2 = dedup_key <$> parsed1).
    { subst parsed1 parsed2. by rewrite !parse_ical_keys. }
    split; [|by rewrite <- (length_fmap dedup_key parsed2), Hk, length_fmap].
    rewrite survivors_all_seen; [simpl; f_equal; lia|].
    intros b Hb. apply elem_of_keys_of. rewrite fmap_app, elem_of_app.
    assert (Hin : dedup_key b ∈ (dedup_key <$> parsed1)).
    { rewrite <- Hk. by apply list_elem_of_fmap_2. }
    apply list_elem_of_fmap in Hin as (b1 & Hkb & Hb1). rewrite Hkb.
    destruct (survivors_cover parsed1 (keys_of ledger) b1 Hb1) as [H|H].
    + left. by apply elem_of_keys_of.
    + by right.
  - intros existing new r. subst r. rewrite dedup_survivors. simpl.
    repeat split.
    + apply survivors_sublist.
    + apply survivors_NoDup.
    + intros b Hb. rewrite <- elem_of_keys_of. by eapply survivors_fresh.
    + intros b Hb. rewrite <- elem_of_keys_of. by apply survivors_cover.
    + intros new1 b new2 -> Hk Hn. apply survivors_first; [|done].
      by rewrite elem_of_keys_of.
    + pose proof (sublist_length _ _ (survivors_sublist new (keys_of existing))).
      lia.
Qed.

(** C7. For every feed, the blocked list returned by [parse_ical] holds the
    blocked intervals of the feed's events and the booking list one booking
    for each candidate event; an event whose summary contains one of the
    keywords, whatever the case of its letters, is no candidate, and with
    dates that parse it is a blocked interval.  A feed whose only event has
    the summary "Not available - Owner block" gives no booking and one
    blocked interval. *)
Theorem blocked_event_is_no_booking :
  (forall (ical_text pid plat : string) (rate fee : float)
          (clk : nat -> instant) (t : nat),
      let r := (parse_ical ical_text pid plat rate fee clk t).1 in
      r.2 = omap (blocked_of pid) (feed_events ical_text)
      /\ Forall2 (booking_of pid plat rate fee)
                 (List.filter is_candidate (feed_events ical_text)) r.1)
  /\ (forall (pid : string) (ev : gmap string string),
        is_blocked (event_get ev "SUMMARY") = true ->
        is_candidate ev = false
        /\ forall ci co, event_dates ev = Some (ci, co) ->
             blocked_of pid ev
             = Some {| k_start := Date.isoformat ci; k_end := Date.isoformat co;
                       k_reason := event_get ev "SUMMARY";
                       k_property_id := pid |})
  /\ (forall (summary kw : string),
        kw ∈ blocked_keywords ->
        Str.contains kw (Str.lower summary) = true -> is_blocked summary = true)
  /\ is_blocked "Not available - Owner block" = true
  /\ (parse_ical owner_block_feed "P1" "Airbnb" 150 75 sample_clock 0%nat).1
     = ([], [{| k_start := "2026-04-01"; k_end := "2026-04-03";
                k_reason := "Not available - Owner block";
                k_property_id := "P1" |}]).
Proof.
  split; [|split; [|split; [|split]]].
  - intros. by apply parse_ical_events.
  - intros pid ev Hb. unfold is_candidate, blocked_of. rewrite Hb. split.
    + by destruct (event_dates ev).
    + by intros ci co ->.
  - intros summary kw Hkw Hc. unfold is_blocked. apply existsb_exists.
    exists kw. split; [|done]. by apply list_elem_of_In.
  - vm_compute. reflexivity.
  - vm_compute. reflexivity.
Qed.

(** C10. Every candidate booking returned by [parse_ical] has at least one
    night, carries the default rate, and has the payout and platform fee
    that [calculate_payout] gives for its nights.  An event whose end is not
    after its start is still a candidate, and its booking has exactly one
    night and the payout of one night. *)
Theorem imported_booking_has_a_night :
  (forall (ical_text pid plat : string) (rate fee : float)
          (clk : nat -> instant) (t : nat),
      Forall (fun b =>
                1 <= num_nights b
                /\ nightly_rate b = rate
                /\ (total_payout b, platform_fee b)
                   = calculate_payout rate (num_nights b) fee default_pct)
             (parse_ical ical_text pid plat rate fee clk t).1.1)
  /\ (forall (pid plat : string) (rate fee : float) (ev : gmap string string)
             (clk : nat -> instant) (t : nat) (ci co : date),
        event_dates ev = Some (ci, co) ->
        is_blocked (event_get ev "SUMMARY") = false ->
        co <= ci ->
        exists b,
          (_process_ical_event ev pid plat rate fee clk t).1
          = Some (ParsedBooking b)
          /\ num_nights b = 1
          /\ nightly_rate b = rate
          /\ (total_payout b, platform_fee b)
             = calculate_payout rate 1 fee default_pct)
  /\ (let bs := (parse_ical inverted_feed "P1" "Airbnb" 150 75 sample_clock 0%nat).1.1 in
      ((fun b => (check_in b, check_out b, num_nights b, total_payout b,
                  platform_fee b)) <$> bs)
      = [("2026-04-12", "2026-04-10", 1, 218.25%float, 6.75%float)]%string).
Proof.
  split; [|split].
  - intros. destruct (parse_ical_events pid plat rate fee ical_text clk t) as [_ Hf].
    eapply Forall2_Forall_r; [exact Hf|].
    apply Forall_forall. intros ev _ b (ci & co & _ & _ & _ & _ & _ & Hn & Hr & _ & Hp & _).
    repeat split; [lia|done|done].
  - intros pid plat rate fee ev clk t ci co Hd Hb Hle.
    pose proof (process_event_cases pid plat rate fee ev clk t) as Hc.
    destruct (_process_ical_event ev pid plat rate fee clk t) as [[[k|b]|] t'].
    + destruct Hc as (_ & _ & Hn). unfold is_candidate in Hn.
      rewrite Hd, Hb in Hn. done.
    + destruct Hc as (_ & _ & ci' & co' & Hd' & _ & _ & _ & _ & Hn & Hr & _ & Hp & _).
      rewrite Hd in Hd'. injection Hd' as <- <-.
      assert (Hone : num_nights b = 1) by lia.
      exists b. rewrite Hone in Hp. done.
    + destruct Hc as (_ & _ & Hn). unfold is_candidate in Hn.
      rewrite Hd, Hb in Hn. done.
  - vm_compute. reflexivity.
Qed.

(** The inverted event of [inverted_feed] is turned into a one-night booking. *)
Lemma imported_booking_has_a_night_witness :
  exists b,
    (_process_ical_event
       (<["SUMMARY" := "Reserved"]> (<["DTEND" := "20260410"]>
          (<["DTSTART" := "20260412"]> ∅)))%string
       "P1" "Airbnb" 150 75 sample_clock 0%nat).1 = Some (ParsedBooking b)
    /\ num_nights b = 1
    /\ nightly_rate b = 150%float
    /\ (total_payout b, platform_fee b) = calculate_payout 150 1 75 default_pct.
Proof.
  apply (proj1 (proj2 imported_booking_has_a_night))
    with (ci := 739718) (co := 739716).
  - vm_compute. reflexivity.
  - vm_compute. reflexivity.
  - lia.
Defined.

(** ** Cancelled bookings *)

Lemma briefing_fold_active pmap today (bs : list Booking) : forall acc,
  fold_left (briefing_step pmap today) bs acc
  = fold_left (briefing_step pmap today) (List.filter not_cancelled bs) acc.
Proof.
  induction bs as [|b bs IH]; intros acc; simpl; [done|].
  destruct (String.eqb (status b) "cancelled") eqn:Hs.
  - assert (briefing_step pmap today acc b = acc) as ->
      by (unfold briefing_step; by rewrite Hs).
    assert (not_cancelled b = false) as ->
      by (unfold not_cancelled; by rewrite Hs).
    apply IH.
  - assert (not_cancelled b = true) as ->
      by (unfold not_cancelled; by rewrite Hs).
    simpl. apply IH.
Qed.

Lemma prop_bookings_active (bs : list Booking) pid :
  prop_bookings_of (List.filter not_cancelled bs) pid = prop_bookings_of bs pid.
Proof.
  unfold prop_bookings_of.
  induction bs as [|b bs IH]; simpl; [done|].
  unfold not_cancelled at 1.
  destruct (String.eqb (status b) "cancelled") eqn:Hs; simpl;
    rewrite ?Hs; simpl; rewrite ?andb_false_r, ?andb_true_r; [done|].
  destruct (String.eqb (property_id b) pid); by rewrite IH.
Qed.

Lemma gap_relevant_active (bs : list Booking) pid today :
  List.filter (gap_relevant pid today) (List.filter not_cancelled bs)
  = List.filter (gap_relevant pid today) bs.
Proof.
  induction bs as [|b bs IH]; simpl; [done|].
  unfold not_cancelled at 1.
  destruct (String.eqb (status b) "cancelled") eqn:Hs; simpl.
  - unfold gap_relevant at 2. by rewrite Hs, andb_false_r.
  - by rewrite IH.
Qed.

Lemma filter_drop_cancelled (l1 l2 : list Booking) c :
  status c = "cancelled"%string ->
  List.filter not_cancelled (l1 ++ c :: l2) = List.filter not_cancelled (l1 ++ l2).
Proof.
  intros Hc. rewrite !List.filter_app. simpl.
  unfold not_cancelled at 2. by rewrite Hc.
Qed.

(** C8. A cancelled booking contributes nothing: the daily briefing, the
    property metrics, the gap analysis and the Schedule E summary of a list
    of bookings are those of the list without its cancelled bookings, so
    that a cancelled booking put anywhere in the list changes none of them.
    The functions return new values; the list they are given is not
    changed. *)
Theorem cancelled_bookings_are_ignored :
  (forall (properties : list Property) (bookings : list Booking)
          (maintenance_items : list MaintenanceItem) (today start_date end_date : option date)
          (pid : string) (lookahead_days : Z) (sum : list float -> float)
          (property_data : Property) (expenses : list Expense) (tax_year : option Z)
          (clk : nat -> instant) (t : nat),
      let active := List.filter not_cancelled bookings in
      generate_daily_briefing properties bookings maintenance_items today clk t
      = generate_daily_briefing properties active maintenance_items today clk t
      /\ calculate_property_metrics bookings pid start_date end_date clk t
         = calculate_property_metrics active pid start_date end_date clk t
      /\ get_gap_nights bookings pid lookahead_days clk t
         = get_gap_nights active pid lookahead_days clk t
      /\ generate_schedule_e_summary sum property_data bookings expenses tax_year clk t
         = generate_schedule_e_summary sum property_data active expenses tax_year clk t)
  /\ (forall (properties : list Property) (l1 l2 : list Booking) (c : Booking)
             (maintenance_items : list MaintenanceItem) (today start_date end_date : option date)
             (pid : string) (lookahead_days : Z)
             (clk : nat -> instant) (t : nat),
        status c = "cancelled"%string ->
        generate_daily_briefing properties (l1 ++ c :: l2) maintenance_items today clk t
        = generate_daily_briefing properties (l1 ++ l2) maintenance_items today clk t
        /\ calculate_property_metrics (l1 ++ c :: l2) pid start_date end_date clk t
           = calculate_property_metrics (l1 ++ l2) pid start_date end_date clk t
        /\ get_gap_nights (l1 ++ c :: l2) pid lookahead_days clk t
           = get_gap_nights (l1 ++ l2) pid lookahead_days clk t).
Proof.
  assert (H : forall (properties : list Property) (bookings : list Booking)
          (maintenance_items : list MaintenanceItem) (today start_date end_date : option date)
          (pid : string) (lookahead_days : Z) (sum : list float -> float)
          (property_data : Property) (expenses : list Expense) (tax_year : option Z)
          (clk : nat -> instant) (t : nat),
      let active := List.filter not_cancelled bookings in
      generate_daily_briefing properties bookings maintenance_items today clk t
      = generate_daily_briefing properties active maintenance_items today clk t
      /\ calculate_property_metrics bookings pid start_date end_date clk t
         = calculate_property_metrics active pid start_date end_date clk t
      /\ get_gap_nights bookings pid lookahead_days clk t
         = get_gap_nights active pid lookahead_days clk t
      /\ generate_schedule_e_summary sum property_data bookings expenses tax_year clk t
         = generate_schedule_e_summary sum property_data active expenses tax_year clk t).
  { intros. subst active. repeat split.
    - unfold generate_daily_briefing, bind.
      destruct (match today with Some d => ret d | None => date_today end clk t)
        as [d t'].
      by rewrite <- briefing_fold_active.
    - unfold calculate_property_metrics, bind, date_today, ret.
      destruct start_date, end_date; simpl; unfold metrics_of;
        by rewrite prop_bookings_active.
    - unfold get_gap_nights, bind, date_today, ret. simpl.
      unfold gaps_from. by rewrite gap_relevant_active.
    - unfold generate_schedule_e_summary, bind, date_today, ret.
      destruct tax_year; simpl; unfold schedule_e_for;
        by rewrite prop_bookings_active. }
  split; [exact H|].
  intros properties l1 l2 c maintenance_items today start_date end_date pid
    lookahead_days clk t Hc.
  destruct (H properties (l1 ++ c :: l2) maintenance_items today start_date end_date
              pid lookahead_days sum_left sample_property [] None clk t)
    as (Hb & Hm & Hg & _).
  destruct (H properties (l1 ++ l2) maintenance_items today start_date end_date
              pid lookahead_days sum_left sample_property [] None clk t)
    as (Hb' & Hm' & Hg' & _).
  rewrite Hb, Hm, Hg, Hb', Hm', Hg'.
  by rewrite (filter_drop_cancelled l1 l2 c Hc).
Qed.

(** A cancelled stay between two stays of the gap example is not seen. *)
Lemma cancelled_bookings_are_ignored_witness :
  generate_daily_briefing [sample_property]
    ([march_stay 339.5] ++ cancelled_stay :: gap_bookings) [] None sample_clock 0%nat
  = generate_daily_briefing [sample_property]
      ([march_stay 339.5] ++ gap_bookings) [] None sample_clock 0%nat
  /\ calculate_property_metrics ([march_stay 339.5] ++ cancelled_stay :: gap_bookings)
       "P1" None None sample_clock 0%nat
     = calculate_property_metrics ([march_stay 339.5] ++ gap_bookings)
         "P1" None None sample_clock 0%nat
  /\ get_gap_nights ([march_stay 339.5] ++ cancelled_stay :: gap_bookings)
       "P1" 30 sample_clock 0%nat
     = get_gap_nights ([march_stay 339.5] ++ gap_bookings) "P1" 30 sample_clock 0%nat.
Proof.
  apply (proj2 cancelled_bookings_are_ignored). reflexivity.
Defined.

(** ** Gap analysis *)

Section Sorting.

Context {A K : Type} (le : K -> K -> bool) (key : A -> K).

Hypothesis le_total : forall x y, le x y = true \/ le y x = true.

Lemma insert_by_HdRel (x a : A) (l : list A) :
  key_le le key a x -> HdRel (key_le le key) a l -> HdRel (key_le le key) a (insert_by le key x l).
Proof.
  intros Hax Hl. destruct l as [|y l]; simpl; [by constructor|].
  destruct (le (key x) (key y)); constructor; [done|].
  by inversion Hl.
Qed.

Lemma insert_by_Sorted (x : A) (l : list A) :
  Sorted (key_le le key) l -> Sorted (key_le le key) (insert_by le key x l).
Proof.
  induction 1 as [|y l Hs IH Hh]; simpl; [by repeat constructor|].
  destruct (le (key x) (key y)) eqn:Hxy.
  - by repeat constructor.
  - constructor; [done|]. apply insert_by_HdRel; [|done].
    destruct (le_total (key x) (key y)); [congruence|done].
Qed.

Lemma insert_by_Permutation (x : A) (l : list A) :
  insert_by le key x l ≡ₚ x :: l.
Proof.
  induction l as [|y l IH]; simpl; [done|].
  destruct (le (key x) (key y)); [done|].
  rewrite IH. apply Permutation_swap.
Qed.

(** [sorted(l, key=key)] is a rearrangement of [l] in which each element is
    followed by one with a key at least as large. *)
Lemma sorted_by_spec (l : list A) :
  Sorted (key_le le key) (sorted_by le key l) /\ sorted_by le key l ≡ₚ l.
Proof.
  induction l as [|x l [IHs IHp]]; simpl; [by split; constructor|].
  split; [by apply insert_by_Sorted|].
  by rewrite insert_by_Permutation, IHp.
Qed.

End Sorting.

Lemma gap_walk_fold (window_end : date) (bs : list Booking) :
  forall (gaps : list Gap) (cursor : date),
    (let '(g, c) := fold_left gap_step bs (gaps, cursor) in
     if c <? window_end then g ++ [gap_of (c, window_end)] else g)
    = gaps ++ (gap_of <$> vacancy_walk cursor (omap stay_of bs) window_end).
Proof.
  induction bs as [|b bs IH]; intros gaps cursor; simpl.
  - destruct (cursor <? window_end); simpl; [done|by rewrite app_nil_r].
  - unfold stay_of at 1.
    destruct (_parse_date (check_in b)) as [b_in|]; [|apply IH].
    destruct (_parse_date (check_out b)) as [b_out|]; [|apply IH].
    rewrite IH. cbn [vacancy_walk]. rewrite fmap_app.
    destruct (cursor <? b_in) eqn:Hlt; simpl.
    + replace (1 <=? b_in - cursor) with true by lia.
      by rewrite <- app_assoc.
    + done.
Qed.

Lemma vacancy_walk_positive (window_end : date) (stays : list (date * date)) :
  forall cursor iv,
    iv ∈ vacancy_walk cursor stays window_end -> 1 <= iv.2 - iv.1.
Proof.
  induction stays as [|[b_in b_out] rest IH]; intros cursor iv; simpl.
  - destruct (cursor <? window_end) eqn:Hlt; [|by rewrite elem_of_nil].
    rewrite list_elem_of_singleton. intros ->. simpl. lia.
  - rewrite elem_of_app. intros [Hin|Hin]; [|by eapply IH].
    destruct (cursor <? b_in) eqn:Hlt; [|by apply elem_of_nil in Hin].
    apply list_elem_of_singleton in Hin as ->. simpl. lia.
Qed.

(** The gaps of [get_gap_nights] are those of the walk over the stays
    of the property's bookings that are not cancelled and check out after
    today, taken in the order of their check-in texts, with the cursor
    starting at today and the window ending [lookahead_days] later; the
    bookings walked are a rearrangement of those bookings, sorted by
    check-in text; every gap has at least one night.  For the stays
    [Mar-1, Mar-3) and [Mar-6, Mar-9) written as ISO texts, today Mar-1 and
    a window ending Mar-10, the gaps are [Mar-3, Mar-6) with 3 nights and
    [Mar-9, Mar-10) with 1 night. *)
Theorem gap_walk_from_today :
  (forall (bookings : list Booking) (pid : string) (lookahead_days : Z)
          (clk : nat -> instant) (t : nat),
      let today_date := i_today (clk t) in
      let walked :=
        sorted_by String.leb check_in
          (List.filter (gap_relevant pid today_date) bookings) in
      (get_gap_nights bookings pid lookahead_days clk t).1
      = (gap_of <$> vacancy_walk today_date (omap stay_of walked)
                      (today_date + lookahead_days))
      /\ Sorted (fun a b => String.leb (check_in a) (check_in b) = true) walked
      /\ walked ≡ₚ List.filter (gap_relevant pid today_date) bookings
      /\ Forall (fun g => 1 <= g_nights g)
                (get_gap_nights bookings pid lookahead_days clk t).1)
  /\ (get_gap_nights gap_bookings "P1" 9 sample_clock 0%nat).1
     = [{| g_start := "2026-03-03"; g_end := "2026-03-06"; g_nights := 3 |};
        {| g_start := "2026-03-09"; g_end := "2026-03-10"; g_nights := 1 |}]
  /\ i_today (sample_clock 0%nat) = march_first
  /\ Date.isoformat march_first = "2026-03-01"%string
  /\ Date.isoformat (march_first + 9) = "2026-03-10"%string.
Proof.
  split; [|by vm_compute].
  intros bookings pid lookahead_days clk t today_date walked.
  assert (Hw : (get_gap_nights bookings pid lookahead_days clk t).1
               = (gap_of <$> vacancy_walk today_date (omap stay_of walked)
                               (today_date + lookahead_days))).
  { unfold get_gap_nights, bind, date_today, ret. simpl. unfold gaps_from.
    fold today_date. fold walked.
    pose proof (gap_walk_fold (today_date + lookahead_days) walked [] today_date) as H.
    destruct (fold_left gap_step walked ([], today_date)) as [g c].
    exact H. }
  destruct (sorted_by_spec String.leb check_in String.leb_total
              (List.filter (gap_relevant pid today_date) bookings)) as [Hs Hp].
  repeat split; [exact Hw|exact Hs|exact Hp|].
  rewrite Hw. apply Forall_fmap, Forall_forall. intros iv Hiv.
  by eapply vacancy_walk_positive.
Qed.

(** C6.  The bookings are sorted by the text of their check-in, not by its
    date.  The stays [Mar-1, Mar-3) and [Mar-6, Mar-9) of the claim, the
    second written 03/06/2026 to 03/09/2026, are both read by [_parse_date]
    and both walked; the second is walked first, because its text comes
    first, and with today Mar-1 and a window ending Mar-10 the gaps are
    [Mar-1, Mar-6) with 5 nights, two of which are booked, and
    [Mar-9, Mar-10) with 1 night, where the walk in the order of the
    check-in days gives [Mar-3, Mar-6) and [Mar-9, Mar-10). *)
Theorem gap_walk_sorts_text :
  (get_gap_nights mixed_format_bookings "P1" 9 sample_clock 0%nat).1
  = [{| g_start := "2026-03-01"; g_end := "2026-03-06"; g_nights := 5 |};
     {| g_start := "2026-03-09"; g_end := "2026-03-10"; g_nights := 1 |}]
  /\ omap stay_of mixed_format_bookings
     = [(march_first, march_first + 2); (march_first + 5, march_first + 8)]
  /\ omap stay_of
       (sorted_by String.leb check_in
          (List.filter (gap_relevant "P1" march_first) mixed_format_bookings))
     = [(march_first + 5, march_first + 8); (march_first, march_first + 2)]
  /\ (gap_of <$> vacancy_walk march_first (omap stay_of mixed_format_bookings)
                   (march_first + 9))
     = [{| g_start := "2026-03-03"; g_end := "2026-03-06"; g_nights := 3 |};
        {| g_start := "2026-03-09"; g_end := "2026-03-10"; g_nights := 1 |}]
  /\ i_today (sample_clock 0%nat) = march_first.
Proof. vm_compute. repeat split; reflexivity. Qed.

(** ** Property metrics *)

Lemma overlap_nights_bounds (b_in b_out start_date end_date : date) :
  0 <= overlap_nights b_in b_out start_date end_date
  /\ overlap_nights b_in b_out start_date end_date <= Z.max (b_out - b_in) 0
  /\ overlap_nights b_in b_out start_date end_date <= Z.max (end_date - start_date) 1.
Proof. unfold overlap_nights. lia. Qed.

Lemma metrics_step_nights start_date end_date acc b :
  mx_nights (metrics_step start_date end_date acc b)
  = mx_nights acc
    + match stay_of b with
      | Some (b_in, b_out) => overlap_nights b_in b_out start_date end_date
      | None => 0
      end.
Proof.
  unfold metrics_step, stay_of.
  destruct (_parse_date (check_in b)) as [b_in|]; [|lia].
  destruct (_parse_date (check_out b)) as [b_out|]; [|lia].
  pose proof (overlap_nights_bounds b_in b_out start_date end_date).
  destruct (0 <? overlap_nights b_in b_out start_date end_date) eqn:Hn;
    destruct (0 <? rating_given b); simpl; lia.
Qed.

Lemma metrics_step_revenue start_date end_date acc b :
  mx_revenue (metrics_step start_date end_date acc b)
  = match stay_of b with
    | Some (b_in, b_out) =>
        let nights := overlap_nights b_in b_out start_date end_date in
        if 0 <? nights
        then (mx_revenue acc + total_payout b * prorate nights b_in b_out)%float
        else mx_revenue acc
    | None => mx_revenue acc
    end.
Proof.
  unfold metrics_step, stay_of.
  destruct (_parse_date (check_in b)) as [b_in|]; [|done].
  destruct (_parse_date (check_out b)) as [b_out|]; [|done].
  simpl.
  destruct (0 <? overlap_nights b_in b_out start_date end_date);
    by destruct (0 <? rating_given b).
Qed.

(** C4. A booking adds to the metrics its nights inside the window and its
    payout times those nights over its total nights; a booking with no
    night inside the window, and so every booking of zero total nights,
    adds nothing.  The stay from 2026-03-01 to 2026-03-04 measured over
    [2026-03-02, 2026-03-03) counts one night and the payout times 1/3,
    rounded to cents: 113.17 for a payout of 339.50. *)
Theorem proration_is_linear :
  (forall (start_date end_date b_in b_out : date) (acc : metrics_acc) (b : Booking),
      _parse_date (check_in b) = Some b_in ->
      _parse_date (check_out b) = Some b_out ->
      let nights := overlap_nights b_in b_out start_date end_date in
      let acc' := metrics_step start_date end_date acc b in
      nights = Z.max (Z.min b_out end_date - Z.max b_in start_date) 0
      /\ (0 < nights ->
          nights <= b_out - b_in
          /\ mx_nights acc' = mx_nights acc + nights
          /\ mx_revenue acc'
             = (mx_revenue acc
                + total_payout b * Num.div_Z nights (b_out - b_in))%float)
      /\ (nights = 0 ->
          mx_nights acc' = mx_nights acc /\ mx_revenue acc' = mx_revenue acc)
      /\ (b_out - b_in <= 0 -> nights = 0))
  /\ (forall (payout : float) (clk : nat -> instant) (t : nat),
        let m := (calculate_property_metrics [march_stay payout] "P1"
                    (Some (Date.ymd2ord 2026 3 2)) (Some (Date.ymd2ord 2026 3 3))
                    clk t).1 in
        total_nights_booked m = 1
        /\ total_revenue m
           = Num.py_round (0 + payout * Num.div_Z 1 3)%float 2)
  /\ total_revenue
       (calculate_property_metrics [march_stay 339.5] "P1"
          (Some (Date.ymd2ord 2026 3 2)) (Some (Date.ymd2ord 2026 3 3))
          sample_clock 0%nat).1
     = 113.17%float.
Proof.
  split; [|split].
  - intros start_date end_date b_in b_out acc b Hin Hout nights acc'.
    pose proof (overlap_nights_bounds b_in b_out start_date end_date) as Hb.
    pose proof (metrics_step_nights start_date end_date acc b) as Hn.
    pose proof (metrics_step_revenue start_date end_date acc b) as Hr.
    unfold stay_of in Hn, Hr. rewrite Hin, Hout in Hn, Hr. simpl in Hr.
    fold nights in Hb, Hn, Hr. fold acc' in Hn, Hr.
    split; [done|]. split; [|split].
    + intros Hpos. split; [lia|]. split; [done|].
      rewrite Hr. replace (0 <? nights) with true by lia.
      unfold prorate. by replace (Z.max (b_out - b_in) 1) with (b_out - b_in) by lia.
    + intros Hz. split; [lia|]. rewrite Hr. by replace (0 <? nights) with false by lia.
    + lia.
  - intros payout clk t. vm_compute. split; reflexivity.
  - vm_compute. reflexivity.
Qed.

(** The stay of the interval example, inside a window of one day. *)
Lemma proration_is_linear_witness :
  let nights := overlap_nights 739676 739679 739677 739678 in
  let acc' := metrics_step 739677 739678 metrics_acc0 (march_stay 339.5) in
  nights = Z.max (Z.min 739679 739678 - Z.max 739676 739677) 0
  /\ (0 < nights ->
      nights <= 739679 - 739676
      /\ mx_nights acc' = mx_nights metrics_acc0 + nights
      /\ mx_revenue acc'
         = (mx_revenue metrics_acc0
            + total_payout (march_stay 339.5)
              * Num.div_Z nights (739679 - 739676))%float)
  /\ (nights = 0 ->
      mx_nights acc' = mx_nights metrics_acc0
      /\ mx_revenue acc' = mx_revenue metrics_acc0)
  /\ (739679 - 739676 <= 0 -> nights = 0).
Proof.
  apply (proj1 proration_is_linear 739677 739678 739676 739679 metrics_acc0
           (march_stay 339.5)).
  - vm_compute. reflexivity.
  - vm_compute. reflexivity.
Defined.





(** ** Schedule E *)

Lemma line_of_cases (table : list (string * string)) (category : string) :
  line_of table category = "line_19_other"%string
  \/ In (line_of table category) (List.map snd table).
Proof.
  induction table as [|[c l] table IH]; cbn [line_of]; [by left|].
  destruct (String.eqb c category).
  - right. by left.
  - destruct IH as [IH|IH]; [by left|]. right. by right.
Qed.

Lemma line_of_not_rents (category : string) :
  String.eqb (line_of cat_map category) "line_3_rents" = false.
Proof.
  destruct (line_of_cases cat_map category) as [H|H].
  - by rewrite H.
  - remember (line_of cat_map category) as line eqn:Hl. clear Hl.
    unfold cat_map in H. cbn [List.map snd In] in H.
    repeat (destruct H as [<-|H]; [reflexivity|]).
    contradiction.
Qed.

#[local] Arguments line_of : simpl never.

Lemma sched_add_keys line amount (items : list (string * float)) :
  List.map fst (sched_add line amount items) = List.map fst items.
Proof.
  induction items as [|[k v] items IH]; simpl; [done|].
  destruct (String.eqb k line); simpl; [done|by rewrite IH].
Qed.

Lemma sched_get_add key line amount (items : list (string * float)) :
  sched_get key (sched_add line amount items)
  = if String.eqb line key && existsb (String.eqb key) (List.map fst items)
    then (sched_get key items + amount)%float
    else sched_get key items.
Proof.
  induction items as [|[k v] items IH]; simpl.
  - by rewrite andb_false_r.
  - destruct (String.eqb_spec k line) as [->|Hkl]; simpl.
    + destruct (String.eqb_spec line key) as [->|Hlk]; simpl.
      * by rewrite String.eqb_refl.
      * done.
    + destruct (String.eqb_spec k key) as [->|Hkk]; simpl.
      * rewrite String.eqb_refl.
        destruct (String.eqb_spec line key) as [->|Hlk]; [done|]. done.
      * rewrite IH.
        destruct (String.eqb_spec key k) as [->|_]; [done|]. done.
Qed.

Lemma sched_fold_keys pid tax_year (expenses : list Expense) :
  forall items,
    List.map fst (fold_left (sched_step pid tax_year) expenses items)
    = List.map fst items.
Proof.
  induction expenses as [|exp es IH]; intros items; simpl; [done|].
  rewrite IH. unfold sched_step.
  destruct (_ && _); [apply sched_add_keys|done].
Qed.

Lemma sched_fold_line pid tax_year key (expenses : list Expense) :
  forall items,
    existsb (String.eqb key) (List.map fst items) = true ->
    sched_get key (fold_left (sched_step pid tax_year) expenses items)
    = fold_left PrimFloat.add (line_amounts pid tax_year key expenses)
        (sched_get key items).
Proof.
  unfold line_amounts.
  induction expenses as [|exp es IH]; intros items Hk; simpl; [done|].
  rewrite IH.
  - unfold sched_step.
    destruct (String.eqb (e_property_id exp) pid && year_is (e_date exp) tax_year);
      simpl; [|done].
    rewrite sched_get_add, Hk, andb_true_r.
    by destruct (String.eqb (line_of cat_map (e_category exp)) key).
  - unfold sched_step. destruct (_ && _); [|done]. by rewrite sched_add_keys.
Qed.

(** C2, as the code has it.  The total of the expenses is the sum of the
    expense lines rounded to cents, and the net income is the rents less
    that sum before rounding, rounded to cents on its own.  The rents are
    the payouts of the year's bookings, rounded; each expense line is what
    the property gives it plus the amounts of the expenses mapped to it. *)
Theorem schedule_e_totals :
  forall (sum : list float -> float) (property_data : Property)
         (bookings : list Booking) (expenses : list Expense) (tax_year : Z)
         (clk : nat -> instant) (t : nat),
    let s := (generate_schedule_e_summary sum property_data bookings expenses
                (Some tax_year) clk t).1 in
    let pid := p_property_id property_data in
    let gross := sum (year_payouts pid tax_year bookings) in
    let rents := sched_get "line_3_rents" (se_lines s) in
    let unrounded := total_exp sum (se_lines s) in
    se_total_expenses s = Num.py_round unrounded 2
    /\ se_net_income s = Num.py_round (rents - unrounded)%float 2
    /\ rents = Num.py_round gross 2
    /\ List.map fst (se_lines s) = "line_3_rents"%string :: expense_lines
    /\ unrounded = sum (List.map (fun line => sched_get line (se_lines s)) expense_lines)
    /\ Forall (fun line =>
                 sched_get line (se_lines s)
                 = fold_left PrimFloat.add
                     (line_amounts pid tax_year line expenses)
                     (sched_get line (sched_init property_data gross)))
              expense_lines.
Proof.
  intros sum property_data bookings expenses tax_year clk t s pid gross rents unrounded.
  assert (Hlines : se_lines s
                   = fold_left (sched_step pid tax_year) expenses
                       (sched_init property_data gross)) by reflexivity.
  assert (Hkeys : List.map fst (se_lines s) = "line_3_rents"%string :: expense_lines).
  { rewrite Hlines, sched_fold_keys. reflexivity. }
  split; [reflexivity|]. split; [reflexivity|]. split; [|split; [exact Hkeys|split]].
  - subst rents. rewrite Hlines, sched_fold_line by reflexivity.
    unfold line_amounts.
    replace (List.filter _ expenses) with (@nil Expense); [reflexivity|].
    clear. induction expenses as [|exp es IH]; simpl; [done|].
    by rewrite line_of_not_rents, andb_false_r.
  - subst unrounded. unfold total_exp.
    destruct (se_lines s) as [|[k0 v0] l]; [discriminate|].
    do 13 (destruct l as [|[? ?] l]; [discriminate|]).
    destruct l; [|discriminate].
    simpl in Hkeys. unfold expense_lines in Hkeys.
    injection Hkeys as -> -> -> -> -> -> -> -> -> -> -> -> -> ->.
    reflexivity.
  - rewrite Hlines. repeat constructor; by rewrite sched_fold_line by reflexivity.
Qed.

(** C2 fails as stated: with rents of 1000.30 and one expense of 200.10
    the net income is 800.20 and the total 200.10, and their sum as floats
    is not 1000.30; so it is with either summation. *)
Lemma schedule_e_identity_fails :
  let s := sample_schedule sum_left 1000.3 200.1 in
  let s' := sample_schedule sum_neumaier 1000.3 200.1 in
  sched_get "line_3_rents" (se_lines s) = 1000.3%float
  /\ se_total_expenses s = 200.1%float
  /\ se_net_income s = 800.2%float
  /\ (se_net_income s + se_total_expenses s
      =? sched_get "line_3_rents" (se_lines s))%float = false
  /\ s' = s.
Proof. vm_compute. repeat split; reflexivity. Qed.

(** ** Payout *)



(** ** Fetching a feed *)

(** C9. [fetch_ical_from_url] returns a text whatever the outside world
    does and never raises: when building the request, opening the URL or
    reading the answer raises [e], it returns "ERROR: " followed by the text
    of [e], which the caller can tell by its prefix; otherwise it returns
    the decoded answer.  [urlopen] is called once at most: there is no
    retry. *)
Theorem fetch_never_raises :
  forall (response : Type) (lib : Fetch.urllib response) (url : string) (n : nat),
    exists (text : string) (calls : nat),
      Fetch.fetch_ical_from_url lib url n = (Fetch.Returned text, (n + calls)%nat)
      /\ (calls <= 1)%nat
      /\ (forall e, (Fetch.fetch_body lib url n).1 = Fetch.Raised e ->
            text = ("ERROR: " ++ Fetch.exn_text e)%string
            /\ Str.startswith text "ERROR:" = true)
      /\ (forall body, (Fetch.fetch_body lib url n).1 = Fetch.Returned body ->
            text = body /\ calls = 1%nat)
      /\ (forall e, Fetch.Request lib url [("User-Agent", "HostFlow/2.0")]%string
                    = Fetch.Raised e -> calls = 0%nat).
Proof.
  intros response lib url n.
  unfold Fetch.fetch_ical_from_url, Fetch.try_except, Fetch.fetch_body,
    Fetch.and_then, Fetch.lift, Fetch.call_urlopen, Fetch.pure.
  destruct (Fetch.Request lib url _) as [req|e1] eqn:Hreq; simpl.
  - destruct (Fetch.urlopen lib n req 15) as [resp|e2]; simpl.
    + destruct (Fetch.read lib resp) as [bytes|e3]; simpl.
      * exists (Fetch.decode_utf8_replace lib bytes), 1%nat.
        split; [f_equal; lia|]. split; [lia|].
        split; [intros e He; discriminate|].
        split; [intros b Hb; by injection Hb as <-|].
        intros e He; discriminate.
      * exists ("ERROR: " ++ Fetch.exn_text e3)%string, 1%nat.
        split; [f_equal; lia|]. split; [lia|].
        split; [intros e He; by injection He as <-|].
        split; [intros b Hb; discriminate|].
        intros e He; discriminate.
    + exists ("ERROR: " ++ Fetch.exn_text e2)%string, 1%nat.
      split; [f_equal; lia|]. split; [lia|].
      split; [intros e He; by injection He as <-|].
      split; [intros b Hb; discriminate|].
      intros e He; discriminate.
  - exists ("ERROR: " ++ Fetch.exn_text e1)%string, 0%nat.
    split; [f_equal; lia|]. split; [lia|].
    split; [intros e He; by injection He as <-|].
    split; [intros b Hb; discriminate|].
    done.
Qed.

(** ** Instances of the claims at sample inputs *)

(** The sample feed imported twice: the second run adds nothing and reports
    its two candidate bookings as duplicates. *)
Lemma reconciliation_idempotent_witness :
  let parsed1 := (parse_ical sample_feed "P1" "Airbnb" 150 75 sample_clock 0%nat).1.1 in
  let parsed2 := (parse_ical sample_feed "P1" "VRBO" 120 60 sample_clock 7%nat).1.1 in
  let first_run := deduplicate_ical_bookings [march_stay 339.5] parsed1 in
  deduplicate_ical_bookings ([march_stay 339.5] ++ first_run.1) parsed2
  = ([], length parsed2)
  /\ length parsed2 = length parsed1.
Proof.
  exact (proj1 reconciliation_idempotent sample_feed "P1" "Airbnb" "VRBO"
           150%float 75%float 120%float 60%float sample_clock sample_clock
           0%nat 7%nat [march_stay 339.5]).
Defined.

(** An event with the summary of an owner block is no candidate. *)
Lemma blocked_event_is_no_booking_witness :
  is_candidate
    (<["SUMMARY" := "Not available - Owner block"]>
       (<["DTEND" := "20260403"]> (<["DTSTART" := "20260401"]> ∅)))%string
  = false.
Proof.
  apply (proj1 (proj2 blocked_event_is_no_booking) "P1"%string).
  vm_compute. reflexivity.
Defined.


(* ================================================================= *)
(** * Further properties of the engine *)

(** ** Dates and their texts *)

Lemma month_days_checked : forall_range 10 0 month_day_ok = true.
Proof. vm_compute. reflexivity. Qed.

Lemma forall_range_spec (depth : nat) : forall (lo : Z) (p : Z -> bool),
  forall_range depth lo p = true ->
  forall z, lo <= z < lo + 2 ^ Z.of_nat depth -> p z = true.
Proof.
  induction depth as [|k IH]; intros lo p H z Hz; simpl in H.
  - simpl in Hz. by replace z with lo by lia.
  - apply andb_true_iff in H as [H1 H2].
    rewrite Nat2Z.inj_succ, Z.pow_succ_r in Hz by lia.
    destruct (Z.lt_ge_cases z (lo + 2 ^ Z.of_nat k)).
    + apply (IH lo p H1). lia.
    + apply (IH _ p H2). lia.
Qed.

Lemma month_day_spec (leap : bool) (n : Z) :
  0 <= n <= 364 ->
  let '(m, d) := month_day_of leap n in
  1 <= m <= 12 /\ 1 <= d <= days_in_month_of leap m
  /\ Date.days_before_month_tbl m + (if (2 <? m) && leap then 1 else 0) + d = n + 1.
Proof.
  intros Hn.
  pose proof (forall_range_spec 10 0 month_day_ok month_days_checked
                (n + if leap then 512 else 0)) as H.
  assert (Hz : 0 <= n + (if leap then 512 else 0) < 0 + 2 ^ Z.of_nat 10)
    by (destruct leap; simpl; lia).
  specialize (H Hz). unfold month_day_ok in H.
  assert (Hl : (512 <=? n + (if leap then 512 else 0)) = leap)
    by (destruct leap; lia).
  assert (Hm : (n + (if leap then 512 else 0)) mod 512 = n).
  { destruct leap; Z.div_mod_to_equations; lia. }
  rewrite Hl, Hm in H. cbv zeta in H.
  replace (364 <? n) with false in H by lia. simpl in H.
  destruct (month_day_of leap n) as [m d].
  repeat (apply andb_true_iff in H as [H ?]). lia.
Qed.

Lemma days_before_year_cycle (n400 n100 n4 n1 : Z) :
  0 <= n100 <= 3 -> 0 <= n4 <= 24 -> 0 <= n1 <= 3 ->
  Date.days_before_year (n400 * 400 + 1 + n100 * 100 + n4 * 4 + n1)
  = n400 * 146097 + n100 * 36524 + n4 * 1461 + n1 * 365.
Proof.
  intros. unfold Date.days_before_year. Z.div_mod_to_equations. lia.
Qed.

Lemma is_leap_cycle (n400 n100 n4 n1 : Z) :
  0 <= n100 <= 3 -> 0 <= n4 <= 24 -> 0 <= n1 <= 3 ->
  Date.is_leap (n400 * 400 + 1 + n100 * 100 + n4 * 4 + n1)
  = (n1 =? 3) && (negb (n4 =? 24) || (n100 =? 3)).
Proof.
  intros. unfold Date.is_leap.
  repeat match goal with
         | |- context [?a =? ?b] => destruct (Z.eqb_spec a b)
         end; simpl; try reflexivity; exfalso; Z.div_mod_to_equations; lia.
Qed.

Lemma ord2ymd_spec (o : date) :
  valid_date o ->
  let '(y, m, d) := Date.ord2ymd o in
  valid_ymd y m d /\ Date.ymd2ord y m d = o.
Proof.
  intros [Hlo Hhi]. unfold Date.ord2ymd. cbv zeta.
  set (n := o - 1).
  set (n400 := n / 146097). set (a := n mod 146097).
  set (n100 := a / 36524). set (b := a mod 36524).
  set (n4 := b / 1461). set (c := b mod 1461).
  set (n1 := c / 365). set (e := c mod 365).
  assert (Ha : n = 146097 * n400 + a /\ 0 <= a < 146097)
    by (subst n400 a; Z.div_mod_to_equations; lia).
  assert (Hb : a = 36524 * n100 + b /\ 0 <= b < 36524)
    by (subst n100 b; Z.div_mod_to_equations; lia).
  assert (Hc : b = 1461 * n4 + c /\ 0 <= c < 1461)
    by (subst n4 c; Z.div_mod_to_equations; lia).
  assert (He : c = 365 * n1 + e /\ 0 <= e < 365)
    by (subst n1 e; Z.div_mod_to_equations; lia).
  clearbody n400 a n100 b n4 c n1 e.
  assert (Hn : n = o - 1) by reflexivity. clearbody n.
  destruct (Z.eqb_spec n1 4) as [H14|H14]; simpl.
  - (* the last day of a leap year *)
    assert (n100 <= 3 /\ n4 <= 23 /\ e = 0) as (? & ? & ?) by lia.
    replace (n400 * 400 + 1 + n100 * 100 + n4 * 4 + n1 - 1)
      with (n400 * 400 + 1 + n100 * 100 + n4 * 4 + 3) by lia.
    unfold valid_ymd, Date.ymd2ord, Date.days_in_month, Date.days_before_month.
    rewrite days_before_year_cycle, is_leap_cycle by lia.
    replace (n4 =? 24) with false by lia. simpl. lia.
  - destruct (Z.eqb_spec n100 4) as [H1004|H1004]; simpl.
    + (* the last day of the cycle *)
      replace (n400 * 400 + 1 + n100 * 100 + n4 * 4 + n1 - 1)
        with (n400 * 400 + 1 + 3 * 100 + 24 * 4 + 3) by lia.
      unfold valid_ymd, Date.ymd2ord, Date.days_in_month, Date.days_before_month.
      rewrite days_before_year_cycle, is_leap_cycle by lia.
      simpl. lia.
    + assert (0 <= n100 <= 3 /\ 0 <= n4 <= 24 /\ 0 <= n1 <= 3) as (? & ? & ?) by lia.
      set (leap := (n1 =? 3) && (negb (n4 =? 24) || (n100 =? 3))).
      set (y := n400 * 400 + 1 + n100 * 100 + n4 * 4 + n1).
      pose proof (month_day_spec leap e ltac:(lia)) as Hmd.
      unfold month_day_of in Hmd. cbv zeta in Hmd.
      assert (Hy : Date.days_before_year y = n - e).
      { subst y. rewrite days_before_year_cycle by lia. lia. }
      assert (Hl : Date.is_leap y = leap) by (subst y; by apply is_leap_cycle).
      assert (Hyr : 1 <= y <= 9999) by (subst y; lia).
      destruct (e <? _);
        unfold valid_ymd, Date.ymd2ord, Date.days_in_month, Date.days_before_month;
        rewrite Hy, Hl; unfold days_in_month_of in Hmd; lia.
Qed.

Lemma ymd2ord_valid (y m d : Z) :
  valid_ymd y m d -> valid_date (Date.ymd2ord y m d).
Proof.
  intros (Hy & Hm & Hd). unfold valid_date, Date.ymd2ord, Date.days_before_month.
  assert (Hdoy : 1 <= Date.days_before_month_tbl m
                      + (if (2 <? m) && Date.is_leap y then 1 else 0) + d
                 <= 365 + (if Date.is_leap y then 1 else 0)).
  { unfold Date.days_in_month in Hd.
    assert (m = 1 \/ m = 2 \/ m = 3 \/ m = 4 \/ m = 5 \/ m = 6 \/ m = 7 \/ m = 8
            \/ m = 9 \/ m = 10 \/ m = 11 \/ m = 12) as Hcases by lia.
    repeat (destruct Hcases as [->|Hcases]); try subst m;
      simpl in *; destruct (Date.is_leap y); simpl in *; lia. }
  destruct (Z.eq_dec y 9999) as [->|Hne].
  - change (Date.is_leap 9999) with false in Hdoy.
    change (Date.days_before_year 9999) with 3651694.
    change (Date.is_leap 9999) with false. lia.
  - assert (0 <= Date.days_before_year y <= 3651329).
    { unfold Date.days_before_year. Z.div_mod_to_equations. lia. }
    destruct (Date.is_leap y); lia.
Qed.

Lemma year_texts_checked : forall_range 14 0 year_text_ok = true.
Proof. vm_cast_no_check (eq_refl true). Qed.

Lemma month_day_texts_checked : forall_range 9 0 month_day_text_ok = true.
Proof. vm_compute. reflexivity. Qed.

Lemma year_text (y : Z) :
  1 <= y <= 9999 ->
  exists a b c d,
    Str.pad 4 y = String a (String b (String c (String d EmptyString)))
    /\ Str.is_digit a = true /\ Str.is_digit b = true
    /\ Str.is_digit c = true /\ Str.is_digit d = true
    /\ 1000 * Str.digit_val a + 100 * Str.digit_val b
       + 10 * Str.digit_val c + Str.digit_val d = y.
Proof.
  intros Hy.
  pose proof (forall_range_spec 14 0 year_text_ok year_texts_checked y) as H.
  assert (Hz : 0 <= y < 0 + 2 ^ Z.of_nat 14) by (simpl; lia).
  specialize (H Hz). unfold year_text_ok in H.
  replace (y <? 1) with false in H by lia.
  replace (9999 <? y) with false in H by lia. simpl in H.
  destruct (Str.pad 4 y) as [|a [|b [|c [|d [|? ?]]]]]; try discriminate.
  do 4 (apply andb_true_iff in H as [H ?]).
  exists a, b, c, d. repeat split; try done. lia.
Qed.

Lemma month_day_text (m d : Z) :
  1 <= m <= 12 -> 1 <= d <= 31 ->
  exists rest,
    Strptime.matches
      [Strptime.Lit "-"; Strptime.Fm; Strptime.Lit "-"; Strptime.Fd]
      ("-" ++ Str.pad 2 m ++ "-" ++ Str.pad 2 d)
    = ([0; m; 0; d], EmptyString) :: rest.
Proof.
  intros Hm Hd.
  pose proof (forall_range_spec 9 0 month_day_text_ok month_day_texts_checked
                (32 * m + d)) as H.
  assert (Hz : 0 <= 32 * m + d < 0 + 2 ^ Z.of_nat 9) by (simpl; lia).
  specialize (H Hz). unfold month_day_text_ok in H. cbv zeta in H.
  replace ((32 * m + d) / 32) with m in H by (Z.div_mod_to_equations; lia).
  replace ((32 * m + d) mod 32) with d in H by (Z.div_mod_to_equations; lia).
  replace ((1 <=? m) && (m <=? 12) && (1 <=? d) && (d <=? 31)) with true in H by lia.
  simpl negb in H. rewrite orb_false_l in H.
  destruct (Strptime.matches _ _) as [|[vs r] rest]; [discriminate|].
  destruct vs as [|a [|b [|c [|e [|? ?]]]]]; try discriminate.
  destruct r; [|discriminate].
  do 3 (apply andb_true_iff in H as [H ?]).
  exists rest. repeat f_equal; lia.
Qed.

Lemma matches_single (f : Strptime.item) (fmt : list Strptime.item)
    (s r : string) (v : Z) :
  Strptime.field f s = [(v, r)] ->
  Strptime.matches (f :: fmt) s
  = List.map (fun '(vs, r') => (v :: vs, r')) (Strptime.matches fmt r).
Proof.
  intros H. change (Strptime.matches (f :: fmt) s)
    with (flat_map (fun '(v, r) =>
                      List.map (fun '(vs, r') => (v :: vs, r'))
                        (Strptime.matches fmt r))
                   (Strptime.field f s)).
  rewrite H. simpl. by rewrite app_nil_r.
Qed.

Lemma field_year (a b c d : ascii) (rest : string) :
  Str.is_digit a = true -> Str.is_digit b = true ->
  Str.is_digit c = true -> Str.is_digit d = true ->
  Strptime.field Strptime.FY (String a (String b (String c (String d rest))))
  = [(1000 * Str.digit_val a + 100 * Str.digit_val b
      + 10 * Str.digit_val c + Str.digit_val d, rest)].
Proof.
  intros Ha Hb Hc Hd. unfold Strptime.field, Strptime.d09.
  by rewrite Ha, Hb, Hc, Hd.
Qed.

Lemma strptime_iso (y m d : Z) :
  valid_ymd y m d ->
  Strptime.strptime_date Strptime.fmt_iso
    (Str.pad 4 y ++ "-" ++ Str.pad 2 m ++ "-" ++ Str.pad 2 d)
  = Some (Date.ymd2ord y m d).
Proof.
  intros Hv. pose proof Hv as (Hy & Hm & Hd).
  assert (Hd31 : 1 <= d <= 31).
  { unfold Date.days_in_month in Hd.
    repeat match type of Hd with context [if ?c then _ else _] => destruct c end; lia. }
  destruct (year_text y Hy) as (a & b & c & e & Ht & Ha & Hb & Hc & He & Hval).
  destruct (month_day_text m d Hm Hd31) as (rest & Hmd).
  unfold Strptime.strptime_date, Strptime.fmt_iso.
  rewrite Ht.
  change ((String a (String b (String c (String e ""))) ++ ?t)%string)
    with (String a (String b (String c (String e t)))).
  rewrite (matches_single _ _ _ _ _ (field_year a b c e _ Ha Hb Hc He)).
  rewrite Hmd, Hval. cbn [List.map].
  cbn. unfold Date.make.
  replace ((1 <=? y) && (y <=? 9999) && (1 <=? m) && (m <=? 12) && (1 <=? d)
           && (d <=? Date.days_in_month y m)) with true by lia.
  reflexivity.
Qed.

Lemma parse_isoformat (o : date) :
  valid_date o -> _parse_date (Date.isoformat o) = Some o.
Proof.
  intros Ho. pose proof (ord2ymd_spec o Ho) as H.
  unfold Date.isoformat. destruct (Date.ord2ymd o) as [[y m] d].
  destruct H as [Hv <-].
  unfold _parse_date. rewrite (strptime_iso y m d Hv).
  destruct Hv as (Hy & _).
  destruct (year_text y Hy) as (a & ? & ? & ? & -> & _). reflexivity.
Qed.

Lemma strptime_date_valid (fmt : list Strptime.item) (s : string) (d : date) :
  Strptime.strptime_date fmt s = Some d -> valid_date d.
Proof.
  unfold Strptime.strptime_date.
  destruct (Strptime.matches fmt s) as [|[vs [|? ?]] ?]; try discriminate.
  destruct (_ <=? 59); [|discriminate].
  unfold Date.make.
  destruct (_ && _) eqn:Hv; [|discriminate].
  intros [= <-]. apply ymd2ord_valid. unfold valid_ymd. lia.
Qed.

Lemma parse_date_valid (s : string) (d : date) :
  _parse_date s = Some d -> valid_date d.
Proof.
  unfold _parse_date. destruct s; [discriminate|].
  destruct (Strptime.strptime_date Strptime.fmt_iso _) eqn:H1.
  { intros [= <-]. by eapply strptime_date_valid. }
  destruct (Strptime.strptime_date Strptime.fmt_us_slash _) eqn:H2.
  { intros [= <-]. by eapply strptime_date_valid. }
  apply strptime_date_valid.
Qed.

Lemma parse_ical_date_valid (s : string) (d : date) :
  _parse_ical_date s = Some d -> valid_date d.
Proof.
  unfold _parse_ical_date. destruct s; [discriminate|].
  destruct (Strptime.strptime_date Strptime.fmt_ical_date _) eqn:H1.
  { intros [= <-]. by eapply strptime_date_valid. }
  apply strptime_date_valid.
Qed.

(** X1. [_parse_date] reads back the ISO text of every date: for a date
    [d] of the years 1 to 9999, [_parse_date(d.isoformat())] is [d]. *)
Theorem isoformat_reads_back (d : date) :
  valid_date d -> _parse_date (Date.isoformat d) = Some d.
Proof. apply parse_isoformat. Qed.

Lemma isoformat_reads_back_witness :
  _parse_date (Date.isoformat 739676) = Some 739676.
Proof. apply isoformat_reads_back. unfold valid_date. lia. Defined.

(** X2. Whatever [_parse_date] or [_parse_ical_date] returns is a date of
    the years 1 to 9999, in whichever of the accepted formats the text was,
    and the ISO text of that date is read back as the same date; the empty
    text gives no date. *)
Theorem parsed_dates_are_dates :
  (forall (s : string) (d : date),
      _parse_date s = Some d ->
      valid_date d /\ _parse_date (Date.isoformat d) = Some d)
  /\ (forall (s : string) (d : date),
        _parse_ical_date s = Some d ->
        valid_date d /\ _parse_date (Date.isoformat d) = Some d)
  /\ _parse_date "" = None
  /\ _parse_ical_date "" = None.
Proof.
  split; [|split; [|split; reflexivity]].
  - intros s d H. apply parse_date_valid in H. split; [done|by apply parse_isoformat].
  - intros s d H. apply parse_ical_date_valid in H.
    split; [done|by apply parse_isoformat].
Qed.

Lemma parsed_dates_are_dates_witness :
  valid_date 729087 /\ _parse_date (Date.isoformat 729087) = Some 729087.
Proof.
  apply (proj1 parsed_dates_are_dates "3/4/1997"%string). vm_compute. reflexivity.
Defined.

(** X3. [nights_between] is never negative; it is zero when one of the
    texts is no date; for the ISO texts of two dates it is the days from
    the first to the second, or zero when the second is not later. *)
Theorem nights_between_days :
  (forall ci co : string, 0 <= nights_between ci co)
  /\ (forall ci co : string,
        _parse_date ci = None \/ _parse_date co = None ->
        nights_between ci co = 0)
  /\ (forall a b : date,
        valid_date a -> valid_date b ->
        nights_between (Date.isoformat a) (Date.isoformat b) = Z.max (b - a) 0).
Proof.
  unfold nights_between. split; [|split].
  - intros ci co. destruct (_parse_date ci), (_parse_date co); lia.
  - intros ci co [H|H]; rewrite H; [done|]. by destruct (_parse_date ci).
  - intros a b Ha Hb. by rewrite !parse_isoformat.
Qed.

Lemma nights_between_days_witness :
  nights_between (Date.isoformat 739676) (Date.isoformat 739679)
  = Z.max (739679 - 739676) 0.
Proof.
  apply (proj2 (proj2 nights_between_days)); unfold valid_date; lia.
Defined.

(** ** More on the calendar import *)

Lemma append_nonempty (s t : string) : t <> ""%string -> (s ++ t)%string <> ""%string.
Proof. destruct s; simpl; [done|discriminate]. Qed.

Lemma nonempty_true (s : string) : nonempty s = true -> s <> ""%string.
Proof. by destruct s. Qed.

Lemma extract_guest_name_nonempty (summary plat : string) :
  _extract_guest_name summary plat <> ""%string.
Proof.
  unfold _extract_guest_name.
  destruct (negb (nonempty summary)); [discriminate|].
  destruct (_ || _); [discriminate|].
  destruct (Str.split_once " - " (Str.strip summary)) as [[p0 p1]|].
  - destruct (str_in_list _ _).
    + destruct (nonempty (Str.strip p1) && _) eqn:H.
      * apply andb_true_iff in H as [H _]. by apply nonempty_true.
      * by apply append_nonempty.
    + destruct (nonempty (Str.strip p1)) eqn:H.
      * by apply nonempty_true.
      * by apply append_nonempty.
  - destruct (Str.contains "(" (Str.strip summary) && _) eqn:H.
    + apply andb_true_iff in H as [_ H]. by apply nonempty_true.
    + match goal with
      | |- (if nonempty ?x then _ else _) <> _ =>
          destruct (nonempty x) eqn:Hx
      end.
      * by apply nonempty_true.
      * by apply append_nonempty.
Qed.

Section ImportedBookings.

Variables (pid plat : string) (default_rate cleaning : float).
Variable clk : nat -> instant.

(** What [_process_ical_event] does to the clock and gives a booking. *)
Lemma process_event_booking (ev : gmap string string) (t t' : nat) (b : Booking) :
  _process_ical_event ev pid plat default_rate cleaning clk t
  = (Some (ParsedBooking b), t') ->
  exists ci co,
    event_dates ev = Some (ci, co)
    /\ booking_id b = i_stamp (clk t)
    /\ (t + 3 <= t' <= t + 4)%nat
    /\ imported_fields plat b
    /\ (status b = status_on (i_today (clk (S t))) ci co
        \/ status b
           = (if i_today (clk (S (S t))) <? co
              then "checked_in"%string else "checked_out"%string)
           /\ (i_today (clk (S t)) <? ci) = false).
Proof.
  unfold _process_ical_event, event_dates.
  destruct (_parse_ical_date (event_get ev "DTSTART")) as [ci|]; [|discriminate].
  destruct (_parse_ical_date (event_get ev "DTEND")) as [co|]; [|discriminate].
  destruct (is_blocked (event_get ev "SUMMARY")); [discriminate|].
  destruct (calculate_payout _ _ _ _) as [payout fee].
  unfold bind, generate_id, date_today, ret, status_on. simpl.
  pose proof (extract_guest_name_nonempty (event_get ev "SUMMARY") plat) as Hg.
  destruct (i_today (clk (S t)) <? ci) eqn:H1; simpl.
  - intros [= <- <-]. exists ci, co. unfold imported_fields. simpl.
    repeat split; try done; try lia.
    + rewrite !elem_of_cons. tauto.
    + left. by rewrite H1.
  - intros [= <- <-]. exists ci, co. unfold imported_fields. simpl.
    repeat split; try done; try lia.
    + rewrite !elem_of_cons. destruct (i_today (clk (S (S t))) <? co); tauto.
    + by right.
Qed.

(** A property of the bookings made so far and of the clock that every new
    booking keeps is kept by the loop of [parse_ical]. *)
Lemma ical_lines_invariant (Q : list Booking -> nat -> Prop) :
  (forall bs t ev b t',
      Q bs t ->
      _process_ical_event ev pid plat default_rate cleaning clk t
      = (Some (ParsedBooking b), t') ->
      Q (bs ++ [b]) t') ->
  forall lines st t,
    Q (bookings st) t ->
    let r := ical_lines pid plat default_rate cleaning st lines clk t in
    Q (bookings r.1) r.2.
Proof.
  intros Hstep. induction lines as [|raw ls IH]; intros st t HQ; simpl; [done|].
  unfold bind, ical_line.
  destruct (String.eqb (Str.strip raw) "BEGIN:VEVENT"); [by apply IH|].
  destruct (String.eqb (Str.strip raw) "END:VEVENT").
  { destruct (bool_decide (event st = ∅)); [by apply IH|].
    unfold bind, ret.
    pose proof (process_event_cases pid plat default_rate cleaning (event st) clk t) as Hc.
    destruct (_process_ical_event (event st) pid plat default_rate cleaning clk t)
      as [[[k|b]|] t'] eqn:He.
    - destruct Hc as (-> & _). by apply IH.
    - apply IH. simpl. by eapply Hstep.
    - destruct Hc as (-> & _). by apply IH. }
  destruct (in_event st); [|by apply IH].
  destruct (Str.split_once ":" (Str.strip raw)) as [[key val]|]; by apply IH.
Qed.

Lemma parse_ical_invariant (Q : list Booking -> nat -> Prop) (ical_text : string) (t : nat) :
  (forall bs t ev b t',
      Q bs t ->
      _process_ical_event ev pid plat default_rate cleaning clk t
      = (Some (ParsedBooking b), t') ->
      Q (bs ++ [b]) t') ->
  Q [] t ->
  let r := parse_ical ical_text pid plat default_rate cleaning clk t in
  Q r.1.1 r.2.
Proof.
  intros Hstep H0. unfold parse_ical.
  destruct (_ || _); [done|]. unfold bind, ret.
  pose proof (ical_lines_invariant Q Hstep (ical_unfold ical_text) ical_init t H0) as H.
  by destruct (ical_lines _ _ _ _ _ _ _ _).
Qed.

End ImportedBookings.

Lemma imported_fields_all (pid plat : string) (rate fee : float)
    (clk : nat -> instant) (ical_text : string) (t : nat) :
  Forall (imported_fields plat)
    (parse_ical ical_text pid plat rate fee clk t).1.1.
Proof.
  apply (parse_ical_invariant pid plat rate fee clk
           (fun bs _ => Forall (imported_fields plat) bs)); [|constructor].
  intros bs t0 ev b t' Hbs He. apply Forall_app. split; [done|].
  apply process_event_booking in He as (ci & co & _ & _ & _ & Hf & _).
  by apply Forall_singleton.
Qed.

Lemma imported_stays (pid plat : string) (rate fee : float)
    (clk : nat -> instant) (ical_text : string) (t : nat) :
  Forall (fun b =>
            property_id b = pid
            /\ exists ci co,
                 stay_of b = Some (ci, co)
                 /\ valid_date ci /\ valid_date co
                 /\ check_in b = Date.isoformat ci
                 /\ check_out b = Date.isoformat co
                 /\ num_nights b = Z.max (co - ci) 1)
    (parse_ical ical_text pid plat rate fee clk t).1.1.
Proof.
  destruct (parse_ical_events pid plat rate fee ical_text clk t) as [_ Hf].
  eapply Forall2_Forall_r; [exact Hf|].
  apply Forall_forall. intros ev _ b (ci & co & Hd & _ & Hp & Hi & Ho & Hn & _).
  split; [done|]. exists ci, co.
  unfold event_dates in Hd.
  destruct (_parse_ical_date (event_get ev "DTSTART")) as [ci'|] eqn:H1; [|done].
  destruct (_parse_ical_date (event_get ev "DTEND")) as [co'|] eqn:H2; [|done].
  injection Hd as -> ->.
  apply parse_ical_date_valid in H1, H2.
  unfold stay_of. rewrite Hi, Ho, !parse_isoformat by done. done.
Qed.

Lemma status_not_cancelled (plat : string) (b : Booking) :
  imported_fields plat b -> not_cancelled b = true.
Proof.
  intros (_ & Hs & _). unfold not_cancelled.
  rewrite !elem_of_cons, elem_of_nil in Hs.
  destruct Hs as [->|[->|[->|[]]]]; reflexivity.
Qed.

Lemma filter_all {A} (p : A -> bool) (l : list A) :
  Forall (fun x => p x = true) l -> List.filter p l = l.
Proof.
  induction 1 as [|x l Hx _ IH]; simpl; [done|]. by rewrite Hx, IH.
Qed.

(** X4. What the importer writes the analytics read: the check-in and
    check-out texts of every booking returned by [parse_ical] are read by
    [_parse_date] as two dates, the nights of the booking are the days
    between them (one at least), and [nights_between] gives those days.
    The bookings are all of the property asked for and none is cancelled,
    so [calculate_property_metrics] counts every one of them. *)
Theorem imported_bookings_are_read_back :
  forall (ical_text pid plat : string) (rate fee : float)
         (clk : nat -> instant) (t : nat),
    let bs := (parse_ical ical_text pid plat rate fee clk t).1.1 in
    Forall (fun b =>
              exists ci co,
                _parse_date (check_in b) = Some ci
                /\ _parse_date (check_out b) = Some co
                /\ num_nights b = Z.max (co - ci) 1
                /\ nights_between (check_in b) (check_out b) = Z.max (co - ci) 0)
           bs
    /\ prop_bookings_of bs pid = bs
    /\ total_bookings (metrics_of bs pid 1 2) = length bs.
Proof.
  intros ical_text pid plat rate fee clk t bs.
  pose proof (imported_stays pid plat rate fee clk ical_text t) as Hs.
  pose proof (imported_fields_all pid plat rate fee clk ical_text t) as Hf.
  fold bs in Hs, Hf.
  assert (Hp : prop_bookings_of bs pid = bs).
  { unfold prop_bookings_of. apply filter_all.
    rewrite Forall_forall in Hs, Hf. apply Forall_forall. intros b Hb.
    destruct (Hs b Hb) as [-> _]. rewrite String.eqb_refl. simpl.
    apply (status_not_cancelled plat), Hf, Hb. }
  split; [|split; [done|]].
  - eapply Forall_impl; [exact Hs|]. simpl.
    intros b (_ & ci & co & Hst & Hci & Hco & Hi & Ho & Hn).
    exists ci, co. unfold stay_of in Hst.
    destruct (_parse_date (check_in b)) as [i|] eqn:H1; [|done].
    destruct (_parse_date (check_out b)) as [o|] eqn:H2; [|done].
    injection Hst as -> ->. repeat split; try done.
    unfold nights_between. by rewrite H1, H2.
  - unfold metrics_of. simpl. by rewrite Hp.
Qed.

(** X5. Every booking returned by [parse_ical] carries the platform asked
    for, a guest name that is not empty, the status confirmed, checked_in
    or checked_out, a pending turnover and no confirmed cleaner.  When the
    clock shows the same day [today] at every reading, the status is the
    one of the stay on that day: confirmed before the check-in, checked_in
    before the check-out, checked_out from then on. *)
Theorem imported_booking_fields :
  (forall (ical_text pid plat : string) (rate fee : float)
          (clk : nat -> instant) (t : nat),
      Forall (imported_fields plat)
             (parse_ical ical_text pid plat rate fee clk t).1.1)
  /\ (forall (ical_text pid plat : string) (rate fee : float)
             (clk : nat -> instant) (t : nat) (today : date),
        (forall n, i_today (clk n) = today) ->
        Forall (fun b =>
                  exists ci co,
                    stay_of b = Some (ci, co)
                    /\ status b = status_on today ci co
                    /\ created_date b = Date.isoformat today)
               (parse_ical ical_text pid plat rate fee clk t).1.1)
  /\ (forall summary plat : string, _extract_guest_name summary plat <> ""%string).
Proof.
  split; [|split].
  - intros. apply imported_fields_all.
  - intros ical_text pid plat rate fee clk t today Hclk.
    apply (parse_ical_invariant pid plat rate fee clk
             (fun bs _ =>
                Forall (fun b =>
                          exists ci co,
                            stay_of b = Some (ci, co)
                            /\ status b = status_on today ci co
                            /\ created_date b = Date.isoformat today) bs));
      [|constructor].
    intros bs t0 ev b t' Hbs He. apply Forall_app. split; [done|].
    apply Forall_singleton.
    pose proof (process_event_cases pid plat rate fee ev clk t0) as Hc.
    rewrite He in Hc. destruct Hc as (_ & _ & ci & co & Hd & _ & _ & Hi & Ho & _).
    pose proof He as He'.
    apply process_event_booking in He' as (ci' & co' & Hd' & _ & _ & _ & Hst).
    rewrite Hd in Hd'. injection Hd' as <- <-.
    exists ci, co.
    assert (Hv : valid_date ci /\ valid_date co).
    { unfold event_dates in Hd.
      destruct (_parse_ical_date (event_get ev "DTSTART")) eqn:H1; [|done].
      destruct (_parse_ical_date (event_get ev "DTEND")) eqn:H2; [|done].
      injection Hd as -> ->. split; by eapply parse_ical_date_valid. }
    destruct Hv as [Hv1 Hv2].
    split; [|split].
    + unfold stay_of. by rewrite Hi, Ho, !parse_isoformat.
    + rewrite !Hclk in Hst. destruct Hst as [Hst|[Hst Hlt]]; [done|].
      unfold status_on. by rewrite Hlt.
    + revert He. unfold _process_ical_event.
      destruct (_parse_ical_date (event_get ev "DTSTART")) as [ci'|]; [|discriminate].
      destruct (_parse_ical_date (event_get ev "DTEND")) as [co'|]; [|discriminate].
      destruct (is_blocked _); [discriminate|].
      destruct (calculate_payout _ _ _ _).
      unfold bind, generate_id, date_today, ret. simpl.
      destruct (i_today (clk (S t0)) <? ci'); simpl; intros [= <- <-]; simpl;
        by rewrite Hclk.
  - apply extract_guest_name_nonempty.
Qed.

Lemma imported_booking_fields_witness :
  Forall (fun b =>
            exists ci co,
              stay_of b = Some (ci, co)
              /\ status b = status_on 739676 ci co
              /\ created_date b = Date.isoformat 739676)
         (parse_ical sample_feed "P1" "Airbnb" 150 75 steady_clock 0%nat).1.1.
Proof.
  apply (proj1 (proj2 imported_booking_fields)). reflexivity.
Defined.

Lemma parse_ical_reads (pid plat : string) (rate fee : float)
    (clk : nat -> instant) (ical_text : string) (t : nat) :
  let r := parse_ical ical_text pid plat rate fee clk t in
  (t + 3 * length r.1.1 <= r.2 <= t + 4 * length r.1.1)%nat
  /\ exists ks : list nat,
       booking_id <$> r.1.1 = (fun k => i_stamp (clk k)) <$> ks
       /\ Forall (fun k => (t <= k < r.2)%nat) ks
       /\ NoDup ks.
Proof.
  apply (parse_ical_invariant pid plat rate fee clk
           (fun bs t' =>
              (t + 3 * length bs <= t' <= t + 4 * length bs)%nat
              /\ exists ks : list nat,
                   booking_id <$> bs = (fun k => i_stamp (clk k)) <$> ks
                   /\ Forall (fun k => (t <= k < t')%nat) ks
                   /\ NoDup ks)).
  - intros bs t0 ev b t' (Hc & ks & Hid & Hlt & Hnd) He.
    apply process_event_booking in He as (ci & co & _ & Hb & Ht & _).
    split; [rewrite length_app; simpl; lia|].
    exists (ks ++ [t0]). split; [|split].
    + rewrite !fmap_app, Hid. simpl. by rewrite Hb.
    + apply Forall_app. split; [|apply Forall_singleton; lia].
      eapply Forall_impl; [exact Hlt|]. simpl. lia.
    + apply NoDup_app. split; [done|]. split; [|apply NoDup_singleton].
      intros k Hk Hk'. apply list_elem_of_singleton in Hk' as ->.
      rewrite Forall_forall in Hlt. specialize (Hlt _ Hk). lia.
  - simpl. split; [lia|]. exists []. repeat split; constructor.
Qed.

(** X6. A booking made by [parse_ical] has for its id the stamp of one
    reading of the clock and nothing else: an import reads the clock three
    or four times for each booking it makes (and not at all for blocked or
    dropped events), the ids of its bookings are the stamps of as many
    different readings made during the import, and so two bookings have
    the same id exactly when their two readings give the same stamp.  When
    the clock gives one stamp throughout, as [generate_id] does within a
    tenth of a millisecond, every booking of the import has that id: the
    two bookings of the sample feed get the same id. *)
Theorem imported_booking_ids_are_stamps :
  (forall (ical_text pid plat : string) (rate fee : float)
          (clk : nat -> instant) (t : nat),
      let r := parse_ical ical_text pid plat rate fee clk t in
      (t + 3 * length r.1.1 <= r.2 <= t + 4 * length r.1.1)%nat
      /\ exists ks : list nat,
           booking_id <$> r.1.1 = (fun k => i_stamp (clk k)) <$> ks
           /\ Forall (fun k => (t <= k < r.2)%nat) ks
           /\ NoDup ks)
  /\ (forall (ical_text pid plat : string) (rate fee : float)
             (clk : nat -> instant) (t : nat) (stamp : string),
        (forall n, i_stamp (clk n) = stamp) ->
        Forall (fun b => booking_id b = stamp)
               (parse_ical ical_text pid plat rate fee clk t).1.1)
  /\ booking_id <$> (parse_ical sample_feed "P1" "Airbnb" 150 75 stuck_clock 0%nat).1.1
     = ["202603011200000000"; "202603011200000000"]%string.
Proof.
  split; [|split].
  - intros. apply parse_ical_reads.
  - intros ical_text pid plat rate fee clk t stamp Hclk.
    destruct (parse_ical_reads pid plat rate fee clk ical_text t)
      as (_ & ks & Hid & _).
    cbv zeta in Hid.
    assert (H : Forall (fun s => s = stamp)
                  (booking_id
                     <$> (parse_ical ical_text pid plat rate fee clk t).1.1)).
    { rewrite Hid. apply Forall_fmap, Forall_forall. intros k _. apply Hclk. }
    by apply Forall_fmap in H.
  - vm_compute. reflexivity.
Qed.

Lemma no_end_no_events (lines : list string) :
  Forall (fun raw => Str.strip raw <> "END:VEVENT"%string) lines ->
  forall in_ev ev, ical_events_from in_ev ev lines = [].
Proof.
  induction 1 as [|raw ls Hraw _ IH]; intros in_ev ev; simpl; [done|].
  destruct (String.eqb (Str.strip raw) "BEGIN:VEVENT"); [apply IH|].
  destruct (String.eqb_spec (Str.strip raw) "END:VEVENT"); [done|].
  destruct in_ev; [|apply IH].
  destruct (Str.split_once ":" (Str.strip raw)) as [[? ?]|]; apply IH.
Qed.

(** X7. An event counts when its [END:VEVENT] line is seen: a feed
    without such a line, and so a feed whose last event is cut off before
    it, gives no booking and no blocked interval, whatever else it holds,
    and the clock is not read; so does the empty text, and a text of white
    space. *)
Theorem unclosed_events_are_dropped :
  (forall (ical_text pid plat : string) (rate fee : float)
          (clk : nat -> instant) (t : nat),
      Forall (fun raw => Str.strip raw <> "END:VEVENT"%string)
             (ical_unfold ical_text) ->
      parse_ical ical_text pid plat rate fee clk t = ([], [], t))
  /\ (forall (ical_text pid plat : string) (rate fee : float)
             (clk : nat -> instant) (t : nat),
        Str.strip ical_text = ""%string ->
        parse_ical ical_text pid plat rate fee clk t = ([], [], t)).
Proof.
  split.
  - intros ical_text pid plat rate fee clk t Hno.
    destruct (parse_ical_events pid plat rate fee ical_text clk t) as [Hk Hf].
    destruct (parse_ical_reads pid plat rate fee clk ical_text t) as [Hc _].
    assert (He : feed_events ical_text = []).
    { unfold feed_events. destruct (_ || _); [done|]. by apply no_end_no_events. }
    rewrite He in Hk, Hf. simpl in Hk, Hf. apply Forall2_nil_inv_l in Hf.
    destruct (parse_ical ical_text pid plat rate fee clk t) as [[bs ks] t'].
    simpl in *. subst. simpl in Hc. repeat f_equal. lia.
  - intros ical_text pid plat rate fee clk t Hs. unfold parse_ical.
    rewrite Hs. simpl. by rewrite orb_true_r.
Qed.

Lemma unclosed_events_are_dropped_witness :
  parse_ical unclosed_feed "P1" "Airbnb" 150 75 sample_clock 0%nat = ([], [], 0%nat).
Proof.
  apply (proj1 unclosed_events_are_dropped).
  vm_compute. repeat (constructor; [discriminate|]). constructor.
Defined.

(** ** More on deduplication *)

Lemma survivors_all_new (new : list Booking) : forall K,
  NoDup (dedup_key <$> new) ->
  (forall b, b ∈ new -> dedup_key b ∉ K) ->
  survivors K new = new.
Proof.
  induction new as [|a bs IH]; intros K Hnd HK; simpl; [done|].
  rewrite bool_decide_eq_false_2 by (apply HK, elem_of_cons; by left).
  f_equal. simpl in Hnd. apply NoDup_cons in Hnd as [Ha Hnd].
  apply IH; [done|]. intros b Hb.
  rewrite elem_of_union, elem_of_singleton. intros [Heq|Hin].
  - apply Ha. rewrite <- Heq. by apply list_elem_of_fmap_2.
  - by apply (HK b); [apply elem_of_cons; right|].
Qed.

(** X8. A batch of bookings with pairwise different keys, none of them a
    key of the ledger, passes [deduplicate_ical_bookings] whole and in
    order, with no duplicate counted. *)
Theorem new_bookings_all_survive (existing new : list Booking) :
  NoDup (dedup_key <$> new) ->
  (forall b, b ∈ new -> dedup_key b ∉ (dedup_key <$> existing)) ->
  deduplicate_ical_bookings existing new = (new, 0%nat).
Proof.
  intros Hnd Hnew. rewrite dedup_survivors.
  rewrite survivors_all_new; [f_equal; lia|done|].
  intros b Hb. rewrite elem_of_keys_of. by apply Hnew.
Qed.

Lemma new_bookings_all_survive_witness :
  deduplicate_ical_bookings [march_stay 339.5] gap_bookings = (gap_bookings, 0%nat).
Proof.
  apply new_bookings_all_survive.
  - apply (bool_decide_unpack _). vm_compute. exact I.
  - apply Forall_forall. apply (bool_decide_unpack _). vm_compute. exact I.
Defined.

(** X9. Reconciliation keeps the ledger free of duplicates: when no two
    bookings of the ledger have the same key, no two bookings of the ledger
    extended with the survivors of a batch have the same key either. *)
Theorem ledger_keys_stay_distinct (existing new : list Booking) :
  NoDup (dedup_key <$> existing) ->
  NoDup (dedup_key <$> (existing ++ (deduplicate_ical_bookings existing new).1)).
Proof.
  intros Hnd. rewrite dedup_survivors. simpl. rewrite fmap_app.
  apply NoDup_app. split; [done|]. split; [|apply survivors_NoDup].
  intros k Hk Hk'. apply list_elem_of_fmap in Hk' as (b & -> & Hb).
  apply survivors_fresh in Hb. apply Hb. by apply elem_of_keys_of.
Qed.

Lemma ledger_keys_stay_distinct_witness :
  NoDup (dedup_key <$>
           ([march_stay 339.5]
            ++ (deduplicate_ical_bookings [march_stay 339.5]
                  (march_stay 100 :: gap_bookings)).1)).
Proof.
  apply ledger_keys_stay_distinct. apply (bool_decide_unpack _). vm_compute. exact I.
Defined.

(** ** The daily briefing *)

Lemma adds_refl (acc : briefing_acc) : adds acc acc [] [] [] [] [] [] ∅.
Proof.
  unfold adds. rewrite !app_nil_r.
  repeat split. by rewrite (left_id_L ∅ (∪)).
Qed.

Lemma adds_if (c : bool) (prev R : briefing_acc) A I T O N S K :
  adds prev R A I T O N S K ->
  adds prev (if c then R else prev)
    (if c then A else []) (if c then I else []) (if c then T else [])
    (if c then O else []) (if c then N else []) (if c then S else [])
    (if c then K else ∅).
Proof. destruct c; [done|]. intros _. apply adds_refl. Qed.

Lemma adds_let_val {X : Type} (v : X) (f : X -> briefing_acc)
    (prev : briefing_acc) A I T O N S K :
  adds prev (f v) A I T O N S K ->
  adds prev (let x := v in f x) A I T O N S K.
Proof. done. Qed.

(** A block of the loop body, followed by the rest of the body. *)
Lemma adds_let (prev v : briefing_acc) (f : briefing_acc -> briefing_acc)
    (body : briefing_acc)
    A1 I1 T1 O1 N1 S1 K1 A2 I2 T2 O2 N2 S2 K2 A I T O N S K :
  body = (let y := v in f y) ->
  adds prev v A1 I1 T1 O1 N1 S1 K1 ->
  A = A1 ++ A2 -> I = I1 ++ I2 -> T = T1 ++ T2 -> O = O1 ++ O2 ->
  N = N1 ++ N2 -> S = S1 ++ S2 -> K = K2 ∪ K1 ->
  (forall y, adds y (f y) A2 I2 T2 O2 N2 S2 K2) ->
  adds prev body A I T O N S K.
Proof.
  intros -> (Ha & Hi & Ht & Ho & Hn & Hs & Hk) -> -> -> -> -> -> -> H.
  cbv zeta. destruct (H v) as (Ha' & Hi' & Ht' & Ho' & Hn' & Hs' & Hk').
  unfold adds.
  rewrite Ha', Hi', Ht', Ho', Hn', Hs', Hk', Ha, Hi, Ht, Ho, Hn, Hs, Hk.
  rewrite !app_assoc. repeat split. by rewrite (assoc_L (∪)).
Qed.

Lemma if_nil {X : Type} (c : bool) : (if c then @nil X else []) = [].
Proof. by destruct c. Qed.

Lemma if_empty (c : bool) : (if c then (∅ : gset string) else ∅) = ∅.
Proof. by destruct c. Qed.

Ltac field_eq :=
  cbn beta iota delta
    [acc_actions acc_check_ins_today acc_check_outs_today
     acc_check_ins_tomorrow acc_active_stays acc_turnovers_needed
     acc_occupied_tonight acc_revenue_this_month];
  first [ reflexivity
        | symmetry; apply app_nil_r
        | symmetry; apply (left_id_L (∅ : gset string) (∪)) ].

(** What a block adds: nothing when it is skipped, else what the fields of
    its record show. *)
Ltac block :=
  cbn beta iota;
  lazymatch goal with
  | |- adds ?p ?p _ _ _ _ _ _ _ => apply adds_refl
  | |- adds ?p (if ?c then _ else ?p) _ _ _ _ _ _ _ =>
      apply adds_if; cbv zeta; unfold adds;
      split; [field_eq|]; split; [field_eq|]; split; [field_eq|];
      split; [field_eq|]; split; [field_eq|]; split; [field_eq|field_eq]
  end.

Ltac rest_eq :=
  rewrite ?if_nil, ?if_empty;
  first [ reflexivity
        | symmetry; apply app_nil_r
        | symmetry; apply (right_id_L (∅ : gset string) (∪))
        | symmetry; apply (left_id_L (∅ : gset string) (∪)) ].

Ltac last_block :=
  cbn beta iota;
  lazymatch goal with
  | |- adds ?p ?p _ _ _ _ _ _ _ => apply adds_refl
  | |- adds ?p (if ?c then _ else ?p) _ _ _ _ _ _ _ =>
      destruct c; [|apply adds_refl]; unfold adds;
      split; [field_eq|]; split; [field_eq|]; split; [field_eq|];
      split; [field_eq|]; split; [field_eq|]; split; [field_eq|field_eq]
  end.

(** The body of the loop with its first values, the dates and names of the
    booking, put in their places. *)
Ltac with_values t :=
  lazymatch t with
  | (let x := ?v in @?f x) =>
      lazymatch type of v with
      | briefing_acc => t
      | _ => let t' := eval cbv beta in (f v) in with_values t'
      end
  | _ => t
  end.

(** Take the first block of the loop body off the goal. *)
Ltac next_block :=
  lazymatch goal with
  | |- adds ?p ?body _ _ _ _ _ _ _ =>
      let t := eval cbv beta delta [briefing_booking] in body in
      let t := with_values t in
      lazymatch t with
      | (let x := ?v in @?f x) =>
          eapply (adds_let p v f);
          [ exact_no_check (eq_refl t)
          | block | rest_eq | rest_eq | rest_eq | rest_eq | rest_eq | rest_eq
          | rest_eq | let y := fresh "acc" in clear; intros y; cbv beta ]
      end
  end.

Lemma briefing_booking_spec (pmap : gmap string Property) (today : date)
    (acc : briefing_acc) (b : Booking) :
  not_cancelled b = true ->
  step_adds pmap today acc b (briefing_booking pmap today acc b).
Proof.
  intros Hs.
  unfold step_adds, booking_actions, named, checks_in_on, checks_out_on,
    stays_on, stay_of, mid_stay_on, stay_entry.
  rewrite Hs. cbn beta iota delta [andb]. clear Hs.
  do 4 next_block.
  destruct (_parse_date (check_in b)) as [i|],
    (_parse_date (check_out b)) as [o|];
    cbn beta iota delta [andb]; next_block; last_block.
Qed.

Lemma briefing_step_spec (pmap : gmap string Property) (today : date)
    (acc : briefing_acc) (b : Booking) :
  step_adds pmap today acc b (briefing_step pmap today acc b).
Proof.
  destruct (not_cancelled b) eqn:Hs.
  - unfold briefing_step. unfold not_cancelled in Hs.
    apply negb_true_iff in Hs as Hs'. rewrite Hs'.
    by apply briefing_booking_spec.
  - unfold briefing_step. unfold not_cancelled in Hs.
    apply negb_false_iff in Hs as Hs'. rewrite Hs'.
    unfold step_adds, booking_actions, checks_in_on, checks_out_on, stays_on,
      not_cancelled.
    rewrite Hs'. cbn [negb andb app]. apply adds_refl.
Qed.

Lemma filter_named {A B : Type} (f : A -> B) (c : A -> bool) (a : A)
    (l : list B) (rest : list A) :
  (l ++ (if c a then [f a] else [])) ++ (f <$> List.filter c rest)
  = l ++ (f <$> List.filter c (a :: rest)).
Proof. simpl. destruct (c a); simpl; by rewrite <- app_assoc. Qed.

(** What the loop over the bookings has accumulated at its end. *)
Lemma briefing_fold_spec (pmap : gmap string Property) (today : date)
    (bs : list Booking) : forall acc,
  let acc' := fold_left (briefing_step pmap today) bs acc in
  acc_actions acc' = acc_actions acc ++ flat_map (booking_actions pmap today) bs
  /\ acc_check_ins_today acc'
     = acc_check_ins_today acc
       ++ (named pmap <$> List.filter (checks_in_on today) bs)
  /\ acc_check_ins_tomorrow acc'
     = acc_check_ins_tomorrow acc
       ++ (named pmap <$> List.filter (checks_in_on (today + 1)) bs)
  /\ acc_check_outs_today acc'
     = acc_check_outs_today acc
       ++ (named pmap <$> List.filter (checks_out_on today) bs)
  /\ acc_turnovers_needed acc'
     = acc_turnovers_needed acc
       ++ (named pmap
             <$> List.filter
                   (fun b => checks_out_on today b && negb (cleaner_confirmed b))
                   bs)
  /\ acc_active_stays acc'
     = acc_active_stays acc
       ++ flat_map (stay_entry pmap today) (List.filter (stays_on today) bs)
  /\ (forall k, k ∈ acc_occupied_tonight acc'
        <-> k ∈ acc_occupied_tonight acc
            \/ exists b, b ∈ bs /\ stays_on today b = true /\ property_id b = k).
Proof.
  induction bs as [|b bs IH]; intros acc.
  - simpl. rewrite !app_nil_r. repeat split; try done.
    + by left.
    + intros [H|(b & Hb & _)]; [done|]. by apply elem_of_nil in Hb.
  - cbn [fold_left]. cbv zeta.
    destruct (IH (briefing_step pmap today acc b))
      as (Ha & Hi & Ht & Ho & Hn & Hs & Hk).
    destruct (briefing_step_spec pmap today acc b)
      as (Ha' & Hi' & Ht' & Ho' & Hn' & Hs' & Hk').
    rewrite Ha, Hi, Ht, Ho, Hn, Hs, Ha', Hi', Ht', Ho', Hn', Hs'.
    rewrite !filter_named.
    split; [by rewrite <- app_assoc|].
    do 3 (split; [done|]).
    split; [|split].
    + cbn [List.filter].
      destruct (checks_out_on today b), (negb (cleaner_confirmed b));
        cbn [andb fmap list_fmap]; by rewrite <- ?app_assoc, ?app_nil_r.
    + cbn [List.filter]. destruct (stays_on today b); cbn [flat_map];
        by rewrite <- ?app_assoc, ?app_nil_r.
    + intros k. rewrite Hk, Hk'. split.
      * intros [Hin|(b' & Hb' & Hst & Hid)].
        -- destruct (stays_on today b) eqn:Hb.
           ++ apply elem_of_union in Hin as [Hin|Hin]; [|by left].
              apply elem_of_singleton in Hin as ->.
              right. exists b. split; [by left|done].
           ++ apply elem_of_union in Hin as [Hin|Hin]; [|by left].
              by apply elem_of_empty in Hin.
        -- right. exists b'. split; [by right|done].
      * intros [Hin|(b' & Hb' & Hst & Hid)].
        -- left. apply elem_of_union. by right.
        -- apply elem_of_cons in Hb' as [->|Hb'].
           ++ left. rewrite Hst. apply elem_of_union. left.
              by apply elem_of_singleton.
           ++ right. by exists b'.
Qed.

(** The briefing in terms of what the loop over the bookings accumulates. *)
Lemma briefing_fields (properties : list Property) (bookings : list Booking)
    (maintenance_items : list MaintenanceItem) (today : option date)
    (clk : nat -> instant) (t : nat) :
  let d := briefing_day today clk t in
  let pmap := property_map properties in
  let acc := fold_left (briefing_step pmap d) bookings briefing_acc0 in
  let B := (generate_daily_briefing properties bookings maintenance_items
              today clk t).1 in
  br_actions B
  = sorted_by Z.leb priority_rank
      (acc_actions acc ++ omap (maintenance_action pmap) maintenance_items)
  /\ br_check_ins_today B = acc_check_ins_today acc
  /\ br_check_ins_tomorrow B = acc_check_ins_tomorrow acc
  /\ br_check_outs_today B = acc_check_outs_today acc
  /\ br_turnovers_needed B = acc_turnovers_needed acc
  /\ br_active_stays B = acc_active_stays acc
  /\ br_vacant_tonight B
     = List.filter
         (fun p => negb (bool_decide (p_property_id p ∈ acc_occupied_tonight acc)))
         (List.filter (fun p => String.eqb (p_status p) "active") properties)
  /\ br_date B = Date.isoformat d.
Proof.
  unfold generate_daily_briefing, bind, briefing_day, date_today, ret.
  destruct today; simpl; repeat split; reflexivity.
Qed.

Section StableSort.

Context {A : Type} (key : A -> Z).

Lemma insert_by_keeps_order (k : Z) (x : A) (l : list A) :
  List.filter (fun a => key a =? k) (insert_by Z.leb key x l)
  = List.filter (fun a => key a =? k) (x :: l).
Proof.
  induction l as [|y l IH]; [done|].
  cbn [insert_by]. destruct (key x <=? key y) eqn:Hle; [done|].
  cbn [List.filter] in *. rewrite IH.
  destruct (key x =? k) eqn:Hx, (key y =? k) eqn:Hy; try done. lia.
Qed.

(** The elements with one key keep their order when a list is sorted. *)
Lemma sorted_by_stable (k : Z) (l : list A) :
  List.filter (fun a => key a =? k) (sorted_by Z.leb key l)
  = List.filter (fun a => key a =? k) l.
Proof.
  induction l as [|x l IH]; [done|].
  unfold sorted_by in *. cbn [foldr]. rewrite insert_by_keeps_order.
  cbn [List.filter]. by rewrite IH.
Qed.

End StableSort.

Lemma Zleb_total (x y : Z) : (x <=? y) = true \/ (y <=? x) = true.
Proof. lia. Qed.

(** X10. The actions of the daily briefing are the actions of the bookings,
    booking by booking in the order of the list, followed by those of the
    urgent maintenance items: rearranged so that no action comes before one
    of a higher priority, and with the actions of one priority left in that
    order. *)
Theorem briefing_actions_by_priority
    (properties : list Property) (bookings : list Booking)
    (maintenance_items : list MaintenanceItem) (today : option date)
    (clk : nat -> instant) (t : nat) :
  let B := (generate_daily_briefing properties bookings maintenance_items
              today clk t).1 in
  let made := generated_actions properties bookings maintenance_items
                (briefing_day today clk t) in
  Sorted (key_le Z.leb priority_rank) (br_actions B)
  /\ br_actions B ≡ₚ made
  /\ forall k, of_rank k (br_actions B) = of_rank k made.
Proof.
  intros B made.
  destruct (briefing_fields properties bookings maintenance_items today clk t)
    as (Ha & _).
  fold B in Ha.
  destruct (briefing_fold_spec (property_map properties)
              (briefing_day today clk t) bookings briefing_acc0) as (Hf & _).
  rewrite Hf in Ha. cbn [acc_actions briefing_acc0 app] in Ha.
  fold (generated_actions properties bookings maintenance_items
          (briefing_day today clk t)) in Ha. fold made in Ha.
  rewrite Ha.
  destruct (sorted_by_spec Z.leb priority_rank Zleb_total made) as [Hs Hp].
  split; [done|]. split; [done|].
  intros k. apply sorted_by_stable.
Qed.

(** X11. The lists of the daily briefing follow the list of the bookings:
    the check-ins of today, the check-ins of tomorrow, the check-outs of
    today and the turnovers to confirm are the bookings that are not
    cancelled and have that date, each once and in the order of the list,
    with the display name of their property; a turnover is a check-out of
    today without a confirmed cleaner. *)
Theorem briefing_lists_follow_bookings
    (properties : list Property) (bookings : list Booking)
    (maintenance_items : list MaintenanceItem) (today : option date)
    (clk : nat -> instant) (t : nat) :
  let B := (generate_daily_briefing properties bookings maintenance_items
              today clk t).1 in
  let d := briefing_day today clk t in
  let pmap := property_map properties in
  br_check_ins_today B = (named pmap <$> List.filter (checks_in_on d) bookings)
  /\ br_check_ins_tomorrow B
     = (named pmap <$> List.filter (checks_in_on (d + 1)) bookings)
  /\ br_check_outs_today B
     = (named pmap <$> List.filter (checks_out_on d) bookings)
  /\ br_turnovers_needed B
     = (named pmap
          <$> List.filter (fun b => negb (cleaner_confirmed b))
                (List.filter (checks_out_on d) bookings))
  /\ br_date B = Date.isoformat d.
Proof.
  intros B d pmap.
  destruct (briefing_fields properties bookings maintenance_items today clk t)
    as (_ & Hi & Ht & Ho & Hn & _ & _ & Hd).
  destruct (briefing_fold_spec pmap d bookings briefing_acc0)
    as (_ & Hi' & Ht' & Ho' & Hn' & _).
  fold B d pmap in Hi, Ht, Ho, Hn, Hd.
  rewrite Hi, Ht, Ho, Hn, Hi', Ht', Ho', Hn'. cbn [briefing_acc0
    acc_check_ins_today acc_check_ins_tomorrow acc_check_outs_today
    acc_turnovers_needed app].
  repeat split; try done.
  f_equal. clear. induction bookings as [|b bs IH]; [done|].
  cbn [List.filter]. destruct (checks_out_on d b); cbn [andb List.filter];
    [|done].
  destruct (negb (cleaner_confirmed b)); by rewrite IH.
Qed.

(** X12. A property is vacant tonight in the daily briefing exactly when it
    is one of the given properties, its status is active, and no booking
    that is not cancelled has it for its property with a stay over the night
    of the day of the briefing; the active stays are those bookings, in the
    order of the list, each with at least one night remaining. *)
Theorem vacant_tonight_spec
    (properties : list Property) (bookings : list Booking)
    (maintenance_items : list MaintenanceItem) (today : option date)
    (clk : nat -> instant) (t : nat) :
  let B := (generate_daily_briefing properties bookings maintenance_items
              today clk t).1 in
  let d := briefing_day today clk t in
  (forall p, p ∈ br_vacant_tonight B
     <-> p ∈ properties /\ p_status p = "active"%string
         /\ forall b, b ∈ bookings -> stays_on d b = true ->
                      property_id b <> p_property_id p)
  /\ (fst <$> (fst <$> br_active_stays B)) = List.filter (stays_on d) bookings
  /\ Forall (fun e => 1 <= e.2) (br_active_stays B).
Proof.
  intros B d.
  destruct (briefing_fields properties bookings maintenance_items today clk t)
    as (_ & _ & _ & _ & _ & Hs & Hv & _).
  destruct (briefing_fold_spec (property_map properties) d bookings briefing_acc0)
    as (_ & _ & _ & _ & _ & Hs' & Hk).
  fold B d in Hs, Hv. cbv zeta in Hk.
  split; [|split].
  - intros p. rewrite Hv, !list_elem_of_In, filter_In, filter_In.
    rewrite negb_true_iff, bool_decide_eq_false, Hk, String.eqb_eq.
    split.
    + intros ((Hp & Hst) & Hno). split; [done|]. split; [done|].
      intros b Hb Hbs Hid. apply Hno. right. by exists b.
    + intros (Hp & Hst & Hno). split; [done|].
      intros [Hin|(b & Hb & Hbs & Hid)]; [by apply elem_of_empty in Hin|].
      by apply (Hno b).
  - rewrite Hs, Hs'. cbn [briefing_acc0 acc_active_stays app].
    clear. induction bookings as [|b bs IH]; [done|].
    cbn [List.filter]. destruct (stays_on d b) eqn:Hb; [|done].
    cbn [flat_map]. rewrite !fmap_app, IH.
    unfold stays_on, stay_of, stay_entry in *.
    destruct (_parse_date (check_in b)) as [i|];
      [|by rewrite andb_false_r in Hb].
    destruct (_parse_date (check_out b)) as [o|]; [done|].
    by rewrite andb_false_r in Hb.
  - rewrite Hs, Hs'. cbn [briefing_acc0 acc_active_stays app].
    clear. induction bookings as [|b bs IH]; [constructor|].
    cbn [List.filter]. destruct (stays_on d b) eqn:Hb; [|done].
    cbn [flat_map]. apply Forall_app. split; [|done].
    unfold stays_on, stay_of, stay_entry in *.
    destruct (_parse_date (check_in b)) as [i|];
      [|by rewrite andb_false_r in Hb].
    destruct (_parse_date (check_out b)) as [o|]; [|constructor].
    repeat constructor. simpl.
    apply andb_true_iff in Hb as [_ Hb]. lia.
Qed.

Lemma known_mk_action (priority type text pid : string) (template : option string) :
  priority ∈ ["high"; "medium"; "low"]%string ->
  type ∈ ["check_in"; "message"; "checkout"; "turnover"; "maintenance"]%string ->
  known_action (mk_action priority type text pid template).
Proof.
  intros Hp Ht. split; [done|]. split; [done|].
  unfold priority_rank. cbn [mk_action a_priority].
  rewrite !elem_of_cons in Hp.
  destruct Hp as [->|[->|[->|Hp]]]; [by vm_compute..|].
  by apply elem_of_nil in Hp.
Qed.

Ltac known :=
  apply known_mk_action; rewrite !elem_of_cons; tauto.

Lemma booking_actions_known pmap today b :
  Forall known_action (booking_actions pmap today b).
Proof.
  unfold booking_actions. cbv zeta.
  repeat (apply Forall_app; split).
  - destruct (checks_in_on today b); repeat constructor; known.
  - destruct (checks_in_on (today + 1) b); repeat constructor; known.
  - destruct (checks_out_on today b); [|constructor].
    constructor; [known|].
    destruct (negb (cleaner_confirmed b)); repeat constructor; known.
  - destruct (checks_out_on (today - 1) b); repeat constructor; known.
  - destruct (stays_on today b); [|constructor].
    destruct (mid_stay_on today b); repeat constructor; known.
Qed.

Lemma maintenance_action_known pmap item a :
  maintenance_action pmap item = Some a -> known_action a.
Proof.
  unfold maintenance_action.
  destruct (_ && _); [|done]. intros [= <-].
  destruct (String.eqb (m_priority item) "urgent"); known.
Qed.

(** X13. Every action of the daily briefing has the priority high, medium or
    low, so that its place in the list is decided by one of the ranks 0, 1
    and 2 and never by the rank of an unknown priority, and its type is
    check_in, message, checkout, turnover or maintenance. *)
Theorem briefing_actions_are_known
    (properties : list Property) (bookings : list Booking)
    (maintenance_items : list MaintenanceItem) (today : option date)
    (clk : nat -> instant) (t : nat) :
  Forall known_action
    (br_actions (generate_daily_briefing properties bookings maintenance_items
                   today clk t).1).
Proof.
  destruct (briefing_fields properties bookings maintenance_items today clk t)
    as (Ha & _).
  destruct (briefing_fold_spec (property_map properties)
              (briefing_day today clk t) bookings briefing_acc0) as (Hf & _).
  rewrite Hf in Ha. cbn [acc_actions briefing_acc0 app] in Ha. rewrite Ha.
  match goal with
  | |- Forall _ (sorted_by _ _ ?l) =>
      destruct (sorted_by_spec Z.leb priority_rank Zleb_total l) as [_ Hp]
  end.
  rewrite Hp. apply Forall_app. split.
  - apply Forall_flat_map, Forall_forall. intros b _.
    apply booking_actions_known.
  - apply Forall_forall. intros a Ha'.
    apply list_elem_of_omap in Ha' as (item & _ & Hitem).
    by eapply maintenance_action_known.
Qed.

Lemma property_map_fold (properties : list Property) (k : string) :
  forall m : gmap string Property,
    fold_left (fun m p => <[p_property_id p := p]> m) properties m !! k
    = match last (with_id k properties) with
      | Some p => Some p
      | None => m !! k
      end.
Proof.
  unfold with_id.
  induction properties as [|p ps IH]; intros m; [done|].
  cbn [fold_left List.filter]. rewrite IH.
  destruct (String.eqb (p_property_id p) k) eqn:Hk.
  - apply String.eqb_eq in Hk as <-.
    destruct (List.filter _ ps) as [|q qs] eqn:Hf.
    + cbn [last]. by rewrite lookup_insert_eq.
    + change (last (p :: q :: qs)) with (last (q :: qs)).
      destruct (last (q :: qs)) eqn:Hl; [done|].
      by apply last_None in Hl.
  - apply String.eqb_neq in Hk.
    destruct (last (List.filter _ ps)); [done|].
    by rewrite lookup_insert_ne.
Qed.

(** X14. The briefing looks a property up by its id in a table in which a
    later property of the list replaces an earlier one with the same id: the
    table gives the last property of the list with that id, and nothing for
    an id no property has, in which case the booking is listed under the
    name [Unknown]. *)
Theorem property_map_last_wins (properties : list Property) (k : string) :
  property_map properties !! k = last (with_id k properties)
  /\ (with_id k properties = [] ->
      display_name (property_map properties !! k) = "Unknown"%string).
Proof.
  assert (H : property_map properties !! k = last (with_id k properties)).
  { unfold property_map. rewrite property_map_fold.
    by destruct (last (with_id k properties)). }
  split; [done|]. intros Hno. by rewrite H, Hno.
Qed.

(** ** Windows of the metrics *)

Lemma metrics_fold_nights_sum start_date end_date (bs : list Booking) :
  forall acc,
    mx_nights (fold_left (metrics_step start_date end_date) bs acc)
    = mx_nights acc
      + fold_right Z.add 0 (List.map (nights_in start_date end_date) bs).
Proof.
  induction bs as [|b bs IH]; intros acc; simpl; [lia|].
  rewrite IH, metrics_step_nights. unfold nights_in.
  destruct (stay_of b) as [[i o]|]; lia.
Qed.

Lemma nights_in_split (s m e : date) (b : Booking) :
  s <= m <= e -> nights_in s e b = nights_in s m b + nights_in m e b.
Proof.
  intros H. unfold nights_in, overlap_nights.
  destruct (stay_of b) as [[i o]|]; lia.
Qed.

Lemma nights_in_empty (s e : date) (b : Booking) :
  e <= s -> nights_in s e b = 0.
Proof.
  intros H. unfold nights_in, overlap_nights.
  destruct (stay_of b) as [[i o]|]; lia.
Qed.

Lemma metrics_over_nights bookings pid s e clk t :
  total_nights_booked (metrics_over bookings pid s e clk t)
  = fold_right Z.add 0 (List.map (nights_in s e) (prop_bookings_of bookings pid)).
Proof.
  unfold metrics_over, calculate_property_metrics, bind, ret. simpl.
  unfold metrics_of. simpl. by rewrite metrics_fold_nights_sum.
Qed.

(** X15. The nights booked add up over adjacent windows: for
    [start <= mid <= end] the nights a property has booked from [start] to
    [end] are those from [start] to [mid] plus those from [mid] to [end], so
    that no night is lost or counted twice when a period is cut in two. *)
Theorem nights_add_over_windows (bookings : list Booking) (pid : string)
    (s m e : date) (clk : nat -> instant) (t : nat) :
  s <= m <= e ->
  total_nights_booked (metrics_over bookings pid s e clk t)
  = total_nights_booked (metrics_over bookings pid s m clk t)
    + total_nights_booked (metrics_over bookings pid m e clk t).
Proof.
  intros H. rewrite !metrics_over_nights.
  induction (prop_bookings_of bookings pid) as [|b bs IH]; simpl; [done|].
  rewrite IH, (nights_in_split s m e b H). lia.
Qed.

(** March cut at its fourth day, for the two overlapping stays. *)
Lemma nights_add_over_windows_witness :
  total_nights_booked (metrics_over double_booked "P1" 739676 739707 sample_clock 0%nat)
  = total_nights_booked (metrics_over double_booked "P1" 739676 739679 sample_clock 0%nat)
    + total_nights_booked (metrics_over double_booked "P1" 739679 739707 sample_clock 0%nat).
Proof. apply nights_add_over_windows. lia. Defined.

Lemma metrics_fold_revenue_empty s e (bs : list Booking) :
  e <= s ->
  forall acc,
    mx_revenue (fold_left (metrics_step s e) bs acc) = mx_revenue acc.
Proof.
  intros H. induction bs as [|b bs IH]; intros acc; simpl; [done|].
  rewrite IH, metrics_step_revenue.
  pose proof (nights_in_empty s e b H) as Hn. unfold nights_in in Hn.
  destruct (stay_of b) as [[i o]|]; [|done].
  cbv zeta. by rewrite Hn.
Qed.

(** X16. A window that ends on or before its start holds nothing: the
    metrics count no night and no revenue over it, whatever the bookings,
    the occupancy and the average nightly rate are zero, and the window
    counts as one day. *)
Theorem empty_window_counts_nothing (bookings : list Booking) (pid : string)
    (s e : date) (clk : nat -> instant) (t : nat) :
  e <= s ->
  let m := metrics_over bookings pid s e clk t in
  total_nights_booked m = 0
  /\ total_revenue m = 0%float
  /\ occupancy_rate m = 0%float
  /\ avg_nightly_rate m = 0%float
  /\ total_days m = 1.
Proof.
  intros H m.
  assert (Hn : total_nights_booked m = 0).
  { subst m. rewrite metrics_over_nights.
    induction (prop_bookings_of bookings pid) as [|b bs IH]; simpl; [done|].
    rewrite IH, (nights_in_empty s e b H). lia. }
  split; [done|].
  subst m. unfold metrics_over, calculate_property_metrics, bind, ret in *.
  simpl in *. unfold metrics_of in *. simpl in *.
  rewrite Hn, metrics_fold_revenue_empty by done.
  replace (Z.max (e - s) 1) with 1 by lia.
  repeat split; reflexivity.
Qed.

(** The window from the fourth of March back to the first. *)
Lemma empty_window_counts_nothing_witness :
  let m := metrics_over double_booked "P1" 739679 739676 sample_clock 0%nat in
  total_nights_booked m = 0
  /\ total_revenue m = 0%float
  /\ occupancy_rate m = 0%float
  /\ avg_nightly_rate m = 0%float
  /\ total_days m = 1.
Proof. apply empty_window_counts_nothing. lia. Defined.

(** ** Free nights *)

Lemma vacancy_walk_sound (window_end : date) (stays : list (date * date)) :
  StronglySorted (fun a b : date * date => a.1 <= b.1) stays ->
  Forall (fun s : date * date => s.1 <= s.2) stays ->
  forall cursor iv,
    iv ∈ vacancy_walk cursor stays window_end ->
    cursor <= iv.1
    /\ forall s, s ∈ stays -> iv.2 <= s.1 \/ s.2 <= iv.1.
Proof.
  induction stays as [|[b_in b_out] rest IH]; intros Hs Hw cursor iv; simpl.
  - destruct (cursor <? window_end); [|by rewrite elem_of_nil].
    rewrite list_elem_of_singleton. intros ->. simpl. split; [lia|].
    intros s Hin. by apply elem_of_nil in Hin.
  - apply StronglySorted_inv in Hs as [Hs Hhd].
    apply Forall_cons in Hw as [Hio Hw]. simpl in Hio.
    rewrite elem_of_app. intros [Hin|Hin].
    + destruct (cursor <? b_in) eqn:Hlt; [|by apply elem_of_nil in Hin].
      apply list_elem_of_singleton in Hin as ->. simpl. split; [lia|].
      intros s Hin. apply elem_of_cons in Hin as [->|Hin]; simpl; [lia|].
      rewrite Forall_forall in Hhd. left.
      by apply (Hhd s).
    + destruct (IH Hs Hw _ _ Hin) as [Hc Hfree]. split; [lia|].
      intros s Hs'. apply elem_of_cons in Hs' as [->|Hs']; simpl; [lia|].
      by apply Hfree.
Qed.

Lemma vacancy_walk_complete (window_end : date) (stays : list (date * date)) :
  forall cursor d,
    cursor <= d < window_end ->
    (forall s, s ∈ stays -> ~ night_in d s) ->
    exists iv, iv ∈ vacancy_walk cursor stays window_end /\ night_in d iv.
Proof.
  unfold night_in.
  induction stays as [|[b_in b_out] rest IH]; intros cursor d Hd Hfree; simpl.
  - replace (cursor <? window_end) with true by lia.
    exists (cursor, window_end). split; [by left|simpl; lia].
  - destruct (Z.lt_ge_cases d b_in) as [Hlt|Hge].
    + replace (cursor <? b_in) with true by lia.
      exists (cursor, b_in). split; [by left|simpl; lia].
    + assert (Hout : b_out <= d).
      { pose proof (Hfree (b_in, b_out)) as H. simpl in H.
        destruct (Z.le_gt_cases b_out d); [done|].
        exfalso. apply H; [by left|lia]. }
      destruct (IH (Z.max cursor b_out) d) as (iv & Hin & Hiv); [lia| |].
      * intros s Hs. apply Hfree. by right.
      * exists iv. split; [|done]. apply elem_of_app. by right.
Qed.

Lemma gaps_from_walk bookings pid today_date lookahead_days :
  gaps_from bookings pid today_date lookahead_days
  = (gap_of <$> vacancy_walk today_date (walked_stays bookings pid today_date)
                  (today_date + lookahead_days)).
Proof.
  unfold gaps_from, walked_stays.
  pose proof (gap_walk_fold (today_date + lookahead_days)
                (sorted_by String.leb check_in
                   (List.filter (gap_relevant pid today_date) bookings))
                [] today_date) as H.
  cbv zeta.
  destruct (fold_left gap_step _ ([], today_date)) as [g c]. exact H.
Qed.

(** X17. The gaps of [get_gap_nights] are the free nights.  When the stays
    it walks come in the order of their check-in days and none ends before
    it starts, the gaps are the intervals of a list in which every night
    is a night from today on that lies in no walked stay, and every night
    from today to the end of the look-ahead that lies in no walked stay is
    in one of the gaps. *)
Theorem gaps_are_the_free_nights (bookings : list Booking) (pid : string)
    (lookahead_days : Z) (clk : nat -> instant) (t : nat) :
  let today_date := i_today (clk t) in
  let stays := walked_stays bookings pid today_date in
  stays_in_order stays ->
  exists ivs : list (date * date),
    (get_gap_nights bookings pid lookahead_days clk t).1 = (gap_of <$> ivs)
    /\ (forall d iv, iv ∈ ivs -> night_in d iv ->
          today_date <= d /\ forall s, s ∈ stays -> ~ night_in d s)
    /\ (forall d, today_date <= d < today_date + lookahead_days ->
          (forall s, s ∈ stays -> ~ night_in d s) ->
          exists iv, iv ∈ ivs /\ night_in d iv).
Proof.
  intros today_date stays [Hs Hw].
  exists (vacancy_walk today_date stays (today_date + lookahead_days)).
  split; [|clearbody stays today_date; split].
  - unfold get_gap_nights, bind, date_today, ret. simpl.
    apply gaps_from_walk.
  - intros d iv Hin Hd.
    apply Sorted_StronglySorted in Hs; [|intros x y z; lia].
    destruct (vacancy_walk_sound _ _ Hs Hw _ _ Hin) as [Hc Hfree].
    unfold night_in, date in *. split; [lia|].
    intros s Hin' Hs'. destruct (Hfree s Hin'); lia.
  - intros d Hd Hfree. by apply vacancy_walk_complete.
Qed.

(** The two stays of the gap example, seen on the first of March. *)
Lemma gaps_are_the_free_nights_witness :
  exists ivs : list (date * date),
    (get_gap_nights gap_bookings "P1" 9 sample_clock 0%nat).1 = (gap_of <$> ivs)
    /\ (forall d iv, iv ∈ ivs -> night_in d iv ->
          739676 <= d
          /\ forall s, s ∈ walked_stays gap_bookings "P1" 739676 -> ~ night_in d s)
    /\ (forall d, 739676 <= d < 739676 + 9 ->
          (forall s, s ∈ walked_stays gap_bookings "P1" 739676 -> ~ night_in d s) ->
          exists iv, iv ∈ ivs /\ night_in d iv).
Proof.
  apply (gaps_are_the_free_nights gap_bookings "P1" 9 sample_clock 0%nat).
  assert (H : walked_stays gap_bookings "P1" (i_today (sample_clock 0%nat))
              = [(739676, 739678); (739681, 739684)]) by (vm_compute; reflexivity).
  rewrite H. split; repeat constructor; simpl; lia.
Defined.

(** ** The lines of Schedule E *)



Section Partition.

Context {A : Type} (f : A -> string).




End Partition.





(** ** Pricing suggestions *)








(** ** The portfolio *)

Lemma for_each_cons {A S : Type} (body : S -> A -> Clocked S) (x : A)
    (l : list A) (s : S) (clk : nat -> instant) (t : nat) :
  for_each body (x :: l) s clk t
  = for_each body l (body s x clk t).1 clk (body s x clk t).2.
Proof. cbn [for_each]. unfold bind. by destruct (body s x clk t). Qed.

Lemma portfolio_loop (bookings : list Booking) (s e : date)
    (clk : nat -> instant) (t : nat) (properties : list Property) :
  forall acc,
    let r := for_each (portfolio_step bookings (Some s) (Some e)) properties
               acc clk t in
    r.2 = t
    /\ pa_nights r.1
       = pa_nights acc
         + fold_right Z.add 0
             (List.map
                (fun p => total_nights_booked
                            (metrics_over bookings (p_property_id p) s e clk t))
                properties)
    /\ pa_bookings r.1
       = (pa_bookings acc
          + fold_right Nat.add 0
              (List.map
                 (fun p => length (prop_bookings_of bookings (p_property_id p)))
                 properties))%nat
    /\ forall k,
         pa_per_property r.1 !! k
         = if existsb (fun p => String.eqb k (p_property_id p)) properties
           then Some (metrics_over bookings k s e clk t)
           else pa_per_property acc !! k.
Proof.
  induction properties as [|p ps IH]; intros acc.
  - simpl. repeat split; lia.
  - rewrite for_each_cons. cbv zeta.
    assert (Hstep : portfolio_step bookings (Some s) (Some e) acc p clk t
                    = (portfolio_given bookings s e acc p, t)) by reflexivity.
    rewrite Hstep. cbn [fst snd].
    set (acc1 := portfolio_given bookings s e acc p).
    destruct (IH acc1) as (Ht & Hn & Hb & Hk).
    split; [exact Ht|]. split; [|split].
    + rewrite Hn. cbn [List.map fold_right].
      change (metrics_over bookings (p_property_id p) s e clk t)
        with (metrics_of bookings (p_property_id p) s e).
      change (pa_nights acc1)
        with (pa_nights acc
              + total_nights_booked (metrics_of bookings (p_property_id p) s e)).
      lia.
    + rewrite Hb. cbn [List.map fold_right].
      change (pa_bookings acc1)
        with (pa_bookings acc
              + length (prop_bookings_of bookings (p_property_id p)))%nat.
      lia.
    + intros k. rewrite Hk. cbn [existsb].
      destruct (existsb _ ps); [by rewrite orb_true_r|].
      rewrite orb_false_r.
      change (pa_per_property acc1)
        with (<[p_property_id p := metrics_of bookings (p_property_id p) s e]>
                (pa_per_property acc)).
      destruct (String.eqb_spec k (p_property_id p)) as [->|Hne].
      * by rewrite lookup_insert_eq.
      * by rewrite lookup_insert_ne.
Qed.

Lemma filter_length_split {A : Type} (f g h : A -> bool) (l : list A) :
  (forall x, f x = g x || h x) ->
  (forall x, g x && h x = false) ->
  length (List.filter f l)
  = (length (List.filter g l) + length (List.filter h l))%nat.
Proof.
  intros Hf Hd. induction l as [|x l IH]; [done|].
  cbn [List.filter]. rewrite Hf. specialize (Hd x).
  destruct (g x), (h x); try discriminate; cbn [orb length]; lia.
Qed.

Lemma portfolio_count_one (bookings : list Booking) (p : Property)
    (ps : list Property) :
  p_property_id p ∉ (p_property_id <$> ps) ->
  length (List.filter (in_portfolio (p :: ps)) bookings)
  = (length (prop_bookings_of bookings (p_property_id p))
     + length (List.filter (in_portfolio ps) bookings))%nat.
Proof.
  intros Hp. unfold prop_bookings_of.
  apply filter_length_split; intros b; unfold in_portfolio, not_cancelled;
    cbn [existsb].
  - destruct (String.eqb (property_id b) (p_property_id p)),
      (negb (String.eqb (status b) "cancelled")), (existsb _ ps); reflexivity.
  - destruct (String.eqb_spec (property_id b) (p_property_id p)) as [Heq|Hne];
      [|done].
    assert (Hno : existsb (fun q => String.eqb (property_id b) (p_property_id q)) ps
                  = false).
    { apply not_true_is_false. intros Hex.
      apply existsb_exists in Hex as (q & Hq & Hid).
      apply String.eqb_eq in Hid. apply Hp. rewrite <- Heq, Hid.
      apply list_elem_of_fmap. exists q. split; [done|].
      by apply list_elem_of_In. }
    rewrite Hno. by rewrite !andb_false_r.
Qed.

Lemma portfolio_count (bookings : list Booking) (properties : list Property) :
  NoDup (p_property_id <$> properties) ->
  fold_right Nat.add 0%nat
    (List.map (fun p => length (prop_bookings_of bookings (p_property_id p)))
       properties)
  = length (List.filter (in_portfolio properties) bookings).
Proof.
  induction properties as [|p ps IH]; intros Hnd.
  - cbn [List.map fold_right]. unfold in_portfolio. cbn [existsb].
    induction bookings as [|b bs IHb]; [done|].
    cbn [List.filter]. by rewrite andb_false_r.
  - rewrite fmap_cons in Hnd. apply NoDup_cons in Hnd as [Hp Hnd].
    cbn [List.map fold_right]. rewrite (IH Hnd).
    by rewrite portfolio_count_one.
Qed.

(** X20. Over a given window [calculate_portfolio_metrics] does not read
    the clock; the nights it totals are the sum over the list of properties
    of the nights of each; [per_property] has the metrics of a property
    under its id, for the ids of the list and no other; and when the ids of
    the properties are pairwise different, [total_bookings] counts every
    booking that is not cancelled and belongs to one of the properties
    once, and no other. *)
Theorem portfolio_totals (sum : list float -> float) (bookings : list Booking)
    (properties : list Property) (s e : date) (clk : nat -> instant) (t : nat) :
  let P := portfolio_over sum bookings properties s e clk t in
  (calculate_portfolio_metrics sum bookings properties (Some s) (Some e) clk t).2
  = t
  /\ pf_total_nights_booked P
     = fold_right Z.add 0
         (List.map
            (fun p => total_nights_booked
                        (metrics_over bookings (p_property_id p) s e clk t))
            properties)
  /\ (forall k,
        pf_per_property P !! k
        = if existsb (fun p => String.eqb k (p_property_id p)) properties
          then Some (metrics_over bookings k s e clk t)
          else None)
  /\ (NoDup (p_property_id <$> properties) ->
      pf_total_bookings P
      = length (List.filter (in_portfolio properties) bookings)
      /\ (pf_total_bookings P <= length bookings)%nat).
Proof.
  intros P.
  destruct (portfolio_loop bookings s e clk t properties portfolio_acc0)
    as (Ht & Hn & Hb & Hk).
  subst P. unfold portfolio_over, calculate_portfolio_metrics, bind, ret.
  destruct (for_each _ properties portfolio_acc0 clk t) as [acc t'].
  cbn [fst snd] in *. cbn [pf_total_nights_booked pf_per_property pf_total_bookings].
  split; [done|]. split; [by rewrite Hn|]. split.
  - intros k. rewrite Hk. cbn [portfolio_acc0 pa_per_property].
    by rewrite lookup_empty.
  - intros Hnd. rewrite Hb. cbn [portfolio_acc0 pa_bookings plus].
    rewrite (portfolio_count bookings properties Hnd).
    split; [done|]. apply List.filter_length_le.
Qed.
